(** * go-oidc: a shallow embedding of the protocol engine

    The development follows the packages of the repository.  Each Go
    function that a property below talks about is transcribed as a Rocq
    function of the same name, inside a module named after its package.

    Conventions of the embedding.
    - A Go [string] is a [string] (a sequence of bytes); named string types
      ([GrantType], [ClientAuthnType], [ResponseType], ...) are strings too.
    - A Go [int] is a 64-bit integer, kept as a [Z]; arithmetic that the
      code performs on it goes through [int_add], which wraps.
    - A Go [error] is an [option]: [None] is the nil error.
    - A Go map is [gomap V]: [None] is the nil map, which can be read but
      not written.
    - A panic is the [Panic] outcome of [outcome].
    - Host-supplied stores and clocks are explicit arguments. *)

From Stdlib Require Import ZArith String Ascii List Bool Lia.
From stdpp Require Import base option list gmap strings.

Open Scope string_scope.
Open Scope Z_scope.

(* ===================================================================== *)
(** * Go primitives                                                       *)
(* ===================================================================== *)

Module golang.

(** The result of running code that may panic. *)
Inductive outcome (A : Type) : Type :=
| Ret (a : A)
| Panic (msg : string).
Arguments Ret {A} a.
Arguments Panic {A} msg.

Definition bind {A B} (m : outcome A) (k : A -> outcome B) : outcome B :=
  match m with
  | Ret a => k a
  | Panic msg => Panic msg
  end.

(** [error]: nil or a message. *)
Definition error : Type := option string.
Definition errors_New (msg : string) : error := Some msg.

(** 64-bit two's complement [int]. *)
Definition int_min : Z := - 2 ^ 63.
Definition int_max : Z := 2 ^ 63 - 1.
Definition int_wrap (z : Z) : Z := (z + 2 ^ 63) mod 2 ^ 64 - 2 ^ 63.
Definition int_add (a b : Z) : Z := int_wrap (a + b).

(** The dynamically typed values ([any]) that the engine stores in claim
    maps and session scratchpads. *)
Inductive any : Type :=
| any_nil
| any_string (s : string)
| any_int (z : Z)
| any_bool (b : bool)
| any_strings (l : list string).

(** [map[string]V]; [None] is the nil map. *)
Definition gomap (V : Type) : Type := option (gmap string V).

Definition make_map {V} : gomap V := Some ∅.

(** [m[k]] on a map of [any]: the zero value (nil) when the key is
    missing or the map is nil. *)
Definition map_index (m : gomap any) (k : string) : any :=
  match m with
  | None => any_nil
  | Some g => default any_nil (g !! k)
  end.

(** [m[k] = v]: panics on the nil map. *)
Definition map_assign {V} (m : gomap V) (k : string) (v : V) : outcome (gomap V) :=
  match m with
  | None => Panic "assignment to entry in nil map"
  | Some g => Ret (Some (<[k := v]> g))
  end.

(** [slices.Contains]. *)
Fixpoint Contains {A} `{EqDecision A} (s : list A) (v : A) : bool :=
  match s with
  | [] => false
  | x :: s' => if decide (x = v) then true else Contains s' v
  end.

(** [slices.ContainsFunc]. *)
Fixpoint ContainsFunc {A} (s : list A) (f : A -> bool) : bool :=
  match s with
  | [] => false
  | x :: s' => if f x then true else ContainsFunc s' f
  end.

Definition space : ascii := " "%char.

(** [strings.Split(s, " ")]: one field per separator, empty fields kept;
    the empty string gives one empty field. *)
Fixpoint Split (s : string) : list string :=
  match s with
  | EmptyString => [EmptyString]
  | String c s' =>
      if Ascii.eqb c space then EmptyString :: Split s'
      else match Split s' with
           | [] => [String c EmptyString]
           | w :: ws => String c w :: ws
           end
  end.

(** [strings.ReplaceAll(s, " ", "")]. *)
Fixpoint ReplaceAll_space_empty (s : string) : string :=
  match s with
  | EmptyString => EmptyString
  | String c s' =>
      if Ascii.eqb c space then ReplaceAll_space_empty s'
      else String c (ReplaceAll_space_empty s')
  end.

Fixpoint TrimLeft_space (s : string) : string :=
  match s with
  | EmptyString => EmptyString
  | String c s' => if Ascii.eqb c space then TrimLeft_space s' else s
  end.

(** Drops the trailing spaces: a space is kept only when something that
    is not a space follows it. *)
Fixpoint TrimRight_space (s : string) : string :=
  match s with
  | EmptyString => EmptyString
  | String c s' =>
      match TrimRight_space s' with
      | EmptyString => if Ascii.eqb c space then EmptyString else String c EmptyString
      | t => String c t
      end
  end.

(** [strings.Trim(s, " ")]. *)
Definition Trim_space (s : string) : string := TrimRight_space (TrimLeft_space s).

(** [len(s)] for a string, as an [int]. *)
Definition len (s : string) : Z := Z.of_nat (String.length s).

(** [strings.HasPrefix(s, prefix)]. *)
Definition HasPrefix (s prefix : string) : bool := String.prefix prefix s.

End golang.
Export golang.

(* ===================================================================== *)
(** * encoding/json, as far as the engine uses it                         *)
(* ===================================================================== *)

Module json.

(** A JSON document.  The bytes that travel between [Marshal] and
    [Unmarshal] are kept as the document they spell: the encoder prints
    well-formed text and the decoder reads back the document printed. *)
#[warnings="-register-all"]
Inductive document : Type :=
| JNull
| JBool (b : bool)
| JNumber (z : Z)
| JString (s : string)
| JArray (l : list document)
| JObject (l : list (string * document)).

(** ** UTF-8, as [unicode/utf8] reads it *)

Definition in_range (lo hi : N) (c : ascii) : bool :=
  ((lo <=? N_of_ascii c) && (N_of_ascii c <=? hi))%N.

Definition is_cont (c : ascii) : bool := in_range 128 191 c.

(** Well-formed three-byte lead pairs: E0 A0..BF, E1..EC 80..BF,
    ED 80..9F, EE..EF 80..BF. *)
Definition lead3 (b0 b1 : ascii) : bool :=
  (in_range 224 224 b0 && in_range 160 191 b1)
  || (in_range 225 236 b0 && is_cont b1)
  || (in_range 237 237 b0 && in_range 128 159 b1)
  || (in_range 238 239 b0 && is_cont b1).

(** Well-formed four-byte lead pairs: F0 90..BF, F1..F3 80..BF,
    F4 80..8F. *)
Definition lead4 (b0 b1 : ascii) : bool :=
  (in_range 240 240 b0 && in_range 144 191 b1)
  || (in_range 241 243 b0 && is_cont b1)
  || (in_range 244 244 b0 && in_range 128 143 b1).

(** The width of the encoding that starts [s], or 0 when [s] is empty or
    starts with bytes that encode nothing ([utf8.DecodeRuneInString]
    returning [RuneError] with width 1). *)
Definition rune_size (s : string) : nat :=
  match s with
  | EmptyString => 0%nat
  | String b0 t =>
      if in_range 0 127 b0 then 1%nat
      else match t with
           | EmptyString => 0%nat
           | String b1 t1 =>
               if in_range 194 223 b0 && is_cont b1 then 2%nat
               else match t1 with
                    | EmptyString => 0%nat
                    | String b2 t2 =>
                        if lead3 b0 b1 && is_cont b2 then 3%nat
                        else match t2 with
                             | EmptyString => 0%nat
                             | String b3 _ =>
                                 if lead4 b0 b1 && is_cont b2 && is_cont b3
                                 then 4%nat else 0%nat
                             end
                    end
           end
  end.

(** [utf8.ValidString]; [pending] counts the bytes still to copy of the
    encoding being read. *)
Fixpoint ValidString_from (pending : nat) (s : string) : bool :=
  match s with
  | EmptyString => true
  | String _ t =>
      match pending with
      | S p => ValidString_from p t
      | O => match rune_size s with
             | O => false
             | S k => ValidString_from k t
             end
      end
  end.

Definition ValidString (s : string) : bool := ValidString_from 0 s.

(** U+FFFD in UTF-8: EF BF BD. *)
Definition replacement : string :=
  String (ascii_of_N 239) (String (ascii_of_N 191) (String (ascii_of_N 189) EmptyString)).

(** The coercion the encoder applies to a string: every byte that starts
    no encoding becomes U+FFFD. *)
Fixpoint coerce_from (pending : nat) (s : string) : string :=
  match s with
  | EmptyString => EmptyString
  | String c t =>
      match pending with
      | S p => String c (coerce_from p t)
      | O => match rune_size s with
             | O => (replacement ++ coerce_from 0 t)%string
             | S k => String c (coerce_from k t)
             end
      end
  end.

Definition toValidUTF8 (s : string) : string := coerce_from 0 s.

(** ** Encoding *)

(** [json.Marshal(s)] for a string. *)
Definition Marshal_string (s : string) : document := JString (toValidUTF8 s).

(** [json.Marshal(l)] for a [[]string]; [None] is the nil slice. *)
Definition Marshal_strings (l : option (list string)) : document :=
  match l with
  | None => JNull
  | Some xs => JArray (map Marshal_string xs)
  end.

(** ** Decoding *)

(** [json.Unmarshal(data, &s)] into a string that holds [s0]: a JSON
    string is stored, null leaves the variable as it is, anything else
    is a type error. *)
Definition Unmarshal_string (data : document) (s0 : string) : string * error :=
  match data with
  | JString s => (s, None)
  | JNull => (s0, None)
  | _ => (s0, errors_New "json: cannot unmarshal into Go value of type string")
  end.

(** The elements of an array read into fresh strings; [None] when one of
    them is a type error. *)
Fixpoint Unmarshal_elements (l : list document) : option (list string) :=
  match l with
  | [] => Some []
  | d :: rest =>
      match Unmarshal_string d "", Unmarshal_elements rest with
      | (s, None), Some ss => Some (s :: ss)
      | _, _ => None
      end
  end.

(** [json.Unmarshal(data, &l)] into a [[]string]: null gives the nil
    slice, an array gives its elements. *)
Definition Unmarshal_strings (data : document) : option (list string) * error :=
  match data with
  | JNull => (None, None)
  | JArray l =>
      match Unmarshal_elements l with
      | Some ss => (Some ss, None)
      | None => (None, errors_New "json: cannot unmarshal into Go value of type string")
      end
  | _ => (None, errors_New "json: cannot unmarshal into Go value of type []string")
  end.

End json.

(* ===================================================================== *)
(** * package goidc: constants and helper functions                       *)
(* ===================================================================== *)

Module goidc.

(** pkg/goidc/constant.go *)
Definition CallbackIDLength : Z := 20.
Definition AuthorizationCodeLength : Z := 30.
Definition RefreshTokenLength : Z := 99.

Definition ProfileOpenID : string := "oidc_profile".
Definition ProfileFAPI2 : string := "fapi2_profile".

Definition GrantClientCredentials : string := "client_credentials".
Definition GrantAuthorizationCode : string := "authorization_code".
Definition GrantRefreshToken : string := "refresh_token".
Definition GrantImplicit : string := "implicit".
Definition GrantIntrospection : string := "urn:goidc:oauth2:grant_type:token_intropection".

Definition ResponseTypeCode : string := "code".
Definition ResponseTypeIDToken : string := "id_token".
Definition ResponseTypeToken : string := "token".

Definition ClientAuthnNone : string := "none".
Definition ClientAuthnSecretBasic : string := "client_secret_basic".
Definition ClientAuthnSecretPost : string := "client_secret_post".
Definition ClientAuthnSecretJWT : string := "client_secret_jwt".
Definition ClientAuthnPrivateKeyJWT : string := "private_key_jwt".
Definition ClientAuthnTLS : string := "tls_client_auth".
Definition ClientAuthnSelfSignedTLS : string := "self_signed_tls_client_auth".

Definition ClaimTokenID : string := "jti".

Definition EndpointPushedAuthorizationRequest : string := "/par".
Definition EndpointToken : string := "/token".
Definition EndpointUserInfo : string := "/userinfo".

Inductive ErrorCode : Type :=
| ErrorCodeAccessDenied
| ErrorCodeInvalidClient
| ErrorCodeInvalidGrant
| ErrorCodeInvalidRequest
| ErrorCodeUnauthorizedClient
| ErrorCodeInvalidScope
| ErrorCodeInvalidClientMetadata
| ErrorCodeInternalError.

(** An OAuth error: a code and a description; the nil error is [None]. *)
Record OAuthErrorValue : Type := NewOAuthErrorValue {
  ErrorCodeOf : ErrorCode;
  ErrorDescription : string
}.
Definition OAuthError : Type := option OAuthErrorValue.
Definition NewOAuthError (code : ErrorCode) (description : string) : OAuthError :=
  Some (NewOAuthErrorValue code description).

Definition ClientSecretCharset : string :=
  "abcdefghijklmnopqrstuvwxyzABCDEFGHIJKLMNOPQRSTUVWXYZ0123456789".

Definition ScopeOpenID_ID : string := "openid".

(** [ResponseType.Contains] *)
Definition ResponseType_Contains (rt : string) (responseType : string) : bool :=
  Contains (Split rt) responseType.

(** pkg/goidc/function.go *)
Definition SplitStringWithSpaces (s : string) : list string :=
  if String.eqb (ReplaceAll_space_empty (Trim_space s)) "" then [] else Split s.

Fixpoint ContainsAll {A} `{EqDecision A} (superSet : list A) (subSet : list A) : bool :=
  match subSet with
  | [] => true
  | e :: rest => if negb (Contains superSet e) then false else ContainsAll superSet rest
  end.

Definition ContainsAllScopes (scopesSuperSet scopesSubSet : string) : bool :=
  ContainsAll (SplitStringWithSpaces scopesSuperSet) (SplitStringWithSpaces scopesSubSet).

Definition ScopesContainsOpenID (scopes : string) : bool :=
  Contains (SplitStringWithSpaces scopes) ScopeOpenID_ID.

(** The entropy source: the i-th number that [crypto/rand] hands out.
    [rand.Int(rand.Reader, max)] is uniform in [0, max); the reader does
    not return errors (a failing system source aborts the process), so
    the [err != nil] branch of [RandomString] is not reachable. *)
Definition Reader : Type := nat -> nat.

Definition rand_Int (r : Reader) (i : nat) (max : nat) : nat := (r i mod max)%nat.

Definition charset_at (n : nat) : ascii :=
  default "a"%char (String.get n ClientSecretCharset).

(** The loop of [RandomString]: [k] characters, reading the source from
    position [i] on. *)
Fixpoint RandomString_loop (r : Reader) (i : nat) (k : nat) : string :=
  match k with
  | O => EmptyString
  | S k' =>
      String (charset_at (rand_Int r i (String.length ClientSecretCharset)))
             (RandomString_loop r (S i) k')
  end.

(** [RandomString(n)]: [make([]byte, n)] panics for a negative [n]. *)
Definition RandomString (r : Reader) (i : nat) (n : Z) : outcome string :=
  if n <? 0 then Panic "makeslice: len out of range"
  else Ret (RandomString_loop r i (Z.to_nat n)).


(** ** [Resources] ([type Resources []string]); [None] is the nil slice. *)
Definition Resources : Type := option (list string).

Definition Resources_len (r : Resources) : nat :=
  match r with
  | None => 0%nat
  | Some l => length l
  end.

(** [func (resources Resources) MarshalJSON() ([]byte, error)] *)
Definition Resources_MarshalJSON (resources : Resources) : json.document * error :=
  match resources with
  | Some [resource] => (json.Marshal_string resource, None)
  | _ => (json.Marshal_strings resources, None)
  end.

(** [func (r *Resources) UnmarshalJSON(data []byte) error]: the value
    left in [*r] (it starts as [r0]) and the error. *)
Definition Resources_UnmarshalJSON (r0 : Resources) (data : json.document)
  : Resources * error :=
  match json.Unmarshal_string data "" with
  | (resource, None) => (Some [resource], None)
  | (_, Some _) =>
      match json.Unmarshal_strings data with
      | (_, Some err) => (r0, Some err)
      | (resources, None) => (resources, None)
      end
  end.

(** [json.Marshal(r)] followed by [json.Unmarshal(bytes, &r')] on a fresh
    [r']. *)
Definition Resources_roundtrip (r : Resources) : Resources * error :=
  match Resources_MarshalJSON r with
  | (data, None) => Resources_UnmarshalJSON None data
  | (_, Some err) => (None, Some err)
  end.

(** ** [AuthorizationParameters] (the fields the engine reads here) *)
Record AuthorizationParameters : Type := {
  RedirectURI : string;
  ResponseType : string;
  Scopes : string;
  State : string
}.

(** ** [AuthnSession] *)
Record AuthnSession : Type := {
  ID : string;
  CallbackID : string;
  PolicyID : string;
  ExpiresAtTimestamp : Z;
  CreatedAtTimestamp : Z;
  Subject : string;
  ClientID : string;
  GrantedScopes : string;
  AuthorizationCode : string;
  AuthorizedAtTimestamp : Z;
  Store : gomap any;
  AdditionalTokenClaims : gomap any;
  AdditionalIDTokenClaims : gomap any;
  AdditionalUserInfoClaims : gomap any;
  Params : AuthorizationParameters
}.

(** The zero value [goidc.AuthnSession{}]. *)
Definition AuthnSession_zero : AuthnSession := {|
  ID := ""; CallbackID := ""; PolicyID := "";
  ExpiresAtTimestamp := 0; CreatedAtTimestamp := 0;
  Subject := ""; ClientID := ""; GrantedScopes := "";
  AuthorizationCode := ""; AuthorizedAtTimestamp := 0;
  Store := None; AdditionalTokenClaims := None;
  AdditionalIDTokenClaims := None; AdditionalUserInfoClaims := None;
  Params := {| RedirectURI := ""; ResponseType := ""; Scopes := ""; State := "" |}
|}.

(** Field assignments [s.F = v]. *)
Definition with_Store (s : AuthnSession) (m : gomap any) : AuthnSession := {|
  ID := ID s; CallbackID := CallbackID s; PolicyID := PolicyID s;
  ExpiresAtTimestamp := ExpiresAtTimestamp s; CreatedAtTimestamp := CreatedAtTimestamp s;
  Subject := Subject s; ClientID := ClientID s; GrantedScopes := GrantedScopes s;
  AuthorizationCode := AuthorizationCode s; AuthorizedAtTimestamp := AuthorizedAtTimestamp s;
  Store := m; AdditionalTokenClaims := AdditionalTokenClaims s;
  AdditionalIDTokenClaims := AdditionalIDTokenClaims s;
  AdditionalUserInfoClaims := AdditionalUserInfoClaims s;
  Params := Params s
|}.

Definition with_AdditionalTokenClaims (s : AuthnSession) (m : gomap any) : AuthnSession := {|
  ID := ID s; CallbackID := CallbackID s; PolicyID := PolicyID s;
  ExpiresAtTimestamp := ExpiresAtTimestamp s; CreatedAtTimestamp := CreatedAtTimestamp s;
  Subject := Subject s; ClientID := ClientID s; GrantedScopes := GrantedScopes s;
  AuthorizationCode := AuthorizationCode s; AuthorizedAtTimestamp := AuthorizedAtTimestamp s;
  Store := Store s; AdditionalTokenClaims := m;
  AdditionalIDTokenClaims := AdditionalIDTokenClaims s;
  AdditionalUserInfoClaims := AdditionalUserInfoClaims s;
  Params := Params s
|}.

Definition with_AdditionalIDTokenClaims (s : AuthnSession) (m : gomap any) : AuthnSession := {|
  ID := ID s; CallbackID := CallbackID s; PolicyID := PolicyID s;
  ExpiresAtTimestamp := ExpiresAtTimestamp s; CreatedAtTimestamp := CreatedAtTimestamp s;
  Subject := Subject s; ClientID := ClientID s; GrantedScopes := GrantedScopes s;
  AuthorizationCode := AuthorizationCode s; AuthorizedAtTimestamp := AuthorizedAtTimestamp s;
  Store := Store s; AdditionalTokenClaims := AdditionalTokenClaims s;
  AdditionalIDTokenClaims := m;
  AdditionalUserInfoClaims := AdditionalUserInfoClaims s;
  Params := Params s
|}.

Definition with_AdditionalUserInfoClaims (s : AuthnSession) (m : gomap any) : AuthnSession := {|
  ID := ID s; CallbackID := CallbackID s; PolicyID := PolicyID s;
  ExpiresAtTimestamp := ExpiresAtTimestamp s; CreatedAtTimestamp := CreatedAtTimestamp s;
  Subject := Subject s; ClientID := ClientID s; GrantedScopes := GrantedScopes s;
  AuthorizationCode := AuthorizationCode s; AuthorizedAtTimestamp := AuthorizedAtTimestamp s;
  Store := Store s; AdditionalTokenClaims := AdditionalTokenClaims s;
  AdditionalIDTokenClaims := AdditionalIDTokenClaims s;
  AdditionalUserInfoClaims := m;
  Params := Params s
|}.

Definition with_AuthorizationCode (s : AuthnSession) (code : string) (at_ : Z) : AuthnSession := {|
  ID := ID s; CallbackID := CallbackID s; PolicyID := PolicyID s;
  ExpiresAtTimestamp := ExpiresAtTimestamp s; CreatedAtTimestamp := CreatedAtTimestamp s;
  Subject := Subject s; ClientID := ClientID s; GrantedScopes := GrantedScopes s;
  AuthorizationCode := code; AuthorizedAtTimestamp := at_;
  Store := Store s; AdditionalTokenClaims := AdditionalTokenClaims s;
  AdditionalIDTokenClaims := AdditionalIDTokenClaims s;
  AdditionalUserInfoClaims := AdditionalUserInfoClaims s;
  Params := Params s
|}.

(** [func (s *AuthnSession) StoreParameter(key string, value any)] *)
Definition StoreParameter (s : AuthnSession) (key : string) (value : any)
  : outcome AuthnSession :=
  let s1 := match Store s with
            | None => with_Store s make_map
            | Some _ => s
            end in
  bind (map_assign (Store s1) key value) (fun m => Ret (with_Store s1 m)).

(** [func (s *AuthnSession) Parameter(key string) any] (the bare name is a
    reserved word here). *)
Definition AuthnSession_Parameter (s : AuthnSession) (key : string) : any :=
  map_index (Store s) key.

(** [func (s *AuthnSession) SetTokenClaim(claim string, value any)] *)
Definition SetTokenClaim (s : AuthnSession) (claim : string) (value : any)
  : outcome AuthnSession :=
  let s1 := match AdditionalTokenClaims s with
            | None => with_AdditionalTokenClaims s make_map
            | Some _ => s
            end in
  bind (map_assign (AdditionalTokenClaims s1) claim value)
       (fun m => Ret (with_AdditionalTokenClaims s1 m)).

(** [func (s *AuthnSession) SetIDTokenClaim(claim string, value any)] *)
Definition SetIDTokenClaim (s : AuthnSession) (claim : string) (value : any)
  : outcome AuthnSession :=
  let s1 := match AdditionalIDTokenClaims s with
            | None => with_AdditionalIDTokenClaims s make_map
            | Some _ => s
            end in
  bind (map_assign (AdditionalIDTokenClaims s1) claim value)
       (fun m => Ret (with_AdditionalIDTokenClaims s1 m)).

(** [func (s *AuthnSession) SetUserInfoClaim(claim string, value any)] *)
Definition SetUserInfoClaim (s : AuthnSession) (claim : string) (value : any)
  : outcome AuthnSession :=
  let s1 := match AdditionalUserInfoClaims s with
            | None => with_AdditionalUserInfoClaims s make_map
            | Some _ => s
            end in
  bind (map_assign (AdditionalUserInfoClaims s1) claim value)
       (fun m => Ret (with_AdditionalUserInfoClaims s1 m)).

(** Modelled from the spec: the generator behind
    [InitAuthorizationCode] ([unit.GenerateAuthorizationCode]) is not
    among the sources; the spec has "an authorization_code is generated
    (30 chars)", and [AuthorizationCode] of function.go draws it with
    [RandomString]. *)
Definition GenerateAuthorizationCode (r : Reader) (i : nat) : string :=
  RandomString_loop r i (Z.to_nat AuthorizationCodeLength).

(** [func (session *AuthnSession) InitAuthorizationCode() string]
    (internal/models/authnsession.go): the code comes from the entropy
    source at position [i], the timestamp from the clock. *)
Definition InitAuthorizationCode (r : Reader) (i : nat) (now : Z) (session : AuthnSession)
  : AuthnSession :=
  with_AuthorizationCode session (GenerateAuthorizationCode r i) now.

(** ** More of pkg/goidc/constant.go *)

Definition RequestURILength : Z := 20.

Definition ResponseModeFormPost : string := "form_post".

(** [func (rt ResponseType) IsImplicit() bool] *)
Definition ResponseType_IsImplicit (rt : string) : bool :=
  ResponseType_Contains rt ResponseTypeIDToken || ResponseType_Contains rt ResponseTypeToken.




(** ** More of pkg/goidc/function.go *)

(** [func RequestURI() (string, error)] *)
Definition RequestURI (r : Reader) (i : nat) : outcome string :=
  bind (RandomString r i RequestURILength)
       (fun s => Ret ("urn:ietf:params:oauth:request_uri:" ++ s)%string).

(** [goidc.AuthnStatus], as src/unnamed/part_006 names its values. *)
Definition Success : string := "success".
Definition InProgress : string := "in_progress".
Definition Failure : string := "failure".

(** [func (s *AuthnSession) IsExpired() bool] (src/unnamed/part_000), when
    the clock shows [now] seconds. *)
Definition IsExpired (s : AuthnSession) (now : Z) : bool := now >? ExpiresAtTimestamp s.

Module Scope.

(** [type Scope struct] (src/unnamed/part_001): [Matches] validates a
    requested scope against the scope. *)
Record t : Type := {
  ID : string;
  Matches : string -> bool
}.

(** [func NewScope(scope string) Scope] *)
Definition NewScope (scope : string) : t := {|
  ID := scope;
  Matches := fun requestedScope => String.eqb scope requestedScope
|}.

(** [func NewDynamicScope(scope string, matchingFunc MatchScopeFunc) Scope] *)
Definition NewDynamicScope (scope : string) (matchingFunc : string -> bool) : t := {|
  ID := scope;
  Matches := matchingFunc
|}.

End Scope.

Definition TokenTypeBearer : string := "Bearer".

End goidc.

(* ===================================================================== *)
(** * package goidc: the parameters of an authorization request            *)
(* ===================================================================== *)

Module AuthorizationParameters.

(** [type ClaimObjectInfo struct] and [type ClaimsObject struct]. *)
Record ClaimObjectInfo : Type := {
  IsEssential : bool;
  Value : string;
  Values : option (list string)
}.

Record ClaimsObject : Type := {
  Userinfo : gomap ClaimObjectInfo;
  IDToken : gomap ClaimObjectInfo
}.

(** [type AuthorizationDetail map[string]any] *)
Definition AuthorizationDetail : Type := gomap any.

(** [type AuthorizationParameters struct] (the goidc part of
    pkg/goidc/authn_session_test.go); a pointer is an [option], and so is a
    slice, whose nil value [Merge] tells from the empty one. *)
Record t : Type := {
  RequestURI : string;
  RequestObject : string;
  RedirectURI : string;
  ResponseMode : string;
  ResponseType : string;
  Scopes : string;
  State : string;
  Nonce : string;
  CodeChallenge : string;
  CodeChallengeMethod : string;
  Prompt : string;
  MaxAuthenticationAgeSecs : option Z;
  Display : string;
  ACRValues : string;
  Claims : option ClaimsObject;
  AuthorizationDetails : option (list AuthorizationDetail)
}.

(** [func nonEmptyOrDefault[T any](s1 T, s2 T) T] at a type whose kind is
    string: [reflect.ValueOf(s1).String()] is the string itself. *)
Definition nonEmptyOrDefault (s1 s2 : string) : string :=
  if String.eqb (s1) "" then s2 else s1.

(** [nonEmptyOrDefault] at a pointer type ([*int]): for a value whose kind
    is not string, [reflect.Value.String] returns a text of the form
    ["<*int Value>"], which is never empty, so the test fails and [s1] is
    returned, nil or not. *)
Definition nonEmptyOrDefault_pointer {A : Type} (s1 s2 : option A) : option A :=
  if String.eqb "<*int Value>" "" then s2 else s1.

(** [func nonNilOrDefault[T any](s1 T, s2 T) T] *)
Definition nonNilOrDefault {A : Type} (s1 s2 : option A) : option A :=
  match s1 with
  | None => s2
  | Some _ => s1
  end.

(** [func (insideParams AuthorizationParameters) Merge(outsideParams AuthorizationParameters) AuthorizationParameters];
    the fields the literal leaves out ([RequestURI], [RequestObject]) get
    their zero value. *)
Definition Merge (insideParams outsideParams : t) : t := {|
  RequestURI := "";
  RequestObject := "";
  RedirectURI := nonEmptyOrDefault (RedirectURI insideParams) (RedirectURI outsideParams);
  ResponseMode := nonEmptyOrDefault (ResponseMode insideParams) (ResponseMode outsideParams);
  ResponseType := nonEmptyOrDefault (ResponseType insideParams) (ResponseType outsideParams);
  Scopes := nonEmptyOrDefault (Scopes insideParams) (Scopes outsideParams);
  State := nonEmptyOrDefault (State insideParams) (State outsideParams);
  Nonce := nonEmptyOrDefault (Nonce insideParams) (Nonce outsideParams);
  CodeChallenge := nonEmptyOrDefault (CodeChallenge insideParams) (CodeChallenge outsideParams);
  CodeChallengeMethod :=
    nonEmptyOrDefault (CodeChallengeMethod insideParams) (CodeChallengeMethod outsideParams);
  Prompt := nonEmptyOrDefault (Prompt insideParams) (Prompt outsideParams);
  MaxAuthenticationAgeSecs :=
    nonEmptyOrDefault_pointer (MaxAuthenticationAgeSecs insideParams)
                              (MaxAuthenticationAgeSecs outsideParams);
  Display := nonEmptyOrDefault (Display insideParams) (Display outsideParams);
  ACRValues := nonEmptyOrDefault (ACRValues insideParams) (ACRValues outsideParams);
  Claims := nonNilOrDefault (Claims insideParams) (Claims outsideParams);
  AuthorizationDetails :=
    nonNilOrDefault (AuthorizationDetails insideParams) (AuthorizationDetails outsideParams)
|}.


End AuthorizationParameters.

(* ===================================================================== *)
(** * package storage: the in-memory AuthnSession store                   *)
(* ===================================================================== *)

Module storage.

(** [type AuthnSessionManager struct { Sessions map[string]*goidc.AuthnSession }]
    (internal/storage/authn_session.go); the mutex is not modelled, each
    operation is atomic. *)
Record AuthnSessionManager : Type := {
  Sessions : gmap string goidc.AuthnSession
}.

Definition NewAuthnSessionManager : AuthnSessionManager := {| Sessions := ∅ |}.

(** [Save]: [m.Sessions[session.ID] = session]; never fails. *)
Definition Save (m : AuthnSessionManager) (session : goidc.AuthnSession)
  : AuthnSessionManager * error :=
  ({| Sessions := <[goidc.ID session := session]> (Sessions m) |}, None).

(** [Delete]: [delete(m.Sessions, id)]; never fails. *)
Definition Delete (m : AuthnSessionManager) (id : string)
  : AuthnSessionManager * error :=
  ({| Sessions := delete id (Sessions m) |}, None).

(** [firstSession]: a stored session that satisfies the condition
    ([findFirst], declared outside the sources, picks the first one of the
    slice it is given).  Go ranges over the map in no fixed order; the
    sessions are taken here in the order of [map_to_list]. *)
Definition firstSession (m : AuthnSessionManager) (condition : goidc.AuthnSession -> bool)
  : option goidc.AuthnSession :=
  List.find condition (map snd (map_to_list (Sessions m))).

Definition SessionByAuthorizationCode (m : AuthnSessionManager) (authorizationCode : string)
  : option goidc.AuthnSession * error :=
  match firstSession m (fun s => String.eqb (goidc.AuthorizationCode s) authorizationCode) with
  | Some s => (Some s, None)
  | None => (None, errors_New "entity not found")
  end.

Definition SessionByCallbackID (m : AuthnSessionManager) (callbackID : string)
  : option goidc.AuthnSession * error :=
  match firstSession m (fun s => String.eqb (goidc.CallbackID s) callbackID) with
  | Some s => (Some s, None)
  | None => (None, errors_New "entity not found")
  end.

(** The invariant of the store: every session sits under its own id. *)
Definition keyed (m : AuthnSessionManager) : Prop :=
  forall k s, Sessions m !! k = Some s -> goidc.ID s = k.

End storage.

(* ===================================================================== *)
(** * package authorize: the end of a successful authorization flow       *)
(* ===================================================================== *)

Module authorize.

(** What [utils.Context] gives [authorizeAuthnSession]: the AuthnSession
    store, the entropy source with the position of the next draw, and the
    clock. *)
Record Context : Type := {
  AuthnSessionManager : storage.AuthnSessionManager;
  Entropy : goidc.Reader;
  EntropyPos : nat;
  Now : Z
}.

Definition with_manager (ctx : Context) (m : storage.AuthnSessionManager) : Context := {|
  AuthnSessionManager := m;
  Entropy := Entropy ctx;
  EntropyPos := EntropyPos ctx;
  Now := Now ctx
|}.

Definition advance (ctx : Context) (k : nat) : Context := {|
  AuthnSessionManager := AuthnSessionManager ctx;
  Entropy := Entropy ctx;
  EntropyPos := (EntropyPos ctx + k)%nat;
  Now := Now ctx
|}.

(** [ctx.DeleteAuthnSession(id)] *)
Definition DeleteAuthnSession (ctx : Context) (id : string) : Context * error :=
  let '(m, err) := storage.Delete (AuthnSessionManager ctx) id in
  (with_manager ctx m, err).

(** [ctx.CreateOrUpdateAuthnSession(session)] *)
Definition CreateOrUpdateAuthnSession (ctx : Context) (session : goidc.AuthnSession)
  : Context * error :=
  let '(m, err) := storage.Save (AuthnSessionManager ctx) session in
  (with_manager ctx m, err).

(** [func authorizeAuthnSession(ctx utils.Context, session *goidc.AuthnSession) goidc.OAuthError]
    (src/unnamed/part_006).  The result is the context after the call,
    the session as the pointer leaves it, and the error. *)
Definition authorizeAuthnSession (ctx : Context) (session : goidc.AuthnSession)
  : Context * goidc.AuthnSession * goidc.OAuthError :=
  let '(ctx1, err1) :=
    if negb (goidc.ResponseType_Contains (goidc.ResponseType (goidc.Params session))
                                         goidc.ResponseTypeCode)
    then
      (* The client didn't request an authorization code to later exchange
         it for an access token, so we don't keep the session anymore. *)
      DeleteAuthnSession ctx (goidc.ID session)
    else (ctx, None) in
  match err1 with
  | Some msg => (ctx1, session, goidc.NewOAuthError goidc.ErrorCodeInternalError msg)
  | None =>
      let session' :=
        goidc.InitAuthorizationCode (Entropy ctx1) (EntropyPos ctx1) (Now ctx1) session in
      let ctx2 := advance ctx1 (Z.to_nat goidc.AuthorizationCodeLength) in
      match CreateOrUpdateAuthnSession ctx2 session' with
      | (ctx3, Some msg) =>
          (ctx3, session', goidc.NewOAuthError goidc.ErrorCodeInternalError msg)
      | (ctx3, None) => (ctx3, session', None)
      end
  end.

(** ** The authentication step of the flow (src/unnamed/part_006) *)

(** The errors of the authorization endpoint: [goidc.NewOAuthError] gives a
    plain error, answered as JSON; [session.NewRedirectError] gives one that
    carries the authorization parameters of the session, to be sent to the
    client's redirect URI. *)
Inductive FlowError : Type :=
| JSONError (e : goidc.OAuthErrorValue)
| RedirectError (e : goidc.OAuthErrorValue) (params : goidc.AuthorizationParameters).

(** A session as the flow holds it: the stored fields and the [Error]
    field, which is not persisted ([json:"-"]) and which a policy may set. *)
Record Session : Type := {
  Data : goidc.AuthnSession;
  Error : option FlowError
}.

(** [func (s *AuthnSession) NewRedirectError(code, description)] *)
Definition NewRedirectError (session : Session) (code : goidc.ErrorCode) (description : string)
  : FlowError :=
  RedirectError (goidc.NewOAuthErrorValue code description) (goidc.Params (Data session)).

(** [goidc.AuthnPolicy]; [AuthnFunc] is [None] for the nil function, which
    is what the zero policy holds.  The function gets the session by
    pointer: it returns the session as it leaves it, and the status. *)
Record AuthnPolicy : Type := {
  Id : string;
  AuthnFunc : option (Context -> Session -> Session * string)
}.

(** [goidc.AuthnPolicy{}] *)
Definition AuthnPolicy_zero : AuthnPolicy := {| Id := ""; AuthnFunc := None |}.

(** [func (ctx Context) GetPolicyById(policyId string) goidc.AuthnPolicy]
    (internal/utils/context.go has it as [GetPolicyByID]), over the
    policies of the configuration. *)
Fixpoint GetPolicyById (policies : list AuthnPolicy) (policyId : string) : AuthnPolicy :=
  match policies with
  | [] => AuthnPolicy_zero
  | policy :: rest =>
      if String.eqb (Id policy) policyId then policy else GetPolicyById rest policyId
  end.

(** [func finishFlowWithFailure(ctx utils.Context, session *goidc.AuthnSession) goidc.OAuthError] *)
Definition finishFlowWithFailure (ctx : Context) (session : Session)
  : Context * option FlowError :=
  match DeleteAuthnSession ctx (goidc.ID (Data session)) with
  | (ctx1, Some msg) =>
      (ctx1, Some (NewRedirectError session goidc.ErrorCodeInternalError msg))
  | (ctx1, None) =>
      match Error session with
      | Some err => (ctx1, Some err)
      | None => (ctx1, Some (NewRedirectError session goidc.ErrorCodeAccessDenied "access denied"))
      end
  end.

(** [func stopFlowInProgress(ctx utils.Context, session *goidc.AuthnSession) goidc.OAuthError] *)
Definition stopFlowInProgress (ctx : Context) (session : Session)
  : Context * option FlowError :=
  match CreateOrUpdateAuthnSession ctx (Data session) with
  | (ctx1, Some msg) =>
      (ctx1, Some (JSONError (goidc.NewOAuthErrorValue goidc.ErrorCodeInternalError msg)))
  | (ctx1, None) => (ctx1, None)
  end.

Section Flow.

(** The policies of the configuration. *)
Variable Policies : list AuthnPolicy.

(** The host's client store, behind [ctx.GetClient]. *)
Variable Client : Type.
Variable GetClient : string -> Client * error.

(** Functions of the package that lean on code declared outside the
    sources: [redirectError] builds the redirection that carries an error,
    and [finishFlowSuccessfully] mints the tokens of the response through
    [utils.MakeToken], [utils.MakeIdToken] and [redirectResponse]. *)
Variable redirectError : Context -> FlowError -> Client -> option FlowError.
Variable finishFlowSuccessfully : Context -> Session -> Context * Session * option FlowError.

(** [func authenticate(ctx utils.Context, session *goidc.AuthnSession) goidc.OAuthError]:
    the context after the call, the session as the pointer leaves it, and
    the error; calling the nil [AuthnFunc] of the zero policy panics. *)
Definition authenticate (ctx : Context) (session : Session)
  : outcome (Context * Session * option FlowError) :=
  let policy := GetPolicyById Policies (goidc.PolicyID (Data session)) in
  match AuthnFunc policy with
  | None => Panic "invalid memory address or nil pointer dereference"
  | Some authnFunc =>
      let '(session1, status) := authnFunc ctx session in
      if String.eqb status goidc.Success then Ret (finishFlowSuccessfully ctx session1)
      else if String.eqb status goidc.InProgress then
        let '(ctx1, err) := stopFlowInProgress ctx session1 in Ret (ctx1, session1, err)
      else
        let '(ctx1, err) := finishFlowWithFailure ctx session1 in Ret (ctx1, session1, err)
  end.

(** [func ContinueAuth(ctx utils.Context, callbackId string) goidc.OAuthError] *)
Definition ContinueAuth (ctx : Context) (callbackId : string)
  : outcome (Context * option FlowError) :=
  (* Fetch the session using the callback ID. *)
  match storage.SessionByCallbackID (AuthnSessionManager ctx) callbackId with
  | (_, Some msg) =>
      Ret (ctx, Some (JSONError (goidc.NewOAuthErrorValue goidc.ErrorCodeInvalidRequest msg)))
  | (None, None) => Panic "invalid memory address or nil pointer dereference"
  | (Some stored, None) =>
      if goidc.IsExpired stored (Now ctx)
      then Ret (ctx, Some (JSONError (goidc.NewOAuthErrorValue goidc.ErrorCodeInvalidRequest
                                        "session timeout")))
      else
        bind (authenticate ctx {| Data := stored; Error := None |})
             (fun '(ctx1, session1, oauthErr) =>
                match oauthErr with
                | None => Ret (ctx1, None)
                | Some oauthErr =>
                    match GetClient (goidc.ClientID (Data session1)) with
                    | (_, Some msg) =>
                        Ret (ctx1, Some (JSONError (goidc.NewOAuthErrorValue
                                                      goidc.ErrorCodeInternalError msg)))
                    | (client, None) => Ret (ctx1, redirectError ctx1 oauthErr client)
                    end
                end)
  end.

End Flow.

End authorize.

(* ===================================================================== *)
(** * package provider: the configuration validator                       *)
(* ===================================================================== *)

Module provider.

Record Configuration : Type := {
  Profile : string;
  ClientAuthnMethods : list string;
  GrantTypes : list string;
  IntrospectionIsEnabled : bool;
  IntrospectionClientAuthnMethods : list string;
  PARIsEnabled : bool;
  PARIsRequired : bool;
  PKCEIsEnabled : bool;
  PKCEIsRequired : bool;
  IssuerRespParamIsEnabled : bool;
  RefreshTokenRotationIsEnabled : bool
}.

Record provider : Type := { config : Configuration }.

(** The [for _, method := range ... { if !slices.Contains(...) { return err } }]
    loop of [validateIntrospectionClientAuthnMethods]. *)
Fixpoint introspectionMethodsLoop (allowed : list string) (methods : list string) : error :=
  match methods with
  | [] => None
  | method :: rest =>
      if negb (Contains allowed method)
      then errors_New "invalid client authentication method for token introspection"
      else introspectionMethodsLoop allowed rest
  end.

(** [func validateIntrospectionClientAuthnMethods(provider provider) error] *)
Definition validateIntrospectionClientAuthnMethods (p : provider) : error :=
  if negb (IntrospectionIsEnabled (config p)) then None
  else if negb (Contains (ClientAuthnMethods (config p)) goidc.ClientAuthnNone)
  then errors_New "none client authentication method not allowed for token introspection"
  else introspectionMethodsLoop (ClientAuthnMethods (config p))
                                (IntrospectionClientAuthnMethods (config p)).

(** The predicate handed to [slices.ContainsFunc] in [validateFAPI2Profile]. *)
Definition notFAPI2AuthnMethod (authnMethod : string) : bool :=
  negb (String.eqb authnMethod goidc.ClientAuthnPrivateKeyJWT)
  && negb (String.eqb authnMethod goidc.ClientAuthnTLS).

(** [func validateFAPI2Profile(provider provider) error] *)
Definition validateFAPI2Profile (p : provider) : error :=
  if negb (String.eqb (Profile (config p)) goidc.ProfileFAPI2) then None
  else if ContainsFunc (ClientAuthnMethods (config p)) notFAPI2AuthnMethod
  then errors_New "only private_key_jwt and tls_client_auth are allowed for FAPI 2.0"
  else if Contains (GrantTypes (config p)) goidc.GrantImplicit
  then errors_New "the implict grant is not allowed for FAPI 2.0"
  else if negb (PARIsEnabled (config p)) || negb (PARIsRequired (config p))
  then errors_New "pushed authorization requests is required for FAPI 2.0"
  else if negb (PKCEIsEnabled (config p)) || negb (PKCEIsRequired (config p))
  then errors_New "proof key for code exchange is required for FAPI 2.0"
  else if negb (IssuerRespParamIsEnabled (config p))
  then errors_New "the issuer response parameter is required for FAPI 2.0"
  else if Contains (GrantTypes (config p)) goidc.GrantRefreshToken
          && RefreshTokenRotationIsEnabled (config p)
  then errors_New "refresh token rotation is not implemented according to FAPI 2.0, so it shouldn't be enabled when using this profile"
  else None.

(** What the FAPI 2.0 profile forbids (section 4.4, rule 8), as a
    proposition on the configuration. *)
Definition violatesFAPI2 (c : Configuration) : Prop :=
  (exists m, m ∈ ClientAuthnMethods c
             /\ m <> goidc.ClientAuthnPrivateKeyJWT /\ m <> goidc.ClientAuthnTLS)
  \/ goidc.GrantImplicit ∈ GrantTypes c
  \/ ~ (PARIsEnabled c = true /\ PARIsRequired c = true)
  \/ ~ (PKCEIsEnabled c = true /\ PKCEIsRequired c = true)
  \/ IssuerRespParamIsEnabled c = false
  \/ (goidc.GrantRefreshToken ∈ GrantTypes c
      /\ RefreshTokenRotationIsEnabled c = true).

(** ** The validators of keys and algorithms
       (the provider part of pkg/goidc/authn_session_test.go) *)

(** [jose.JSONWebKey], with the fields the validators read. *)
Record JSONWebKey : Type := {
  KeyID : string;
  Algorithm : string;
  Use : string
}.

Definition KeyUsageSignature : string := "sig".
Definition RS256 : string := "RS256".

(** [func (s *JSONWebKeySet) Key(kid string) []JSONWebKey] of go-jose: the
    keys of the set that have the key id, in the order of the set. *)
Definition Key (keys : list JSONWebKey) (kid : string) : list JSONWebKey :=
  List.filter (fun key => String.eqb (KeyID key) kid) keys.

(** The fields of [Configuration] that the validators of keys and
    algorithms read, beside those of [Configuration] above. *)
Record KeyConfiguration : Type := {
  PrivateJWKS : list JSONWebKey;
  UserDefaultSigKeyID : string;
  UserSigKeyIDs : list string;
  JARMSigKeyIDs : list string;
  JARMDefaultSigKeyID : string;
  JARMIsEnabled : bool;
  PrivateKeyJWTSigAlgs : list string;
  ClientSecretJWTSigAlgs : list string
}.

(** The provider with its whole configuration: the two records are the
    two halves of the one Go struct. *)
Record configured : Type := {
  settings : Configuration;
  keys : KeyConfiguration
}.

(** [func runValidations(provider provider, validators ...func(provider) error) error] *)
Fixpoint runValidations {P : Type} (p : P) (validators : list (P -> error)) : error :=
  match validators with
  | [] => None
  | validator :: rest =>
      match validator p with
      | Some err => Some err
      | None => runValidations p rest
      end
  end.

(** The loop of [validateSignatureKeys] over the key ids. *)
Fixpoint signatureKeysLoop (jwks : list JSONWebKey) (keyIDs : list string) : error :=
  match keyIDs with
  | [] => None
  | keyID :: rest =>
      match Key jwks keyID with
      | [key] =>
          if negb (String.eqb (Use key) KeyUsageSignature)
          then errors_New ("the key ID: " ++ keyID ++ " is not meant for signing")
          else if HasPrefix (Algorithm key) "HS"
          then errors_New "symetric algorithms are not allowed for signing"
          else signatureKeysLoop jwks rest
      | _ =>
          errors_New ("the key ID: " ++ keyID
                      ++ " is not present in the server JWKS or is duplicated")
      end
  end.

(** [func validateSignatureKeys(provider provider) error] *)
Definition validateSignatureKeys (p : configured) : error :=
  signatureKeysLoop (PrivateJWKS (keys p))
    ([UserDefaultSigKeyID (keys p)] ++ UserSigKeyIDs (keys p) ++ JARMSigKeyIDs (keys p)).

(** The loop of [validatePrivateKeyJWTSignatureAlgorithms]. *)
Fixpoint privateKeyJWTLoop (algs : list string) : error :=
  match algs with
  | [] => None
  | signatureAlgorithm :: rest =>
      if HasPrefix signatureAlgorithm "HS"
      then errors_New "symetric algorithms are not allowed for private_key_jwt authentication"
      else privateKeyJWTLoop rest
  end.

(** [func validatePrivateKeyJWTSignatureAlgorithms(provider provider) error] *)
Definition validatePrivateKeyJWTSignatureAlgorithms (p : configured) : error :=
  privateKeyJWTLoop (PrivateKeyJWTSigAlgs (keys p)).

(** The loop of [validateClientSecretJWTSignatureAlgorithms]. *)
Fixpoint clientSecretJWTLoop (algs : list string) : error :=
  match algs with
  | [] => None
  | signatureAlgorithm :: rest =>
      if negb (HasPrefix signatureAlgorithm "HS")
      then errors_New "assymetric algorithms are not allowed for client_secret_jwt authentication"
      else clientSecretJWTLoop rest
  end.

(** [func validateClientSecretJWTSignatureAlgorithms(provider provider) error] *)
Definition validateClientSecretJWTSignatureAlgorithms (p : configured) : error :=
  clientSecretJWTLoop (ClientSecretJWTSigAlgs (keys p)).

(** [func validateOpenIDProfile(provider provider) error]; indexing the
    empty result of [Key] with [0] panics. *)
Definition validateOpenIDProfile (p : configured) : outcome error :=
  if negb (String.eqb (Profile (settings p)) goidc.ProfileOpenID) then Ret None
  else
    match Key (PrivateJWKS (keys p)) (UserDefaultSigKeyID (keys p)) with
    | [] => Panic "index out of range [0] with length 0"
    | defaultIDTokenSignatureKey :: _ =>
        if negb (String.eqb (Algorithm defaultIDTokenSignatureKey) RS256)
        then Ret (errors_New "the default signature algorithm for ID tokens must be RS256")
        else if JARMIsEnabled (keys p) then
          match Key (PrivateJWKS (keys p)) (JARMDefaultSigKeyID (keys p)) with
          | [] => Panic "index out of range [0] with length 0"
          | defaultJARMSignatureKey :: _ =>
              if negb (String.eqb (Algorithm defaultJARMSignatureKey) RS256)
              then Ret (errors_New "the default signature algorithm for JARM must be RS256")
              else Ret None
          end
        else Ret None
    end.

End provider.

(* ===================================================================== *)
(** * package dcr: dynamic client registration                            *)
(* ===================================================================== *)

Module dcr.

(** The field of [oidc.Context] that the validation reads. *)
Record Context : Type := { OpenIDIsRequired : bool }.

(** The field of the registration request that the validation reads. *)
Record request : Type := { Scopes : string }.

(** [func validateOpenIDScopeIfRequired(ctx *oidc.Context, dc request) error]
    (src/unnamed/part_004).  [strutil.ContainsOpenID] is the helper that
    pkg/goidc/function.go has as [ScopesContainsOpenID]. *)
Definition validateOpenIDScopeIfRequired (ctx : Context) (dc : request) : goidc.OAuthError :=
  if negb (OpenIDIsRequired ctx) then None
  else if negb (String.eqb (Scopes dc) "") || negb (goidc.ScopesContainsOpenID (Scopes dc))
  then goidc.NewOAuthError goidc.ErrorCodeInvalidClientMetadata "scope openid is required"
  else None.

(** The same validation as src/unnamed/part_003 has it: the flag is named
    [OpenIDScopeIsRequired] there and the error code is [invalid_request]. *)
Definition validateOpenIDScopeIfRequired_part_003 (ctx : Context) (dynamicClient : request)
  : goidc.OAuthError :=
  if negb (OpenIDIsRequired ctx) then None
  else if negb (String.eqb (Scopes dynamicClient) "")
          || negb (goidc.ScopesContainsOpenID (Scopes dynamicClient))
  then goidc.NewOAuthError goidc.ErrorCodeInvalidRequest "scope openid is required"
  else None.

(** ** More validations of a registration request *)

Module Config.
(** The fields of [oidc.Context] that the validations below read;
    [AuthorizationDetailsIsEnabled] and [AuthorizationDetailTypes] are
    [ctx.AuthorizationDetails.IsEnabled] and [ctx.AuthorizationDetails.Types]
    in part_004. *)
Record t : Type := {
  GrantTypes : list string;
  ResponseTypes : list string;
  Scopes : list goidc.Scope.t;
  AuthorizationDetailsIsEnabled : bool;
  AuthorizationDetailTypes : list string
}.
End Config.

Module Registration.
(** The fields of the registration request ([request] in part_004,
    [dynamicClientRequest] in part_003) that the validations below read;
    [None] is the nil slice. *)
Record t : Type := {
  AuthnMethod : string;
  ResponseTypes : list string;
  Scopes : string;
  TLSSubjectDistinguishedName : string;
  TLSSubjectAlternativeName : string;
  TLSSubjectAlternativeNameIp : string;
  AuthorizationDetailTypes : option (list string)
}.
End Registration.

(** [func runValidations(ctx, dc, validations ...func(ctx, dc) error) error] *)
Fixpoint runValidations (ctx : Config.t) (dc : Registration.t)
    (validations : list (Config.t -> Registration.t -> goidc.OAuthError)) : goidc.OAuthError :=
  match validations with
  | [] => None
  | validation :: rest =>
      match validation ctx dc with
      | Some err => Some err
      | None => runValidations ctx dc rest
      end
  end.

(** The first loop of [validateResponseTypes] (part_004). *)
Fixpoint responseTypesLoop (allowed : list string) (responseTypes : list string)
  : goidc.OAuthError :=
  match responseTypes with
  | [] => None
  | rt :: rest =>
      if negb (Contains allowed rt)
      then goidc.NewOAuthError goidc.ErrorCodeInvalidClientMetadata "response type not allowed"
      else responseTypesLoop allowed rest
  end.

(** The second loop of [validateResponseTypes] (part_004). *)
Fixpoint implicitLoop (responseTypes : list string) : goidc.OAuthError :=
  match responseTypes with
  | [] => None
  | rt :: rest =>
      if goidc.ResponseType_IsImplicit rt
      then goidc.NewOAuthError goidc.ErrorCodeInvalidClientMetadata
             "implicit grant type is required for implicit response types"
      else implicitLoop rest
  end.

(** [func validateResponseTypes(ctx *oidc.Context, dc request) error]
    (part_004): the [return] that follows the second loop is inside the
    [if], not inside the loop. *)
Definition validateResponseTypes (ctx : Config.t) (dc : Registration.t) : goidc.OAuthError :=
  match responseTypesLoop (Config.ResponseTypes ctx) (Registration.ResponseTypes dc) with
  | Some err => Some err
  | None =>
      if negb (Contains (Config.GrantTypes ctx) goidc.GrantImplicit) then
        match implicitLoop (Registration.ResponseTypes dc) with
        | Some err => Some err
        | None =>
            goidc.NewOAuthError goidc.ErrorCodeInvalidClientMetadata
              "implicit grant type is required for implicit response types"
        end
      else None
  end.

(** [func validateResponseTypes(ctx, dynamicClient) goidc.OAuthError] (part_003) *)
Definition validateResponseTypes_part_003 (ctx : Config.t) (dynamicClient : Registration.t)
  : goidc.OAuthError :=
  if negb (goidc.ContainsAll (Config.ResponseTypes ctx) (Registration.ResponseTypes dynamicClient))
  then goidc.NewOAuthError goidc.ErrorCodeInvalidRequest "response type not allowed"
  else None.

(** The loop of [validateCannotRequestImplicitResponseTypeWithoutImplicitGrant]:
    the flag after the response types were visited. *)
Fixpoint containsImplicitResponseType (flag : bool) (responseTypes : list string) : bool :=
  match responseTypes with
  | [] => flag
  | rt :: rest =>
      containsImplicitResponseType (if goidc.ResponseType_IsImplicit rt then true else flag) rest
  end.

(** [func validateCannotRequestImplicitResponseTypeWithoutImplicitGrant(ctx, dynamicClient)]
    (part_003) *)
Definition validateCannotRequestImplicitResponseTypeWithoutImplicitGrant
    (ctx : Config.t) (dynamicClient : Registration.t) : goidc.OAuthError :=
  if containsImplicitResponseType false (Registration.ResponseTypes dynamicClient)
     && negb (Contains (Config.GrantTypes ctx) goidc.GrantImplicit)
  then goidc.NewOAuthError goidc.ErrorCodeInvalidRequest
         "implicit grant type is required for implicit response types"
  else None.

(** The inner loop of [validateScopes]: whether some configured scope has
    the requested scope as its id. *)
Fixpoint scopeMatches (scopes : list goidc.Scope.t) (requestedScope : string) : bool :=
  match scopes with
  | [] => false
  | scope :: rest =>
      if String.eqb requestedScope (goidc.Scope.ID scope) then true
      else scopeMatches rest requestedScope
  end.

(** The outer loop of [validateScopes]. *)
Fixpoint scopesLoop (scopes : list goidc.Scope.t) (requested : list string) : goidc.OAuthError :=
  match requested with
  | [] => None
  | requestedScope :: rest =>
      if negb (scopeMatches scopes requestedScope)
      then goidc.NewOAuthError goidc.ErrorCodeInvalidClientMetadata
             ("scope " ++ requestedScope ++ " is not valid")
      else scopesLoop scopes rest
  end.

(** [func validateScopes(ctx *oidc.Context, dc request) error] (part_004);
    [strutil.SplitWithSpaces] is the helper that pkg/goidc/function.go has
    as [SplitStringWithSpaces]. *)
Definition validateScopes (ctx : Config.t) (dc : Registration.t) : goidc.OAuthError :=
  scopesLoop (Config.Scopes ctx) (goidc.SplitStringWithSpaces (Registration.Scopes dc)).

(** [func validateTLSSubjectInfoWhenTLSAuthn(_ *oidc.Context, dc request) error] (part_004) *)
Definition validateTLSSubjectInfoWhenTLSAuthn (ctx : Config.t) (dc : Registration.t)
  : goidc.OAuthError :=
  if negb (String.eqb (Registration.AuthnMethod dc) goidc.ClientAuthnTLS) then None
  else
    let numberOfIdentifiers := 0 in
    let numberOfIdentifiers :=
      if negb (String.eqb (Registration.TLSSubjectDistinguishedName dc) "")
      then int_add numberOfIdentifiers 1 else numberOfIdentifiers in
    let numberOfIdentifiers :=
      if negb (String.eqb (Registration.TLSSubjectAlternativeName dc) "")
      then int_add numberOfIdentifiers 1 else numberOfIdentifiers in
    let numberOfIdentifiers :=
      if negb (String.eqb (Registration.TLSSubjectAlternativeNameIp dc) "")
      then int_add numberOfIdentifiers 1 else numberOfIdentifiers in
    if negb (numberOfIdentifiers =? 1)
    then goidc.NewOAuthError goidc.ErrorCodeInvalidClientMetadata
           "only one of: tls_client_auth_subject_dn, tls_client_auth_san_dns, tls_client_auth_san_ip must be informed"
    else None.

(** The loop of [validateAuthorizationDetailTypes] (part_004). *)
Fixpoint detailTypesLoop (types : list string) (requested : list string) : goidc.OAuthError :=
  match requested with
  | [] => None
  | dt :: rest =>
      if negb (Contains types dt)
      then goidc.NewOAuthError goidc.ErrorCodeInvalidClientMetadata
             "authorization detail type not supported"
      else detailTypesLoop types rest
  end.

(** [func validateAuthorizationDetailTypes(ctx *oidc.Context, dc request) error] (part_004) *)
Definition validateAuthorizationDetailTypes (ctx : Config.t) (dc : Registration.t)
  : goidc.OAuthError :=
  match Registration.AuthorizationDetailTypes dc with
  | None => None
  | Some requested =>
      if negb (Config.AuthorizationDetailsIsEnabled ctx) then None
      else detailTypesLoop (Config.AuthorizationDetailTypes ctx) requested
  end.

(** [func validateAuthorizationDetailTypes(ctx, dynamicClient) goidc.OAuthError] (part_003) *)
Definition validateAuthorizationDetailTypes_part_003
    (ctx : Config.t) (dynamicClient : Registration.t) : goidc.OAuthError :=
  match Registration.AuthorizationDetailTypes dynamicClient with
  | None => None
  | Some requested =>
      if negb (Config.AuthorizationDetailsIsEnabled ctx) then None
      else if goidc.ContainsAll (Config.AuthorizationDetailTypes ctx) requested
      then goidc.NewOAuthError goidc.ErrorCodeInvalidRequest
             "authorization detail type not supported"
      else None
  end.

End dcr.

(* ===================================================================== *)
(** * package goidc: token options and grant sessions                     *)
(* ===================================================================== *)

Module TokenOptions.

Inductive TokenFormat : Type := TokenFormatJWT | TokenFormatOpaque.

(** [type TokenOptions struct] (src/unnamed/part_001). *)
Record t : Type := {
  Format : TokenFormat;
  LifetimeSecs : Z;
  JWTSignatureKeyID : string;
  OpaqueLength : Z
}.

Definition NewOpaqueTokenOptions (tokenLength lifetimeSecs : Z) : t := {|
  Format := TokenFormatOpaque;
  LifetimeSecs := lifetimeSecs;
  JWTSignatureKeyID := "";
  OpaqueLength := tokenLength
|}.

Definition with_OpaqueLength (opts : t) (n : Z) : t := {|
  Format := Format opts;
  LifetimeSecs := LifetimeSecs opts;
  JWTSignatureKeyID := JWTSignatureKeyID opts;
  OpaqueLength := n
|}.

End TokenOptions.

Module GrantInfo.

(** Modelled from the spec: [goidc.GrantInfo] is declared outside the
    sources; section 3 lists "subject, client id, granted scopes/details,
    additional claims". *)
Record t : Type := {
  GrantType : string;
  Subject : string;
  ClientID : string;
  ActiveScopes : string;
  GrantedScopes : string
}.

End GrantInfo.

Module GrantSession.

(** [goidc.GrantSession], with the grant information inlined. *)
Record t : Type := {
  ID : string;
  TokenID : string;
  RefreshToken : string;
  JWKThumbprint : string;
  ClientCertificateThumbprint : string;
  CreatedAtTimestamp : Z;
  LastTokenIssuedAtTimestamp : Z;
  ExpiresAtTimestamp : Z;
  ActiveScopes : string;
  GrantedScopes : string;
  GrantedAuthorizationDetails : list (gmap string any);
  Subject : string;
  ClientID : string;
  TokenLifetimeSecs : Z;
  AdditionalTokenClaims : gomap any
}.

(** Modelled from the spec: [IsRefreshSessionExpired] is declared outside
    the sources; section 4.8 has the refresh session inactive "if
    [expires_at < now]". *)
Definition IsRefreshSessionExpired (g : t) (now : Z) : bool :=
  ExpiresAtTimestamp g <? now.

(** Modelled from the spec: [HasLastTokenExpired] is declared outside the
    sources; section 4.8 has the access token inactive "if
    [GrantSession.last_token_issued_at + token_lifetime < now]". *)
Definition HasLastTokenExpired (g : t) (now : Z) : bool :=
  LastTokenIssuedAtTimestamp g + TokenLifetimeSecs g <? now.

(** Modelled from the spec: the refresh-token generator is declared
    outside the sources; section 4.6.3 has "Refresh token: always opaque,
    length 99", drawn with [RandomString] like every random value of
    function.go. *)
Definition GenerateRefreshToken (r : goidc.Reader) (i : nat) : string :=
  goidc.RandomString_loop r i (Z.to_nat goidc.RefreshTokenLength).

(** Modelled from the spec: the minting of an opaque access token is
    declared outside the sources; section 4.6.3 has "Opaque access token:
    random string", of the length the token options give. *)
Definition MakeOpaqueToken (r : goidc.Reader) (i : nat) (opts : TokenOptions.t)
  : outcome string :=
  goidc.RandomString r i (TokenOptions.OpaqueLength opts).

(** The assignments of [updateRefreshTokenGrantSession]. *)
Definition refreshed (g : t) (now : Z) (tokenID refreshToken activeScopes : string) : t := {|
  ID := ID g;
  TokenID := tokenID;
  RefreshToken := refreshToken;
  JWKThumbprint := JWKThumbprint g;
  ClientCertificateThumbprint := ClientCertificateThumbprint g;
  CreatedAtTimestamp := CreatedAtTimestamp g;
  LastTokenIssuedAtTimestamp := now;
  ExpiresAtTimestamp := ExpiresAtTimestamp g;
  ActiveScopes := activeScopes;
  GrantedScopes := GrantedScopes g;
  GrantedAuthorizationDetails := GrantedAuthorizationDetails g;
  Subject := Subject g;
  ClientID := ClientID g;
  TokenLifetimeSecs := TokenLifetimeSecs g;
  AdditionalTokenClaims := AdditionalTokenClaims g
|}.

End GrantSession.

(* ===================================================================== *)
(** * package oidc: the request context                                   *)
(* ===================================================================== *)

Module oidc.

(** The hook of [Configuration] that [Context.TokenOptions] calls. *)
Record Context : Type := {
  TokenOptionsFunc : GrantInfo.t -> TokenOptions.t
}.

(** [func (ctx Context) TokenOptions(grantInfo goidc.GrantInfo) goidc.TokenOptions]
    (src/unnamed/part_002). *)
Definition TokenOptions (ctx : Context) (grantInfo : GrantInfo.t) : TokenOptions.t :=
  let opts := TokenOptionsFunc ctx grantInfo in
  (* Opaque access tokens cannot be the same size of refresh tokens. *)
  if TokenOptions.OpaqueLength opts =? goidc.RefreshTokenLength
  then TokenOptions.with_OpaqueLength opts (int_add (TokenOptions.OpaqueLength opts) 1)
  else opts.

(** ** The Authorization header (src/unnamed/part_002) *)

(** [func (ctx Context) Header(name string) (string, bool)], on the value
    that [ctx.Request.Header.Get(name)] gives: the empty string for a
    header that is absent. *)
Definition Header (value : string) : string * bool :=
  if String.eqb value "" then ("", false) else (value, true).

(** [func (ctx Context) AuthorizationToken() (token string, tokenType goidc.TokenType, ok bool)],
    on the value of the Authorization header. *)
Definition AuthorizationToken (authorization : string) : string * string * bool :=
  match Header authorization with
  | (_, false) => ("", "", false)
  | (tokenHeader, true) =>
      match Split tokenHeader with
      | [tokenType; token] => (token, tokenType, true)
      | _ => ("", "", false)
      end
  end.

(** [func (ctx Context) BearerToken() (string, bool)] *)
Definition BearerToken (authorization : string) : string * bool :=
  let '(token, tokenType, ok) := AuthorizationToken authorization in
  if negb ok then ("", false)
  else if negb (String.eqb tokenType goidc.TokenTypeBearer) then ("", false)
  else (token, true).

End oidc.

(* ===================================================================== *)
(** * go-jose v4, package jwt: registered claims and their validation     *)
(* ===================================================================== *)

Module jwt.

(** [jwt.Claims]; a [*NumericDate] is an optional number of seconds since
    the epoch. *)
Record Claims : Type := {
  Issuer : string;
  Subject : string;
  Audience : list string;
  Expiry : option Z;
  NotBefore : option Z;
  IssuedAt : option Z;
  ID : string
}.

(** [jwt.Expected], with the fields the engine sets. *)
Record Expected : Type := {
  ExpectedIssuer : string;
  ExpectedSubject : string;
  AnyAudience : list string
}.

Definition second : Z := 1000000000.

(** [time.Duration] is a 64-bit count of nanoseconds. *)
Definition maxDuration : Z := 2 ^ 63 - 1.
Definition minDuration : Z := - 2 ^ 63.

(** [t.Sub(u)] for two instants given in whole seconds: the difference in
    nanoseconds, saturated at the ends of [time.Duration]. *)
Definition Time_Sub (t u : Z) : Z :=
  let d := (t - u) * second in
  if d >? maxDuration then maxDuration
  else if d <? minDuration then minDuration
  else d.

(** [int(d.Seconds())]: the whole seconds of a duration, rounded towards
    zero. *)
Definition Duration_Seconds_int (d : Z) : Z := Z.quot d second.

(** The loop over [e.AnyAudience] of [ValidateWithLeeway]: some expected
    audience is among the claimed ones. *)
Fixpoint anyAudienceMatches (expected : list string) (claimed : list string) : bool :=
  match expected with
  | [] => false
  | v :: rest => if Contains claimed v then true else anyAudienceMatches rest claimed
  end.

(** [func (c Claims) ValidateWithLeeway(e Expected, leeway time.Duration) error]
    of go-jose v4, at the validation time [now]; [now] and [leeway] are in
    nanoseconds.  An expectation left empty is not checked. *)
Definition ValidateWithLeeway (c : Claims) (e : Expected) (leeway : Z) (now : Z) : error :=
  if negb (String.eqb (ExpectedIssuer e) "") && negb (String.eqb (ExpectedIssuer e) (Issuer c))
  then errors_New "go-jose/go-jose/jwt: validation failed, invalid issuer claim (iss)"
  else if negb (String.eqb (ExpectedSubject e) "")
          && negb (String.eqb (ExpectedSubject e) (Subject c))
  then errors_New "go-jose/go-jose/jwt: validation failed, invalid subject claim (sub)"
  else if negb (length (AnyAudience e) =? 0)%nat
          && negb (anyAudienceMatches (AnyAudience e) (Audience c))
  then errors_New "go-jose/go-jose/jwt: validation failed, invalid audience claim (aud)"
  else if match NotBefore c with
          | Some nbf => now + leeway <? nbf * second
          | None => false
          end
  then errors_New "go-jose/go-jose/jwt: validation failed, token not valid yet (nbf)"
  else if match Expiry c with
          | Some exp => now - leeway >? exp * second
          | None => false
          end
  then errors_New "go-jose/go-jose/jwt: validation failed, token is expired (exp)"
  else if match IssuedAt c with
          | Some iat => now + leeway <? iat * second
          | None => false
          end
  then errors_New "go-jose/go-jose/jwt: validation field, token issued in the future (iat)"
  else None.

(** The same claims with another 'jti'. *)
Definition with_ID (c : Claims) (id : string) : Claims := {|
  Issuer := Issuer c;
  Subject := Subject c;
  Audience := Audience c;
  Expiry := Expiry c;
  NotBefore := NotBefore c;
  IssuedAt := IssuedAt c;
  ID := id
|}.

End jwt.

(* ===================================================================== *)
(** * package clientutil: client assertions                               *)
(* ===================================================================== *)

Module clientutil.

(** The configuration that [areClaimsValid] reads from [oidc.Context]. *)
Record Context : Type := {
  Host : string;
  MTLSIsEnabled : bool;
  MTLSHost : string;
  AssertionLifetimeSecs : Z
}.

Record Client : Type := { ID : string }.

(** Modelled from the spec: [Context.Audiences] is declared outside the
    sources; section 4.3.3 has the server's advertised audiences as
    "issuer, token endpoint, PAR endpoint, userinfo -- and their mTLS
    mirrors when mTLS is enabled", which is the list that
    internal/utils/context.go builds in [GetAudiences]. *)
Definition Audiences (ctx : Context) : list string :=
  let audiences := [
    Host ctx;
    (Host ctx ++ goidc.EndpointToken)%string;
    (Host ctx ++ goidc.EndpointPushedAuthorizationRequest)%string;
    (Host ctx ++ goidc.EndpointUserInfo)%string
  ] in
  if MTLSIsEnabled ctx
  then audiences ++ [
    MTLSHost ctx;
    (MTLSHost ctx ++ goidc.EndpointToken)%string;
    (MTLSHost ctx ++ goidc.EndpointPushedAuthorizationRequest)%string;
    (MTLSHost ctx ++ goidc.EndpointUserInfo)%string
  ]
  else audiences.

(** [func areClaimsValid(ctx *oidc.Context, client *goidc.Client, claims jwt.Claims) error]
    (internal/clientutil/authn.go), run when the clock shows [now]
    nanoseconds. *)
Definition areClaimsValid (ctx : Context) (client : Client) (claims : jwt.Claims) (now : Z)
  : goidc.OAuthError :=
  match jwt.Expiry claims with
  | None =>
      goidc.NewOAuthError goidc.ErrorCodeInvalidClient
        "claim 'exp' is missing in the client assertion"
  | Some expiry =>
      match jwt.IssuedAt claims with
      | None =>
          goidc.NewOAuthError goidc.ErrorCodeInvalidClient
            "claim 'iat' is missing in the client assertion"
      | Some issuedAt =>
          (* Validate that the difference between "iat" and "exp" is not too great. *)
          let secsToExpiry := jwt.Duration_Seconds_int (jwt.Time_Sub expiry issuedAt) in
          if secsToExpiry >? AssertionLifetimeSecs ctx
          then goidc.NewOAuthError goidc.ErrorCodeInvalidClient
                 "the assertion has a life time more than allowed"
          else
            match jwt.ValidateWithLeeway claims
                    {| jwt.ExpectedIssuer := ID client;
                       jwt.ExpectedSubject := ID client;
                       jwt.AnyAudience := Audiences ctx |}
                    0 now with
            | Some _ => goidc.NewOAuthError goidc.ErrorCodeInvalidClient "invalid assertion"
            | None => None
            end
      end
  end.

(** ** Client authentication (internal/clientutil/authn.go) *)

Definition idFormPostParam : string := "client_id".
Definition secretFormPostParam : string := "client_secret".
Definition assertionFormPostParam : string := "client_assertion".
Definition assertionTypeFormPostParam : string := "client_assertion_type".

Definition AssertionTypeJWTBearer : string :=
  "urn:ietf:params:oauth:client-assertion-type:jwt-bearer".
Definition ClaimIssuer : string := "iss".

(** What the functions read of [*http.Request]: the posted form, with the
    first value of each parameter, and the credentials that [BasicAuth]
    decodes from the Authorization header, when it carries well-formed
    basic credentials. *)
Record Request : Type := {
  PostForm : gmap string string;
  BasicCredentials : option (string * string)
}.

(** [r.PostFormValue(key)]: the empty string for a parameter that is absent. *)
Definition PostFormValue (r : Request) (key : string) : string :=
  default "" (PostForm r !! key).

(** [r.BasicAuth()] *)
Definition BasicAuth (r : Request) : string * string * bool :=
  match BasicCredentials r with
  | Some (username, password) => (username, password, true)
  | None => ("", "", false)
  end.

(** [*x509.Certificate], with the fields the functions read; [Subject] is
    [cert.Subject.String()]. *)
Record Certificate : Type := {
  Subject : string;
  DNSNames : list string;
  Raw : string;
  PublicKey : string
}.

(** The certificate that stands for the nil pointer returned beside an
    error; it is never read. *)
Definition Certificate_zero : Certificate := {|
  Subject := ""; DNSNames := []; Raw := ""; PublicKey := ""
|}.

(** [jose.JSONWebKey], with the fields the functions read. *)
Record JSONWebKey : Type := {
  Key : string;
  CertificateThumbprintSHA256 : string;
  CertificateThumbprintSHA1 : string
}.

(** [jose.JSONWebKey{}] *)
Definition JSONWebKey_zero : JSONWebKey := {|
  Key := ""; CertificateThumbprintSHA256 := ""; CertificateThumbprintSHA1 := ""
|}.

(** [jose.Header] *)
Record Header : Type := {
  KeyID : string;
  Algorithm : string
}.

(** The client with the fields that authentication reads beside its id. *)
Record AuthnClient : Type := {
  Info : Client;
  AuthnMethod : string;
  HashedSecret : string;
  Secret : string;
  AuthnSigAlg : string;
  TLSSubDistinguishedName : string;
  TLSSubAlternativeName : string
}.

(** The context with the request and the fields that authentication reads
    beside those of [Context]; [ClientCertFunc] is [None] when the host
    has not set it, and the certificate it returns beside a nil error is
    not nil. *)
Record AuthnContext : Type := {
  Config : Context;
  Req : Request;
  PrivateKeyJWTSigAlgs : list string;
  ClientSecretJWTSigAlgs : list string;
  ClientCertFunc : option (Request -> Certificate * error)
}.

(** [func (ctx Context) ClientCert()], which returns a certificate or an error
    (src/unnamed/part_002) *)
Definition ClientCert (ctx : AuthnContext) : Certificate * error :=
  match ClientCertFunc ctx with
  | None => (Certificate_zero, errors_New "the client certificate function was not defined")
  | Some f => f (Req ctx)
  end.

(** [func (ctx Context) ClientAuthnSigAlgs() []jose.SignatureAlgorithm]
    (src/unnamed/part_002) *)
Definition ClientAuthnSigAlgs (ctx : AuthnContext) : list string :=
  PrivateKeyJWTSigAlgs ctx ++ ClientSecretJWTSigAlgs ctx.

(** [func all[T interface{}](slice []T, condition func(T) bool) bool] *)
Fixpoint all {T : Type} (slice : list T) (condition : T -> bool) : bool :=
  match slice with
  | [] => true
  | element :: rest => if negb (condition element) then false else all rest condition
  end.

(** [func allEquals[T comparable](values []T) bool] *)
Definition allEquals {T : Type} `{EqDecision T} (values : list T) : bool :=
  match values with
  | [] => true
  | first :: _ => all values (fun value => bool_decide (value = first))
  end.

(** [func assertion(ctx *oidc.Context) (string, error)] *)
Definition assertion (ctx : AuthnContext) : string * goidc.OAuthError :=
  let assertionType := PostFormValue (Req ctx) assertionTypeFormPostParam in
  if negb (String.eqb assertionType AssertionTypeJWTBearer)
  then ("", goidc.NewOAuthError goidc.ErrorCodeInvalidClient "invalid assertion_type")
  else
    let assertion := PostFormValue (Req ctx) assertionFormPostParam in
    if String.eqb assertion ""
    then ("", goidc.NewOAuthError goidc.ErrorCodeInvalidClient "client_assertion not informed")
    else (assertion, None).

(** [func authenticateTLSCert(ctx *oidc.Context, c *goidc.Client) error] *)
Definition authenticateTLSCert (ctx : AuthnContext) (c : AuthnClient) : goidc.OAuthError :=
  if negb (String.eqb (ID (Info c)) (PostFormValue (Req ctx) idFormPostParam))
  then goidc.NewOAuthError goidc.ErrorCodeInvalidClient "invalid client id"
  else
    match ClientCert ctx with
    | (_, Some _) =>
        goidc.NewOAuthError goidc.ErrorCodeInvalidClient "invalid client certificate"
    | (cert, None) =>
        if negb (String.eqb (TLSSubDistinguishedName c) "") then
          if negb (String.eqb (TLSSubDistinguishedName c) (Subject cert))
          then goidc.NewOAuthError goidc.ErrorCodeInvalidClient "invalid distinguished name"
          else None
        else if negb (String.eqb (TLSSubAlternativeName c) "") then
          if negb (Contains (DNSNames cert) (TLSSubAlternativeName c))
          then goidc.NewOAuthError goidc.ErrorCodeInvalidClient "invalid alternative name"
          else None
        else goidc.NewOAuthError goidc.ErrorCodeInvalidClient
               "client is missing attributes for tls authn"
    end.

Section Authn.

(** [bcrypt.CompareHashAndPassword(hashedSecret, secret)] *)
Variable CompareHashAndPassword : string -> string -> error.

(** go-jose: [jwt.ParseSigned(assertion, sigAlgs)] gives a parsed token
    ([None] for an error); [Headers] are its headers; [Claims] verifies the
    signature with a key and decodes the registered claims;
    [UnsafeClaimsWithoutVerification] decodes the claims without verifying
    anything. *)
Variable JSONWebToken : Type.
Variable ParseSigned : string -> list string -> option JSONWebToken.
Variable Headers : JSONWebToken -> list Header.
Variable Claims : JSONWebToken -> string -> option jwt.Claims.
Variable UnsafeClaimsWithoutVerification : JSONWebToken -> option (gomap any).

(** Functions of the package that are declared outside the sources: the
    lookup of a client's key by key id and by algorithm. *)
Variable JWKByKeyID : AuthnContext -> AuthnClient -> string -> JSONWebKey * error.
Variable JWKByAlg : AuthnContext -> AuthnClient -> string -> JSONWebKey * error.

(** [c.FetchPublicJWKS(ctx.HTTPClient())], the SHA-256 and SHA-1 digests
    and the comparison of public keys of the Go standard library. *)
Variable FetchPublicJWKS : AuthnClient -> list JSONWebKey * error.
Variable hashSHA256 : string -> string.
Variable hashSHA1 : string -> string.
Variable comparePublicKeys : string -> string -> bool.

(** The clock, in nanoseconds, that the validation of the claims reads. *)
Variable now : Z.

(** [func validateSecret(client *goidc.Client, secret string) error] *)
Definition validateSecret (client : AuthnClient) (secret : string) : goidc.OAuthError :=
  match CompareHashAndPassword (HashedSecret client) secret with
  | Some _ => goidc.NewOAuthError goidc.ErrorCodeInvalidClient "invalid client secret"
  | None => None
  end.

(** [func authenticateSecretPost(ctx *oidc.Context, c *goidc.Client) error] *)
Definition authenticateSecretPost (ctx : AuthnContext) (c : AuthnClient) : goidc.OAuthError :=
  if negb (String.eqb (ID (Info c)) (PostFormValue (Req ctx) idFormPostParam))
  then goidc.NewOAuthError goidc.ErrorCodeInvalidClient "invalid client id"
  else
    let secret := PostFormValue (Req ctx) secretFormPostParam in
    if String.eqb secret ""
    then goidc.NewOAuthError goidc.ErrorCodeInvalidClient "client secret not informed"
    else validateSecret c secret.

(** [func authenticateSecretBasic(ctx *oidc.Context, c *goidc.Client) error] *)
Definition authenticateSecretBasic (ctx : AuthnContext) (c : AuthnClient) : goidc.OAuthError :=
  let '(id, secret, ok) := BasicAuth (Req ctx) in
  if negb ok
  then goidc.NewOAuthError goidc.ErrorCodeInvalidClient
         "client basic authentication not informed"
  else if negb (String.eqb (ID (Info c)) id)
  then goidc.NewOAuthError goidc.ErrorCodeInvalidClient "invalid client id"
  else validateSecret c secret.

(** [func jwkMatchingHeader(ctx, c, header jose.Header) (jose.JSONWebKey, error)] *)
Definition jwkMatchingHeader (ctx : AuthnContext) (c : AuthnClient) (header : Header)
  : JSONWebKey * goidc.OAuthError :=
  if negb (String.eqb (KeyID header) "") then
    match JWKByKeyID ctx c (KeyID header) with
    | (_, Some _) =>
        (JSONWebKey_zero,
         goidc.NewOAuthError goidc.ErrorCodeInvalidClient
           "could not find the jwk used to sign the assertion that matches the 'kid' header")
    | (jwk, None) => (jwk, None)
    end
  else
    match JWKByAlg ctx c (Algorithm header) with
    | (_, Some _) =>
        (JSONWebKey_zero,
         goidc.NewOAuthError goidc.ErrorCodeInvalidClient
           "could not find the jwk used to sign the assertion that matches the 'alg' header")
    | (jwk, None) => (jwk, None)
    end.

(** [func authenticatePrivateKeyJWT(ctx *oidc.Context, c *goidc.Client) error] *)
Definition authenticatePrivateKeyJWT (ctx : AuthnContext) (c : AuthnClient) : goidc.OAuthError :=
  match assertion ctx with
  | (_, Some err) => Some err
  | (assertion, None) =>
      let sigAlgs :=
        if negb (String.eqb (AuthnSigAlg c) "") then [AuthnSigAlg c]
        else PrivateKeyJWTSigAlgs ctx in
      match ParseSigned assertion sigAlgs with
      | None =>
          goidc.NewOAuthError goidc.ErrorCodeInvalidClient "could not parse the client assertion"
      | Some parsedAssertion =>
          (* Verify that the assertion has only one header. *)
          match Headers parsedAssertion with
          | [header] =>
              match jwkMatchingHeader ctx c header with
              | (_, Some err) => Some err
              | (jwk, None) =>
                  match Claims parsedAssertion (Key jwk) with
                  | None =>
                      goidc.NewOAuthError goidc.ErrorCodeInvalidClient
                        "could not parse the client assertion claims"
                  | Some claims => areClaimsValid (Config ctx) (Info c) claims now
                  end
              end
          | _ =>
              goidc.NewOAuthError goidc.ErrorCodeInvalidClient "invalid client assertion header"
          end
      end
  end.

(** [func authenticateSecretJWT(ctx *oidc.Context, c *goidc.Client) error] *)
Definition authenticateSecretJWT (ctx : AuthnContext) (c : AuthnClient) : goidc.OAuthError :=
  match assertion ctx with
  | (_, Some err) => Some err
  | (assertion, None) =>
      let sigAlgs :=
        if negb (String.eqb (AuthnSigAlg c) "") then [AuthnSigAlg c]
        else ClientSecretJWTSigAlgs ctx in
      match ParseSigned assertion sigAlgs with
      | None =>
          goidc.NewOAuthError goidc.ErrorCodeInvalidClient "could not parse the client assertion"
      | Some parsedAssertion =>
          match Claims parsedAssertion (Secret c) with
          | None =>
              goidc.NewOAuthError goidc.ErrorCodeInvalidClient
                "could not parse the client assertion claims"
          | Some claims => areClaimsValid (Config ctx) (Info c) claims now
          end
      end
  end.

(** The loop of [jwkMatchingCert] over the keys of the client. *)
Fixpoint jwkMatchingCertLoop (keys : list JSONWebKey) (cert : Certificate)
  : option JSONWebKey :=
  match keys with
  | [] => None
  | jwk :: rest =>
      if String.eqb (CertificateThumbprintSHA256 jwk) (hashSHA256 (Raw cert))
         || String.eqb (CertificateThumbprintSHA1 jwk) (hashSHA1 (Raw cert))
      then Some jwk
      else jwkMatchingCertLoop rest cert
  end.

(** [func jwkMatchingCert(ctx, c, cert *x509.Certificate) (jose.JSONWebKey, error)] *)
Definition jwkMatchingCert (ctx : AuthnContext) (c : AuthnClient) (cert : Certificate)
  : JSONWebKey * goidc.OAuthError :=
  match FetchPublicJWKS c with
  | (_, Some _) =>
      (JSONWebKey_zero,
       goidc.NewOAuthError goidc.ErrorCodeInternalError "could not load the client JWKS")
  | (jwks, None) =>
      match jwkMatchingCertLoop jwks cert with
      | Some jwk => (jwk, None)
      | None =>
          (JSONWebKey_zero,
           goidc.NewOAuthError goidc.ErrorCodeInvalidClient
             "could not find a JWK matching the client certificate")
      end
  end.

(** [func authenticateSelfSignedTLSCert(ctx *oidc.Context, c *goidc.Client) error] *)
Definition authenticateSelfSignedTLSCert (ctx : AuthnContext) (c : AuthnClient)
  : goidc.OAuthError :=
  if negb (String.eqb (ID (Info c)) (PostFormValue (Req ctx) idFormPostParam))
  then goidc.NewOAuthError goidc.ErrorCodeInvalidClient "invalid client id"
  else
    match ClientCert ctx with
    | (_, Some _) =>
        goidc.NewOAuthError goidc.ErrorCodeInvalidClient "invalid client certificate"
    | (cert, None) =>
        match jwkMatchingCert ctx c cert with
        | (_, Some err) => Some err
        | (jwk, None) =>
            if negb (comparePublicKeys (Key jwk) (PublicKey cert))
            then goidc.NewOAuthError goidc.ErrorCodeInvalidClient
                   "the public key in the client certificate and "
            else None
        end
    end.

(** [func authenticate(ctx *oidc.Context, client *goidc.Client) error] *)
Definition authenticate (ctx : AuthnContext) (client : AuthnClient) : goidc.OAuthError :=
  if String.eqb (AuthnMethod client) goidc.ClientAuthnNone then None
  else if String.eqb (AuthnMethod client) goidc.ClientAuthnSecretPost
  then authenticateSecretPost ctx client
  else if String.eqb (AuthnMethod client) goidc.ClientAuthnSecretBasic
  then authenticateSecretBasic ctx client
  else if String.eqb (AuthnMethod client) goidc.ClientAuthnPrivateKeyJWT
  then authenticatePrivateKeyJWT ctx client
  else if String.eqb (AuthnMethod client) goidc.ClientAuthnSecretJWT
  then authenticateSecretJWT ctx client
  else if String.eqb (AuthnMethod client) goidc.ClientAuthnSelfSignedTLS
  then authenticateSelfSignedTLSCert ctx client
  else if String.eqb (AuthnMethod client) goidc.ClientAuthnTLS
  then authenticateTLSCert ctx client
  else goidc.NewOAuthError goidc.ErrorCodeInvalidClient "invalid authentication method".

(** [func assertionClientID(assertion string, sigAlgs []jose.SignatureAlgorithm) (string, error)] *)
Definition assertionClientID (assertion : string) (sigAlgs : list string)
  : string * goidc.OAuthError :=
  match ParseSigned assertion sigAlgs with
  | None =>
      ("", goidc.NewOAuthError goidc.ErrorCodeInvalidClient
             "could not parse the client assertion")
  | Some parsedAssertion =>
      match UnsafeClaimsWithoutVerification parsedAssertion with
      | None =>
          ("", goidc.NewOAuthError goidc.ErrorCodeInvalidClient
                 "could not parse the client assertion claims")
      | Some claims =>
          (* The issuer claim is supposed to be the client ID. *)
          match claims with
          | Some entries =>
              match entries !! ClaimIssuer with
              | Some (any_string clientIDAsString) => (clientIDAsString, None)
              | _ =>
                  ("", goidc.NewOAuthError goidc.ErrorCodeInvalidClient
                         "invalid claim 'iss' in the client assertion")
              end
          | None =>
              ("", goidc.NewOAuthError goidc.ErrorCodeInvalidClient
                     "invalid claim 'iss' in the client assertion")
          end
      end
  end.

(** [func extractID(ctx *oidc.Context) (string, error)] *)
Definition extractID (ctx : AuthnContext) : string * goidc.OAuthError :=
  let ids : list string := [] in
  let postID := PostFormValue (Req ctx) idFormPostParam in
  let ids := if negb (String.eqb postID "") then (ids ++ [postID])%list else ids in
  let '(basicID, _, _) := BasicAuth (Req ctx) in
  let ids := if negb (String.eqb basicID "") then (ids ++ [basicID])%list else ids in
  let assertion := PostFormValue (Req ctx) assertionFormPostParam in
  let appended :=
    if negb (String.eqb assertion "") then
      match assertionClientID assertion (ClientAuthnSigAlgs ctx) with
      | (_, Some err) => inr err
      | (assertionID, None) => inl (ids ++ [assertionID])%list
      end
    else inl ids in
  match appended with
  | inr err => ("", Some err)
  | inl ids =>
      (* All the client IDs present must be equal. *)
      match ids with
      | [] => ("", goidc.NewOAuthError goidc.ErrorCodeInvalidClient "invalid client id")
      | first :: _ =>
          if negb (allEquals ids)
          then ("", goidc.NewOAuthError goidc.ErrorCodeInvalidClient "invalid client id")
          else (first, None)
      end
  end.

(** The host's client store behind [ctx.Client]; the client it returns
    beside a nil error is not nil. *)
Variable LookupClient : string -> AuthnClient * error.

(** [func Authenticated(ctx *oidc.Context)], which returns the client or an error *)
Definition Authenticated (ctx : AuthnContext) : option AuthnClient * goidc.OAuthError :=
  match extractID ctx with
  | (_, Some err) => (None, Some err)
  | (id, None) =>
      match LookupClient id with
      | (_, Some _) =>
          (None, goidc.NewOAuthError goidc.ErrorCodeInvalidClient "client not found")
      | (client, None) =>
          match authenticate ctx client with
          | Some err => (None, Some err)
          | None => (Some client, None)
          end
      end
  end.

End Authn.

End clientutil.

(* ===================================================================== *)
(** * package token: the refresh_token grant                              *)
(* ===================================================================== *)

Module token.

Module ClientAuthnRequest.
(** [models.ClientAuthnRequest] (src/unnamed/part_007). *)
Record t : Type := {
  ClientIdBasicAuthn : string;
  ClientSecretBasicAuthn : string;
  ClientIdPost : string;
  ClientSecretPost : string;
  ClientAssertionType : string;
  ClientAssertion : string
}.
End ClientAuthnRequest.

Module Client.
Record t : Type := {
  Id : string;
  GrantTypes : list string
}.
Definition zero : t := {| Id := ""; GrantTypes := [] |}.

(** Modelled from the spec: [Client.IsGrantTypeAllowed] is declared
    outside the sources; section 3 gives a client its "allowed
    grant/response types", and a grant type is allowed when it is one of
    them. *)
Definition IsGrantTypeAllowed (c : t) (grantType : string) : bool :=
  Contains (GrantTypes c) grantType.
End Client.

Module TokenRequest.
Record t : Type := {
  AuthnRequest : ClientAuthnRequest.t;
  Scopes : string;
  RefreshToken : string
}.
End TokenRequest.

Module Token.
Record t : Type := {
  Id : string;
  Value : string;
  Type_ : string
}.
End Token.

Module TokenResponse.
Record t : Type := {
  AccessToken : string;
  IdToken : string;
  RefreshToken : string;
  ExpiresIn : Z;
  TokenType : string
}.
Definition zero : t := {|
  AccessToken := ""; IdToken := ""; RefreshToken := ""; ExpiresIn := 0; TokenType := ""
|}.
End TokenResponse.

Definition GrantSession_zero : GrantSession.t := {|
  GrantSession.ID := ""; GrantSession.TokenID := ""; GrantSession.RefreshToken := "";
  GrantSession.JWKThumbprint := ""; GrantSession.ClientCertificateThumbprint := "";
  GrantSession.CreatedAtTimestamp := 0; GrantSession.LastTokenIssuedAtTimestamp := 0;
  GrantSession.ExpiresAtTimestamp := 0; GrantSession.ActiveScopes := "";
  GrantSession.GrantedScopes := ""; GrantSession.GrantedAuthorizationDetails := [];
  GrantSession.Subject := ""; GrantSession.ClientID := "";
  GrantSession.TokenLifetimeSecs := 0; GrantSession.AdditionalTokenClaims := None
|}.

(** [func preValidateRefreshTokenGrantRequest(req models.TokenRequest) models.OAuthError] *)
Definition preValidateRefreshTokenGrantRequest (req : TokenRequest.t) : goidc.OAuthError :=
  if String.eqb (TokenRequest.RefreshToken req) ""
  then goidc.NewOAuthError goidc.ErrorCodeInvalidRequest "invalid refresh token"
  else None.

(** [func validateRefreshTokenGrantRequest(req, client, grantSession) models.OAuthError],
    with the clock that [IsRefreshSessionExpired] reads. *)
Definition validateRefreshTokenGrantRequest
    (req : TokenRequest.t) (client : Client.t) (grantSession : GrantSession.t) (now : Z)
  : goidc.OAuthError :=
  if negb (Client.IsGrantTypeAllowed client goidc.GrantRefreshToken)
  then goidc.NewOAuthError goidc.ErrorCodeUnauthorizedClient "invalid grant type"
  else if negb (String.eqb (Client.Id client) (GrantSession.ClientID grantSession))
  then goidc.NewOAuthError goidc.ErrorCodeInvalidGrant
         "the refresh token was not issued to the client"
  else if GrantSession.IsRefreshSessionExpired grantSession now
  then goidc.NewOAuthError goidc.ErrorCodeUnauthorizedClient "the refresh token is expired"
  else if negb (String.eqb (TokenRequest.Scopes req) "")
          && negb (goidc.ContainsAllScopes (GrantSession.GrantedScopes grantSession)
                                           (TokenRequest.Scopes req))
  then goidc.NewOAuthError goidc.ErrorCodeInvalidScope "invalid scope"
  else None.

Section Engine.

(** The host's grant-session store: its state and the two operations the
    grant uses. *)
Variable Manager : Type.
Variable GetByRefreshToken : Manager -> string -> GrantSession.t * error.
Variable CreateOrUpdate : Manager -> GrantSession.t -> Manager * error.

(** Functions of the repository that are declared outside the sources:
    client authentication and the minting of tokens. *)
Variable GetAuthenticatedClient : ClientAuthnRequest.t -> Client.t * goidc.OAuthError.
Variable MakeToken : Client.t -> GrantSession.t -> Token.t.
Variable MakeIdToken : Client.t -> GrantSession.t -> string.

Record Context : Type := {
  ShouldRotateRefreshTokens : bool;
  GrantSessionManager : Manager;
  Entropy : goidc.Reader;
  EntropyPos : nat;
  Now : Z
}.

Definition with_manager (ctx : Context) (m : Manager) : Context := {|
  ShouldRotateRefreshTokens := ShouldRotateRefreshTokens ctx;
  GrantSessionManager := m;
  Entropy := Entropy ctx;
  EntropyPos := EntropyPos ctx;
  Now := Now ctx
|}.

Definition advance (ctx : Context) (k : nat) : Context := {|
  ShouldRotateRefreshTokens := ShouldRotateRefreshTokens ctx;
  GrantSessionManager := GrantSessionManager ctx;
  Entropy := Entropy ctx;
  EntropyPos := (EntropyPos ctx + k)%nat;
  Now := Now ctx
|}.

(** [func updateRefreshTokenGrantSession(ctx, grantSession *models.GrantSession, req, token) models.OAuthError]:
    the context after the call, the session as the pointer leaves it, and
    the error. *)
Definition updateRefreshTokenGrantSession
    (ctx : Context) (grantSession : GrantSession.t) (req : TokenRequest.t) (token : Token.t)
  : Context * GrantSession.t * goidc.OAuthError :=
  let '(ctx1, refreshToken) :=
    if ShouldRotateRefreshTokens ctx
    then (advance ctx (Z.to_nat goidc.RefreshTokenLength),
          GrantSession.GenerateRefreshToken (Entropy ctx) (EntropyPos ctx))
    else (ctx, GrantSession.RefreshToken grantSession) in
  let activeScopes :=
    if negb (String.eqb (TokenRequest.Scopes req) "")
    then TokenRequest.Scopes req
    else GrantSession.ActiveScopes grantSession in
  let grantSession' :=
    GrantSession.refreshed grantSession (Now ctx) (Token.Id token) refreshToken activeScopes in
  match CreateOrUpdate (GrantSessionManager ctx1) grantSession' with
  | (m, Some msg) =>
      (with_manager ctx1 m, grantSession',
       goidc.NewOAuthError goidc.ErrorCodeInternalError msg)
  | (m, None) => (with_manager ctx1 m, grantSession', None)
  end.

(** [func getGrantSessionByRefreshToken(ctx, refreshToken, ch)]: the first
    value it sends on the channel, which is the one the caller receives. *)
Definition getGrantSessionByRefreshToken (ctx : Context) (refreshToken : string)
  : GrantSession.t * goidc.OAuthError :=
  match GetByRefreshToken (GrantSessionManager ctx) refreshToken with
  | (_, Some _) =>
      (GrantSession_zero,
       goidc.NewOAuthError goidc.ErrorCodeInvalidRequest "invalid refresh_token")
  | (grantSession, None) => (grantSession, None)
  end.

(** [func getAuthenticatedClientAndGrantSession(ctx, req)]: the lookup runs
    beside the client authentication and is awaited after it. *)
Definition getAuthenticatedClientAndGrantSession (ctx : Context) (req : TokenRequest.t)
  : Client.t * GrantSession.t * goidc.OAuthError :=
  let grantSessionResult := getGrantSessionByRefreshToken ctx (TokenRequest.RefreshToken req) in
  match GetAuthenticatedClient (TokenRequest.AuthnRequest req) with
  | (_, Some err) => (Client.zero, GrantSession_zero, Some err)
  | (authenticatedClient, None) =>
      match grantSessionResult with
      | (_, Some err) => (Client.zero, GrantSession_zero, Some err)
      | (grantSession, None) => (authenticatedClient, grantSession, None)
      end
  end.

(** [func handleRefreshTokenGrantTokenCreation(ctx, req) (models.TokenResponse, models.OAuthError)] *)
Definition handleRefreshTokenGrantTokenCreation (ctx : Context) (req : TokenRequest.t)
  : Context * TokenResponse.t * goidc.OAuthError :=
  match preValidateRefreshTokenGrantRequest req with
  | Some _ =>
      (ctx, TokenResponse.zero,
       goidc.NewOAuthError goidc.ErrorCodeInvalidRequest
         "invalid parameter for refresh token grant")
  | None =>
      match getAuthenticatedClientAndGrantSession ctx req with
      | (_, _, Some err) => (ctx, TokenResponse.zero, Some err)
      | (client, grantSession, None) =>
          match validateRefreshTokenGrantRequest req client grantSession (Now ctx) with
          | Some err => (ctx, TokenResponse.zero, Some err)
          | None =>
              let token := MakeToken client grantSession in
              let '(ctx1, grantSession', _) :=
                updateRefreshTokenGrantSession ctx grantSession req token in
              let tokenResp := {|
                TokenResponse.AccessToken := Token.Value token;
                TokenResponse.IdToken :=
                  if goidc.ScopesContainsOpenID (GrantSession.ActiveScopes grantSession')
                  then MakeIdToken client grantSession'
                  else "";
                TokenResponse.RefreshToken := GrantSession.RefreshToken grantSession';
                TokenResponse.ExpiresIn := GrantSession.TokenLifetimeSecs grantSession';
                TokenResponse.TokenType := Token.Type_ token
              |} in
              (ctx1, tokenResp, None)
          end
      end
  end.

End Engine.

Arguments ShouldRotateRefreshTokens {Manager} _.
Arguments GrantSessionManager {Manager} _.
Arguments Entropy {Manager} _.
Arguments EntropyPos {Manager} _.
Arguments Now {Manager} _.

End token.

(* ===================================================================== *)
(** * package introspection                                               *)
(* ===================================================================== *)

Module introspection.

(** [utils.TokenIntrospectionInfo] *)
Record TokenIntrospectionInfo : Type := {
  IsActive : bool;
  Scopes : string;
  AuthorizationDetails : list (gmap string any);
  ClientID : string;
  Subject : string;
  ExpiresAtTimestamp : Z;
  JWKThumbprint : string;
  ClientCertificateThumbprint : string;
  AdditionalTokenClaims : gomap any
}.

(** [utils.TokenIntrospectionInfo{IsActive: false}] *)
Definition inactive : TokenIntrospectionInfo := {|
  IsActive := false;
  Scopes := "";
  AuthorizationDetails := [];
  ClientID := "";
  Subject := "";
  ExpiresAtTimestamp := 0;
  JWKThumbprint := "";
  ClientCertificateThumbprint := "";
  AdditionalTokenClaims := None
|}.

(** What the engine reads through [utils.Context]: the two lookups of the
    host's grant-session store ([Some msg] in the second component is the
    error) and the clock. *)
Record Context : Type := {
  GrantSessionByRefreshToken : string -> GrantSession.t * error;
  GrantSessionByTokenID : string -> GrantSession.t * error;
  Now : Z
}.

Section Engine.

(** Functions of package utils that are declared outside the sources:
    [IsJWS] tells whether a token has the shape of a JWS, [ValidClaims]
    verifies a JWT against a server key and returns its claims. *)
Variable IsJWS : string -> bool.
Variable ValidClaims : Context -> string -> gomap any * error.

(** [func getRefreshTokenIntrospectionInfo(ctx, token) utils.TokenIntrospectionInfo] *)
Definition getRefreshTokenIntrospectionInfo (ctx : Context) (token : string)
  : TokenIntrospectionInfo :=
  match GrantSessionByRefreshToken ctx token with
  | (_, Some _) => inactive
  | (grantSession, None) =>
      if GrantSession.IsRefreshSessionExpired grantSession (Now ctx) then inactive
      else {|
        IsActive := true;
        Scopes := GrantSession.GrantedScopes grantSession;
        AuthorizationDetails := GrantSession.GrantedAuthorizationDetails grantSession;
        ClientID := GrantSession.ClientID grantSession;
        Subject := GrantSession.Subject grantSession;
        ExpiresAtTimestamp := GrantSession.ExpiresAtTimestamp grantSession;
        JWKThumbprint := GrantSession.JWKThumbprint grantSession;
        ClientCertificateThumbprint := GrantSession.ClientCertificateThumbprint grantSession;
        AdditionalTokenClaims := GrantSession.AdditionalTokenClaims grantSession
      |}
  end.

(** [func tokenIntrospectionInfoByID(ctx, tokenID) utils.TokenIntrospectionInfo] *)
Definition tokenIntrospectionInfoByID (ctx : Context) (tokenID : string)
  : TokenIntrospectionInfo :=
  match GrantSessionByTokenID ctx tokenID with
  | (_, Some _) => inactive
  | (grantSession, None) =>
      if GrantSession.HasLastTokenExpired grantSession (Now ctx) then inactive
      else {|
        IsActive := true;
        Scopes := GrantSession.ActiveScopes grantSession;
        AuthorizationDetails := GrantSession.GrantedAuthorizationDetails grantSession;
        ClientID := GrantSession.ClientID grantSession;
        Subject := GrantSession.Subject grantSession;
        ExpiresAtTimestamp :=
          int_add (GrantSession.LastTokenIssuedAtTimestamp grantSession)
                  (GrantSession.TokenLifetimeSecs grantSession);
        JWKThumbprint := GrantSession.JWKThumbprint grantSession;
        ClientCertificateThumbprint := GrantSession.ClientCertificateThumbprint grantSession;
        AdditionalTokenClaims := GrantSession.AdditionalTokenClaims grantSession
      |}
  end.

(** [func getJWTTokenIntrospectionInfo(ctx, token) utils.TokenIntrospectionInfo];
    the type assertion [.(string)] panics on a claim that is no string. *)
Definition getJWTTokenIntrospectionInfo (ctx : Context) (token : string)
  : outcome TokenIntrospectionInfo :=
  match ValidClaims ctx token with
  | (_, Some _) => Ret inactive
  | (claims, None) =>
      match map_index claims goidc.ClaimTokenID with
      | any_nil => Ret inactive
      | any_string tokenID => Ret (tokenIntrospectionInfoByID ctx tokenID)
      | _ => Panic "interface conversion: interface {} is not string"
      end
  end.

(** [func opaqueTokenIntrospectionInfo(ctx, token) utils.TokenIntrospectionInfo] *)
Definition opaqueTokenIntrospectionInfo (ctx : Context) (token : string)
  : TokenIntrospectionInfo :=
  tokenIntrospectionInfoByID ctx token.

(** [func tokenIntrospectionInfo(ctx, token) utils.TokenIntrospectionInfo] *)
Definition tokenIntrospectionInfo (ctx : Context) (token : string)
  : outcome TokenIntrospectionInfo :=
  if len token =? goidc.RefreshTokenLength
  then Ret (getRefreshTokenIntrospectionInfo ctx token)
  else if IsJWS token
  then getJWTTokenIntrospectionInfo ctx token
  else Ret (opaqueTokenIntrospectionInfo ctx token).

End Engine.

End introspection.

(* ===================================================================== *)
(** * package utils: the keys of the server                               *)
(* ===================================================================== *)

Module utils.

(** The fields of [Configuration] that the key functions of
    internal/utils/context.go read.  The key set wraps the one of go-jose,
    whose [Key] returns the keys that have a key id; a key shows its
    usage and algorithm. *)
Record Configuration : Type := {
  PrivateJWKS : list provider.JSONWebKey;
  DefaultUserInfoSignatureKeyID : string;
  UserInfoSignatureKeyIDs : list string
}.

(** [func (ctx OAuthContext) getPrivateKey(keyID string) goidc.JSONWebKey]:
    [keys[0]] panics when no key has the id. *)
Definition getPrivateKey (ctx : Configuration) (keyID : string) : outcome provider.JSONWebKey :=
  match provider.Key (PrivateJWKS ctx) keyID with
  | [] => Panic "index out of range [0] with length 0"
  | key :: _ => Ret key
  end.

(** [func (ctx OAuthContext) getPrivateKeyBasedOnAlgorithmOrDefault(signatureAlgorithm, defaultKeyID, keyIDs) goidc.JSONWebKey]:
    the body of the loop over [keyIDs] is a [return], so the loop ends at
    its first element. *)
Definition getPrivateKeyBasedOnAlgorithmOrDefault
    (ctx : Configuration) (signatureAlgorithm : string) (defaultKeyID : string)
    (keyIDs : list string) : outcome provider.JSONWebKey :=
  if negb (String.eqb signatureAlgorithm "") then
    match keyIDs with
    | keyID :: _ => getPrivateKey ctx keyID
    | [] => getPrivateKey ctx defaultKeyID
    end
  else getPrivateKey ctx defaultKeyID.

(** [func (ctx OAuthContext) GetIDTokenSignatureKey(client goidc.Client) goidc.JSONWebKey],
    on the [IDTokenSignatureAlgorithm] of the client. *)
Definition GetIDTokenSignatureKey (ctx : Configuration) (idTokenSignatureAlgorithm : string)
  : outcome provider.JSONWebKey :=
  getPrivateKeyBasedOnAlgorithmOrDefault ctx idTokenSignatureAlgorithm
    (DefaultUserInfoSignatureKeyID ctx) (UserInfoSignatureKeyIDs ctx).

End utils.

(* ===================================================================== *)
(** * Concrete configurations, sessions and requests                      *)
(* ===================================================================== *)

Module fixtures.

(** A FAPI 2.0 configuration that violates none of the profile's rules. *)
Definition fapi2_ok : provider.provider := {|
  provider.config := {|
    provider.Profile := goidc.ProfileFAPI2;
    provider.ClientAuthnMethods := [goidc.ClientAuthnPrivateKeyJWT; goidc.ClientAuthnTLS];
    provider.GrantTypes := [goidc.GrantAuthorizationCode; goidc.GrantRefreshToken];
    provider.IntrospectionIsEnabled := false;
    provider.IntrospectionClientAuthnMethods := [];
    provider.PARIsEnabled := true;
    provider.PARIsRequired := true;
    provider.PKCEIsEnabled := true;
    provider.PKCEIsRequired := true;
    provider.IssuerRespParamIsEnabled := true;
    provider.RefreshTokenRotationIsEnabled := false
  |}
|}.

(** Introspection enabled for [methods], the server allowing [allowed]. *)
Definition introspecting (allowed methods : list string) : provider.provider := {|
  provider.config := {|
    provider.Profile := goidc.ProfileOpenID;
    provider.ClientAuthnMethods := allowed;
    provider.GrantTypes := [goidc.GrantAuthorizationCode; goidc.GrantIntrospection];
    provider.IntrospectionIsEnabled := true;
    provider.IntrospectionClientAuthnMethods := methods;
    provider.PARIsEnabled := false;
    provider.PARIsRequired := false;
    provider.PKCEIsEnabled := false;
    provider.PKCEIsRequired := false;
    provider.IssuerRespParamIsEnabled := false;
    provider.RefreshTokenRotationIsEnabled := false
  |}
|}.

(** A session of an implicit flow ([response_type=token]) and one of a
    code flow, both already stored under their ids. *)
Definition session_with (id responseType : string) : goidc.AuthnSession := {|
  goidc.ID := id; goidc.CallbackID := "cb-" ++ id; goidc.PolicyID := "policy";
  goidc.ExpiresAtTimestamp := 2000; goidc.CreatedAtTimestamp := 1000;
  goidc.Subject := "user"; goidc.ClientID := "c1"; goidc.GrantedScopes := "openid";
  goidc.AuthorizationCode := ""; goidc.AuthorizedAtTimestamp := 0;
  goidc.Store := None; goidc.AdditionalTokenClaims := None;
  goidc.AdditionalIDTokenClaims := None; goidc.AdditionalUserInfoClaims := None;
  goidc.Params := {| goidc.RedirectURI := "https://c1/cb"; goidc.ResponseType := responseType;
                     goidc.Scopes := "openid"; goidc.State := "xyz" |}
|}.

Definition implicit_session : goidc.AuthnSession := session_with "s1" "token".
Definition code_session : goidc.AuthnSession := session_with "s2" "code".

Definition entropy : goidc.Reader := fun i => (7 * i + 3)%nat.

Definition authorize_ctx (session : goidc.AuthnSession) : authorize.Context := {|
  authorize.AuthnSessionManager :=
    {| storage.Sessions := {[ goidc.ID session := session ]} |};
  authorize.Entropy := entropy;
  authorize.EntropyPos := 0;
  authorize.Now := 1500
|}.

Definition grant_info : GrantInfo.t := {|
  GrantInfo.GrantType := goidc.GrantAuthorizationCode;
  GrantInfo.Subject := "user";
  GrantInfo.ClientID := "c1";
  GrantInfo.ActiveScopes := "openid";
  GrantInfo.GrantedScopes := "openid"
|}.

(** A host that asks for opaque access tokens of the refresh-token length. *)
Definition opaque99_ctx : oidc.Context := {|
  oidc.TokenOptionsFunc := fun _ => TokenOptions.NewOpaqueTokenOptions 99 300
|}.

(** A client assertion without 'jti', issued at 1000 s for 60 s by the
    client [c1] to the issuer, and validated at 1010 s. *)
Definition assertion_ctx : clientutil.Context := {|
  clientutil.Host := "https://as.example";
  clientutil.MTLSIsEnabled := false;
  clientutil.MTLSHost := "";
  clientutil.AssertionLifetimeSecs := 300
|}.

Definition assertion_client : clientutil.Client := {| clientutil.ID := "c1" |}.



(** A grant of client [c1] with the scopes 'openid email profile' and a
    99-character refresh token, in a store kept as a list. *)
Definition refresh_token_0 : string := GrantSession.GenerateRefreshToken entropy 0.

Definition grant_session : GrantSession.t := {|
  GrantSession.ID := "g1"; GrantSession.TokenID := "t0";
  GrantSession.RefreshToken := refresh_token_0;
  GrantSession.JWKThumbprint := ""; GrantSession.ClientCertificateThumbprint := "";
  GrantSession.CreatedAtTimestamp := 1000; GrantSession.LastTokenIssuedAtTimestamp := 1000;
  GrantSession.ExpiresAtTimestamp := 7000; GrantSession.ActiveScopes := "openid email profile";
  GrantSession.GrantedScopes := "openid email profile";
  GrantSession.GrantedAuthorizationDetails := [];
  GrantSession.Subject := "user"; GrantSession.ClientID := "c1";
  GrantSession.TokenLifetimeSecs := 300; GrantSession.AdditionalTokenClaims := None
|}.

Definition list_GetByRefreshToken (m : list GrantSession.t) (refreshToken : string)
  : GrantSession.t * error :=
  match List.find (fun g => String.eqb (GrantSession.RefreshToken g) refreshToken) m with
  | Some g => (g, None)
  | None => (token.GrantSession_zero, errors_New "entity not found")
  end.

Definition list_GetByTokenID (m : list GrantSession.t) (tokenID : string)
  : GrantSession.t * error :=
  match List.find (fun g => String.eqb (GrantSession.TokenID g) tokenID) m with
  | Some g => (g, None)
  | None => (token.GrantSession_zero, errors_New "entity not found")
  end.

Definition list_CreateOrUpdate (m : list GrantSession.t) (g : GrantSession.t)
  : list GrantSession.t * error :=
  (g :: List.filter (fun x => negb (String.eqb (GrantSession.ID x) (GrantSession.ID g))) m,
   None).

Definition client_c1 : token.Client.t := {|
  token.Client.Id := "c1";
  token.Client.GrantTypes := [goidc.GrantAuthorizationCode; goidc.GrantRefreshToken]
|}.

(** Another client, which is not allowed the refresh_token grant. *)
Definition client_c2 : token.Client.t := {|
  token.Client.Id := "c2";
  token.Client.GrantTypes := [goidc.GrantAuthorizationCode]
|}.

(** Client authentication by the posted client id alone. *)
Definition authenticated (req : token.ClientAuthnRequest.t)
  : token.Client.t * goidc.OAuthError :=
  if String.eqb (token.ClientAuthnRequest.ClientIdPost req) "c1" then (client_c1, None)
  else if String.eqb (token.ClientAuthnRequest.ClientIdPost req) "c2" then (client_c2, None)
  else (token.Client.zero, goidc.NewOAuthError goidc.ErrorCodeInvalidClient "invalid client_id").

Definition make_token (c : token.Client.t) (g : GrantSession.t) : token.Token.t := {|
  token.Token.Id := "t1";
  token.Token.Value := "access-token-1";
  token.Token.Type_ := "Bearer"
|}.

Definition make_id_token (c : token.Client.t) (g : GrantSession.t) : string := "id-token-1".

Definition refresh_request (clientID scopes : string) : token.TokenRequest.t := {|
  token.TokenRequest.AuthnRequest := {|
    token.ClientAuthnRequest.ClientIdBasicAuthn := "";
    token.ClientAuthnRequest.ClientSecretBasicAuthn := "";
    token.ClientAuthnRequest.ClientIdPost := clientID;
    token.ClientAuthnRequest.ClientSecretPost := "";
    token.ClientAuthnRequest.ClientAssertionType := "";
    token.ClientAuthnRequest.ClientAssertion := ""
  |};
  token.TokenRequest.Scopes := scopes;
  token.TokenRequest.RefreshToken := refresh_token_0
|}.

(** The token endpoint at 1500 s, with refresh-token rotation as given. *)
Definition token_ctx (rotate : bool) (pos : nat) : token.Context (list GrantSession.t) := {|
  token.ShouldRotateRefreshTokens := rotate;
  token.GrantSessionManager := [grant_session];
  token.Entropy := entropy;
  token.EntropyPos := pos;
  token.Now := 1500
|}.

(** The introspection endpoint over the same store at 1200 s; a JWS is
    taken to be a token with the prefix 'ey', and its verified claims carry
    the 'jti' [t0]. *)
Definition introspection_ctx : introspection.Context := {|
  introspection.GrantSessionByRefreshToken := list_GetByRefreshToken [grant_session];
  introspection.GrantSessionByTokenID := list_GetByTokenID [grant_session];
  introspection.Now := 1200
|}.

Definition is_jws (tok : string) : bool := String.prefix "ey" tok.

Definition valid_claims (ctx : introspection.Context) (tok : string) : gomap any * error :=
  (Some {[ goidc.ClaimTokenID := any_string "t0" ]}, None).

(** Two policies: [deny] always fails, [policy] waits for the user; and a
    third name, [gone], that no policy has. *)
Definition deny_policy : authorize.AuthnPolicy := {|
  authorize.Id := "deny";
  authorize.AuthnFunc := Some (fun _ s => (s, goidc.Failure))
|}.

Definition waiting_policy : authorize.AuthnPolicy := {|
  authorize.Id := "policy";
  authorize.AuthnFunc := Some (fun _ s => (s, goidc.InProgress))
|}.

Definition policies : list authorize.AuthnPolicy := [deny_policy; waiting_policy].

Definition session_of_policy (id policyID : string) : goidc.AuthnSession := {|
  goidc.ID := id; goidc.CallbackID := "cb-" ++ id; goidc.PolicyID := policyID;
  goidc.ExpiresAtTimestamp := 2000; goidc.CreatedAtTimestamp := 1000;
  goidc.Subject := ""; goidc.ClientID := "c1"; goidc.GrantedScopes := "";
  goidc.AuthorizationCode := ""; goidc.AuthorizedAtTimestamp := 0;
  goidc.Store := None; goidc.AdditionalTokenClaims := None;
  goidc.AdditionalIDTokenClaims := None; goidc.AdditionalUserInfoClaims := None;
  goidc.Params := {| goidc.RedirectURI := "https://c1/cb"; goidc.ResponseType := "code";
                     goidc.Scopes := "openid"; goidc.State := "xyz" |}
|}.

Definition flow_session (id policyID : string) : authorize.Session := {|
  authorize.Data := session_of_policy id policyID;
  authorize.Error := None
|}.

(** The success branch and the redirection of errors, for the
    configurations above: neither is reached by [deny] and [policy]. *)
Definition no_success (ctx : authorize.Context) (s : authorize.Session)
  : authorize.Context * authorize.Session * option authorize.FlowError :=
  (ctx, s, None).

Definition redirect_as_is (ctx : authorize.Context) (e : authorize.FlowError) (client : string)
  : option authorize.FlowError :=
  Some e.

Definition get_client (id : string) : string * error := (id, None).

(** A server key set with one RS256 signing key, and a configuration of
    the OpenID profile that signs everything with it; [with_jarm] enables
    JARM and names [jarmKeyID] as its default key, which the list of JARM
    keys does not have to contain. *)
Definition rs256_key : provider.JSONWebKey := {|
  provider.KeyID := "k1"; provider.Algorithm := "RS256"; provider.Use := "sig"
|}.

Definition openid_settings : provider.Configuration := {|
  provider.Profile := goidc.ProfileOpenID;
  provider.ClientAuthnMethods := [goidc.ClientAuthnPrivateKeyJWT];
  provider.GrantTypes := [goidc.GrantAuthorizationCode];
  provider.IntrospectionIsEnabled := false;
  provider.IntrospectionClientAuthnMethods := [];
  provider.PARIsEnabled := false;
  provider.PARIsRequired := false;
  provider.PKCEIsEnabled := false;
  provider.PKCEIsRequired := false;
  provider.IssuerRespParamIsEnabled := false;
  provider.RefreshTokenRotationIsEnabled := false
|}.

Definition with_jarm (enabled : bool) (jarmKeyID : string) : provider.configured := {|
  provider.settings := openid_settings;
  provider.keys := {|
    provider.PrivateJWKS := [rs256_key];
    provider.UserDefaultSigKeyID := "k1";
    provider.UserSigKeyIDs := ["k1"];
    provider.JARMSigKeyIDs := [];
    provider.JARMDefaultSigKeyID := jarmKeyID;
    provider.JARMIsEnabled := enabled;
    provider.PrivateKeyJWTSigAlgs := ["RS256"; "PS256"];
    provider.ClientSecretJWTSigAlgs := ["HS256"]
  |}
|}.

(** A server without the implicit grant that knows the scopes 'openid' and
    the dynamic scope 'payment', which matches 'payment:' followed by
    anything, and the authorization detail type 'payment_initiation'; and a
    registration that asks for the code flow only. *)
Definition dcr_config : dcr.Config.t := {|
  dcr.Config.GrantTypes := [goidc.GrantAuthorizationCode; goidc.GrantRefreshToken];
  dcr.Config.ResponseTypes := [goidc.ResponseTypeCode];
  dcr.Config.Scopes :=
    [goidc.Scope.NewScope "openid";
     goidc.Scope.NewDynamicScope "payment" (fun requestedScope => HasPrefix requestedScope "payment:")];
  dcr.Config.AuthorizationDetailsIsEnabled := true;
  dcr.Config.AuthorizationDetailTypes := ["payment_initiation"]
|}.

Definition registration (scopes : string) (detailTypes : option (list string))
  : dcr.Registration.t := {|
  dcr.Registration.AuthnMethod := goidc.ClientAuthnPrivateKeyJWT;
  dcr.Registration.ResponseTypes := [goidc.ResponseTypeCode];
  dcr.Registration.Scopes := scopes;
  dcr.Registration.TLSSubjectDistinguishedName := "";
  dcr.Registration.TLSSubjectAlternativeName := "";
  dcr.Registration.TLSSubjectAlternativeNameIp := "";
  dcr.Registration.AuthorizationDetailTypes := detailTypes
|}.

(** A server with two signing keys, RS256 first, both allowed for ID
    tokens, the first one being the default. *)
Definition ps256_key : provider.JSONWebKey := {|
  provider.KeyID := "k2"; provider.Algorithm := "PS256"; provider.Use := "sig"
|}.

Definition two_keys : utils.Configuration := {|
  utils.PrivateJWKS := [rs256_key; ps256_key];
  utils.DefaultUserInfoSignatureKeyID := "k1";
  utils.UserInfoSignatureKeyIDs := ["k1"; "k2"]
|}.

(** A grant-session store that refuses every write. *)
Definition failing_CreateOrUpdate (m : list GrantSession.t) (g : GrantSession.t)
  : list GrantSession.t * error :=
  (m, errors_New "the store is down").

(** A request of the client [c1] that posts its id and a client assertion
    and also sends basic credentials, with a client certificate whose
    subject is 'CN=c1'.  A parsed assertion is kept as its text, and its
    unverified claims name [c1] as the issuer. *)
Definition parse_signed (assertion : string) (sigAlgs : list string) : option string :=
  if String.eqb assertion "" then None else Some assertion.

Definition unsafe_claims (parsed : string) : option (gomap any) :=
  Some (Some {[ clientutil.ClaimIssuer := any_string "c1" ]}).

Definition c1_certificate : clientutil.Certificate := {|
  clientutil.Subject := "CN=c1";
  clientutil.DNSNames := ["c1.example"];
  clientutil.Raw := "raw";
  clientutil.PublicKey := "pk"
|}.

Definition authn_ctx : clientutil.AuthnContext := {|
  clientutil.Config := assertion_ctx;
  clientutil.Req := {|
    clientutil.PostForm :=
      {[ clientutil.idFormPostParam := "c1";
         clientutil.assertionFormPostParam := "header.claims.signature" ]};
    clientutil.BasicCredentials := Some ("c1", "secret")
  |};
  clientutil.PrivateKeyJWTSigAlgs := ["RS256"];
  clientutil.ClientSecretJWTSigAlgs := ["HS256"];
  clientutil.ClientCertFunc := Some (fun _ => (c1_certificate, None))
|}.

(** A client of the method tls_client_auth that is registered with both a
    subject distinguished name and an alternative name the certificate
    does not have. *)
Definition tls_client : clientutil.AuthnClient := {|
  clientutil.Info := assertion_client;
  clientutil.AuthnMethod := goidc.ClientAuthnTLS;
  clientutil.HashedSecret := "";
  clientutil.Secret := "";
  clientutil.AuthnSigAlg := "";
  clientutil.TLSSubDistinguishedName := "CN=c1";
  clientutil.TLSSubAlternativeName := "other.example"
|}.

End fixtures.

(* ===================================================================== *)
(** * Lemmas on the Go primitives                                         *)
(* ===================================================================== *)

Lemma Contains_true_iff {A} `{EqDecision A} (s : list A) (v : A) :
  Contains s v = true <-> v ∈ s.
Proof.
  induction s as [|x s IH]; simpl.
  - split; [discriminate | intros Hin; inversion Hin].
  - destruct (decide (x = v)) as [->|Hne].
    + split; [intros _; left | reflexivity].
    + rewrite IH. split.
      * intros Hin. now right.
      * intros Hin. inversion Hin; subst; [congruence | assumption].
Qed.

Lemma Contains_false_iff {A} `{EqDecision A} (s : list A) (v : A) :
  Contains s v = false <-> v ∉ s.
Proof.
  rewrite <- Contains_true_iff. destruct (Contains s v); split; congruence.
Qed.

Lemma ContainsFunc_true_iff {A} (s : list A) (f : A -> bool) :
  ContainsFunc s f = true <-> exists x, x ∈ s /\ f x = true.
Proof.
  induction s as [|x s IH]; simpl.
  - split; [discriminate | intros (y & Hin & _); inversion Hin].
  - destruct (f x) eqn:Hfx.
    + split; [intros _; exists x; split; [left | assumption] | reflexivity].
    + rewrite IH. split.
      * intros (y & Hin & Hy). exists y. split; [now right | assumption].
      * intros (y & Hin & Hy). inversion Hin; subst; [congruence | eauto].
Qed.

Lemma RandomString_loop_length (r : goidc.Reader) (k i : nat) :
  String.length (goidc.RandomString_loop r i k) = k.
Proof.
  revert i. induction k as [|k IH]; intros i; simpl; [reflexivity | now rewrite IH].
Qed.

Lemma RandomString_length (r : goidc.Reader) (i : nat) (n : Z) (s : string) :
  goidc.RandomString r i n = Ret s -> len s = n.
Proof.
  unfold goidc.RandomString, len. destruct (n <? 0) eqn:Hn; [discriminate|].
  intros [= <-]. rewrite RandomString_loop_length. apply Z.ltb_ge in Hn. lia.
Qed.

Lemma String_eqb_false_iff (a b : string) : String.eqb a b = false <-> a <> b.
Proof.
  destruct (String.eqb_spec a b); split; congruence.
Qed.

(** ** The primitives on small inputs *)

Example Split_two_fields : Split "openid profile" = ["openid"; "profile"].
Proof. reflexivity. Qed.

Example Split_keeps_empty_fields : Split " a  b" = [""; "a"; ""; "b"].
Proof. reflexivity. Qed.

Example Split_empty : Split "" = [""].
Proof. reflexivity. Qed.

Example Trim_space_both_ends : Trim_space "  a b " = "a b".
Proof. reflexivity. Qed.

Example SplitStringWithSpaces_blank : goidc.SplitStringWithSpaces "   " = [].
Proof. reflexivity. Qed.

Example SplitStringWithSpaces_scopes :
  goidc.SplitStringWithSpaces "openid email" = ["openid"; "email"].
Proof. reflexivity. Qed.

Example ContainsAllScopes_subset :
  goidc.ContainsAllScopes "openid email profile" "openid email" = true
  /\ goidc.ContainsAllScopes "openid email" "openid address" = false.
Proof. split; reflexivity. Qed.

Example ResponseType_Contains_code :
  goidc.ResponseType_Contains "code id_token" goidc.ResponseTypeCode = true
  /\ goidc.ResponseType_Contains "id_token token" goidc.ResponseTypeCode = false.
Proof. split; reflexivity. Qed.

Example RandomString_five : goidc.RandomString fixtures.entropy 0 5 = Ret "dkryF".
Proof. reflexivity. Qed.

Example RandomString_negative :
  goidc.RandomString fixtures.entropy 0 (-1) = Panic "makeslice: len out of range".
Proof. reflexivity. Qed.

Example int_add_wraps : int_add int_max 1 = int_min.
Proof. reflexivity. Qed.

Example Time_Sub_minute : jwt.Duration_Seconds_int (jwt.Time_Sub 1060 1000) = 60.
Proof. reflexivity. Qed.

Example Time_Sub_saturates :
  jwt.Duration_Seconds_int (jwt.Time_Sub 20000000000 0) = 9223372036.
Proof. reflexivity. Qed.

Example ValidString_ascii : json.ValidString "https://rs1.example" = true.
Proof. reflexivity. Qed.

(** The bytes C3 A9 spell U+00E9; a lone FF spells nothing. *)
Example ValidString_two_bytes :
  json.ValidString (String (ascii_of_N 195) (String (ascii_of_N 169) "")) = true.
Proof. reflexivity. Qed.

Example toValidUTF8_lone_byte :
  json.ValidString (String (ascii_of_N 255) "a") = false
  /\ json.toValidUTF8 (String (ascii_of_N 255) "a") = (json.replacement ++ "a")%string.
Proof. split; reflexivity. Qed.

(* ===================================================================== *)
(** * The configuration validator                                         *)
(* ===================================================================== *)

Lemma notFAPI2AuthnMethod_true_iff (m : string) :
  provider.notFAPI2AuthnMethod m = true
  <-> m <> goidc.ClientAuthnPrivateKeyJWT /\ m <> goidc.ClientAuthnTLS.
Proof.
  unfold provider.notFAPI2AuthnMethod.
  rewrite andb_true_iff, !negb_true_iff, !String_eqb_false_iff. reflexivity.
Qed.

(** C3. For a configuration whose profile is FAPI 2.0, [validateFAPI2Profile]
    returns an error exactly when some configured client authentication
    method is neither private_key_jwt nor tls_client_auth, or the implicit
    grant is configured, or PAR is not both enabled and required, or PKCE is
    not both enabled and required, or the issuer response parameter is
    disabled, or the refresh_token grant is configured together with
    refresh-token rotation; it returns nil otherwise.  In particular it
    fails when 'none' is a configured method. *)
Theorem C3_validateFAPI2Profile_fails_exactly (p : provider.provider) :
  provider.Profile (provider.config p) = goidc.ProfileFAPI2 ->
  (provider.validateFAPI2Profile p <> None <-> provider.violatesFAPI2 (provider.config p))
  /\ (provider.validateFAPI2Profile p = None <-> ~ provider.violatesFAPI2 (provider.config p))
  /\ (goidc.ClientAuthnNone ∈ provider.ClientAuthnMethods (provider.config p) ->
      provider.validateFAPI2Profile p <> None).
Proof.
  intros Hprofile.
  assert (Hiff : provider.validateFAPI2Profile p <> None <-> provider.violatesFAPI2 (provider.config p)).
  { unfold provider.validateFAPI2Profile, provider.violatesFAPI2.
    rewrite Hprofile, String.eqb_refl. simpl negb. cbv iota.
    destruct (ContainsFunc _ provider.notFAPI2AuthnMethod) eqn:Hm.
    { split; [intros _ | discriminate].
      left. apply ContainsFunc_true_iff in Hm as (m & Hin & Hm).
      apply notFAPI2AuthnMethod_true_iff in Hm. eauto. }
    assert (Hm' : ~ exists m, m ∈ provider.ClientAuthnMethods (provider.config p)
                   /\ m <> goidc.ClientAuthnPrivateKeyJWT /\ m <> goidc.ClientAuthnTLS).
    { intros (m & Hin & Hne). rewrite <- notFAPI2AuthnMethod_true_iff in Hne.
      assert (ContainsFunc (provider.ClientAuthnMethods (provider.config p))
                provider.notFAPI2AuthnMethod = true)
        by (apply ContainsFunc_true_iff; eauto).
      congruence. }
    destruct (Contains _ goidc.GrantImplicit) eqn:Hi.
    { split; [intros _ | discriminate].
      right; left. now apply Contains_true_iff. }
    apply Contains_false_iff in Hi.
    destruct (provider.PARIsEnabled (provider.config p)) eqn:Hpe,
             (provider.PARIsRequired (provider.config p)) eqn:Hpr; simpl;
      try (split; [intros _ | discriminate]; right; right; left; intros [? ?]; discriminate).
    destruct (provider.PKCEIsEnabled (provider.config p)) eqn:Hke,
             (provider.PKCEIsRequired (provider.config p)) eqn:Hkr; simpl;
      try (split; [intros _ | discriminate]; right; right; right; left;
           intros [? ?]; discriminate).
    destruct (provider.IssuerRespParamIsEnabled (provider.config p)) eqn:Hiss; simpl.
    2: { split; [intros _ | discriminate]. do 4 right. left. reflexivity. }
    destruct (Contains _ goidc.GrantRefreshToken) eqn:Hr; simpl.
    - apply Contains_true_iff in Hr.
      destruct (provider.RefreshTokenRotationIsEnabled (provider.config p)) eqn:Hrot.
      + split; [intros _ | discriminate]. do 5 right. split; [assumption | reflexivity].
      + split; [congruence|].
        intros [H|[H|[H|[H|[H|[_ H]]]]]]; try contradiction; try discriminate.
        * exfalso. apply H. split; reflexivity.
        * exfalso. apply H. split; reflexivity.
    - apply Contains_false_iff in Hr.
      split; [congruence|].
      intros [H|[H|[H|[H|[H|[H _]]]]]]; try contradiction; try discriminate.
      * exfalso. apply H. split; reflexivity.
      * exfalso. apply H. split; reflexivity. }
  split; [exact Hiff|]. split.
  - destruct (provider.validateFAPI2Profile p) eqn:Hv.
    + split; [discriminate|]. intros Hn. exfalso. apply Hn, Hiff. congruence.
    + split; [|reflexivity]. intros _ Hv'. apply Hiff in Hv'. congruence.
  - intros Hnone. apply Hiff. left. exists goidc.ClientAuthnNone.
    split; [assumption|]. split; discriminate.
Qed.

(** A compliant FAPI 2.0 configuration passes; the same configuration with
    rotation switched on is an instance of the theorem as well. *)
Lemma C3_validateFAPI2Profile_witness :
  provider.Profile (provider.config fixtures.fapi2_ok) = goidc.ProfileFAPI2
  /\ provider.validateFAPI2Profile fixtures.fapi2_ok = None
  /\ ~ provider.violatesFAPI2 (provider.config fixtures.fapi2_ok).
Proof.
  assert (Hp : provider.Profile (provider.config fixtures.fapi2_ok) = goidc.ProfileFAPI2)
    by reflexivity.
  split; [exact Hp|].
  assert (Hv : provider.validateFAPI2Profile fixtures.fapi2_ok = None) by reflexivity.
  split; [exact Hv|].
  apply (proj1 (proj2 (C3_validateFAPI2Profile_fails_exactly fixtures.fapi2_ok Hp))).
  exact Hv.
Defined.

(** What [validateIntrospectionClientAuthnMethods] computes when
    introspection is enabled: it passes exactly when 'none' is one of the
    server's client authentication methods and every introspection method
    is one of them too. *)
Lemma introspectionMethodsLoop_None (allowed methods : list string) :
  provider.introspectionMethodsLoop allowed methods = None
  <-> forall m, m ∈ methods -> m ∈ allowed.
Proof.
  induction methods as [|m methods IH]; simpl.
  - split; [intros _ m Hin; inversion Hin | reflexivity].
  - destruct (Contains allowed m) eqn:Hc; simpl.
    + apply Contains_true_iff in Hc. rewrite IH. split.
      * intros Hall x Hin. inversion Hin; subst; auto.
      * intros Hall x Hin. apply Hall. now right.
    + apply Contains_false_iff in Hc. split; [discriminate|].
      intros Hall. exfalso. apply Hc, Hall. left.
Qed.

Lemma validateIntrospectionClientAuthnMethods_None (p : provider.provider) :
  provider.IntrospectionIsEnabled (provider.config p) = true ->
  (provider.validateIntrospectionClientAuthnMethods p = None
   <-> goidc.ClientAuthnNone ∈ provider.ClientAuthnMethods (provider.config p)
       /\ forall m, m ∈ provider.IntrospectionClientAuthnMethods (provider.config p) ->
                    m ∈ provider.ClientAuthnMethods (provider.config p)).
Proof.
  intros Hen. unfold provider.validateIntrospectionClientAuthnMethods.
  rewrite Hen. simpl.
  destruct (Contains _ goidc.ClientAuthnNone) eqn:Hnone; simpl.
  - apply Contains_true_iff in Hnone. rewrite introspectionMethodsLoop_None. tauto.
  - apply Contains_false_iff in Hnone. split; [discriminate | tauto].
Qed.

(** C4 (the code at the failing inputs). With introspection enabled,
    [validateIntrospectionClientAuthnMethods] accepts a configuration whose
    introspection methods are exactly 'none', and rejects, with the message
    about 'none', a configuration in which 'none' appears nowhere and the
    introspection methods are a subset of the server's methods. *)
Theorem C4_validateIntrospectionClientAuthnMethods_inverted :
  provider.validateIntrospectionClientAuthnMethods
    (fixtures.introspecting [goidc.ClientAuthnNone] [goidc.ClientAuthnNone]) = None
  /\ provider.validateIntrospectionClientAuthnMethods
       (fixtures.introspecting [goidc.ClientAuthnPrivateKeyJWT] [goidc.ClientAuthnPrivateKeyJWT])
     = errors_New "none client authentication method not allowed for token introspection".
Proof.
  split.
  - apply validateIntrospectionClientAuthnMethods_None; [reflexivity|].
    simpl. split; [left | intros m Hm; exact Hm].
  - unfold provider.validateIntrospectionClientAuthnMethods. simpl.
    destruct (decide (goidc.ClientAuthnPrivateKeyJWT = goidc.ClientAuthnNone)) as [Heq|_];
      [discriminate Heq | reflexivity].
Qed.

(* ===================================================================== *)
(** * Dynamic client registration                                         *)
(* ===================================================================== *)

Lemma ScopesContainsOpenID_empty : goidc.ScopesContainsOpenID "" = false.
Proof. reflexivity. Qed.

(** C8 (the code on every request). When the openid scope is required,
    [validateOpenIDScopeIfRequired] rejects every registration request,
    whatever its scopes: in particular one that asks for 'openid profile'.
    The variant of src/unnamed/part_003 does the same with the code
    [invalid_request]. *)
Theorem C8_validateOpenIDScopeIfRequired_rejects_all (scopes : string) :
  dcr.validateOpenIDScopeIfRequired
    {| dcr.OpenIDIsRequired := true |} {| dcr.Scopes := scopes |}
  = goidc.NewOAuthError goidc.ErrorCodeInvalidClientMetadata "scope openid is required"
  /\ dcr.validateOpenIDScopeIfRequired_part_003
       {| dcr.OpenIDIsRequired := true |} {| dcr.Scopes := scopes |}
     = goidc.NewOAuthError goidc.ErrorCodeInvalidRequest "scope openid is required"
  /\ goidc.ScopesContainsOpenID "openid profile" = true
  /\ dcr.validateOpenIDScopeIfRequired
       {| dcr.OpenIDIsRequired := true |} {| dcr.Scopes := "openid profile" |} <> None.
Proof.
  unfold dcr.validateOpenIDScopeIfRequired, dcr.validateOpenIDScopeIfRequired_part_003.
  simpl dcr.OpenIDIsRequired. simpl dcr.Scopes. cbv iota.
  assert (Hall : negb (String.eqb scopes "") || negb (goidc.ScopesContainsOpenID scopes) = true).
  { destruct (String.eqb_spec scopes "") as [->|Hne].
    - rewrite ScopesContainsOpenID_empty. reflexivity.
    - reflexivity. }
  simpl negb at 1. cbv iota. rewrite Hall.
  repeat split; try reflexivity. discriminate.
Qed.

(* ===================================================================== *)
(** * Token options and token lengths                                     *)
(* ===================================================================== *)

Lemma int_add_99_1 : int_add 99 1 = 100.
Proof. reflexivity. Qed.

Lemma TokenOptions_OpaqueLength (ctx : oidc.Context) (grantInfo : GrantInfo.t) :
  TokenOptions.OpaqueLength (oidc.TokenOptions ctx grantInfo)
  = if TokenOptions.OpaqueLength (oidc.TokenOptionsFunc ctx grantInfo) =? 99
    then 100
    else TokenOptions.OpaqueLength (oidc.TokenOptionsFunc ctx grantInfo).
Proof.
  unfold oidc.TokenOptions, goidc.RefreshTokenLength.
  destruct (TokenOptions.OpaqueLength (oidc.TokenOptionsFunc ctx grantInfo) =? 99) eqn:H99.
  - apply Z.eqb_eq in H99. simpl. rewrite H99. exact int_add_99_1.
  - reflexivity.
Qed.

(** C7. The options that [Context.TokenOptions] hands to the minting never
    carry the opaque length 99: an answer of the host's function with
    [OpaqueLength = 99] is raised to 100 and every other answer is passed
    on unchanged.  Hence an opaque access token minted from them has a
    length other than 99, while a refresh token has length 99. *)
Theorem C7_opaque_length_differs_from_refresh_length
    (ctx : oidc.Context) (grantInfo : GrantInfo.t) :
  TokenOptions.OpaqueLength (oidc.TokenOptions ctx grantInfo) <> goidc.RefreshTokenLength
  /\ (TokenOptions.OpaqueLength (oidc.TokenOptionsFunc ctx grantInfo) = goidc.RefreshTokenLength ->
      TokenOptions.OpaqueLength (oidc.TokenOptions ctx grantInfo) = 100)
  /\ (TokenOptions.OpaqueLength (oidc.TokenOptionsFunc ctx grantInfo) <> goidc.RefreshTokenLength ->
      oidc.TokenOptions ctx grantInfo = oidc.TokenOptionsFunc ctx grantInfo)
  /\ (forall (r : goidc.Reader) (i : nat) (accessToken : string),
        GrantSession.MakeOpaqueToken r i (oidc.TokenOptions ctx grantInfo) = Ret accessToken ->
        len accessToken <> goidc.RefreshTokenLength)
  /\ (forall (r : goidc.Reader) (i : nat),
        len (GrantSession.GenerateRefreshToken r i) = goidc.RefreshTokenLength).
Proof.
  pose proof (TokenOptions_OpaqueLength ctx grantInfo) as Hlen.
  unfold goidc.RefreshTokenLength in *.
  assert (Hne : TokenOptions.OpaqueLength (oidc.TokenOptions ctx grantInfo) <> 99).
  { rewrite Hlen.
    destruct (TokenOptions.OpaqueLength (oidc.TokenOptionsFunc ctx grantInfo) =? 99) eqn:H99.
    - lia.
    - now apply Z.eqb_neq in H99. }
  split; [exact Hne|]. split; [|split; [|split]].
  - intros H99. rewrite Hlen, H99. reflexivity.
  - intros Hn. unfold oidc.TokenOptions, goidc.RefreshTokenLength.
    apply Z.eqb_neq in Hn. now rewrite Hn.
  - intros r i accessToken Hmint. unfold GrantSession.MakeOpaqueToken in Hmint.
    apply RandomString_length in Hmint. congruence.
  - intros r i. unfold GrantSession.GenerateRefreshToken, len.
    rewrite RandomString_loop_length. reflexivity.
Qed.

(** The theorem at a host that asks for 99 characters: the engine mints
    100. *)
Lemma C7_opaque_length_witness :
  TokenOptions.OpaqueLength (oidc.TokenOptionsFunc fixtures.opaque99_ctx fixtures.grant_info)
    = goidc.RefreshTokenLength
  /\ TokenOptions.OpaqueLength (oidc.TokenOptions fixtures.opaque99_ctx fixtures.grant_info) = 100.
Proof.
  assert (H99 : TokenOptions.OpaqueLength
                  (oidc.TokenOptionsFunc fixtures.opaque99_ctx fixtures.grant_info)
                = goidc.RefreshTokenLength) by reflexivity.
  split; [exact H99|].
  exact (proj1 (proj2 (C7_opaque_length_differs_from_refresh_length
                         fixtures.opaque99_ctx fixtures.grant_info)) H99).
Defined.

(* ===================================================================== *)
(** * The setters of an authentication session                            *)
(* ===================================================================== *)

(** Closes a setter's goal once the map it writes is known: the session
    returned is the one with the key inserted. *)
Ltac stored_value :=
  eexists; split; [reflexivity|]; simpl;
  rewrite ?lookup_insert_eq; repeat split; discriminate || reflexivity.

(** C9. On every session, the zero value with its four nil maps included,
    [StoreParameter], [SetTokenClaim], [SetIDTokenClaim] and
    [SetUserInfoClaim] return without a panic, leave their map non-nil, and
    the value just stored is what the map (for the scratchpad: [Parameter])
    gives back under the same key. *)
Theorem C9_session_setters_never_panic (s : goidc.AuthnSession) (key : string) (value : any) :
  (exists s', goidc.StoreParameter s key value = Ret s'
              /\ goidc.Store s' <> None
              /\ goidc.AuthnSession_Parameter s' key = value
              /\ map_index (goidc.Store s') key = value)
  /\ (exists s', goidc.SetTokenClaim s key value = Ret s'
                 /\ goidc.AdditionalTokenClaims s' <> None
                 /\ map_index (goidc.AdditionalTokenClaims s') key = value)
  /\ (exists s', goidc.SetIDTokenClaim s key value = Ret s'
                 /\ goidc.AdditionalIDTokenClaims s' <> None
                 /\ map_index (goidc.AdditionalIDTokenClaims s') key = value)
  /\ (exists s', goidc.SetUserInfoClaim s key value = Ret s'
                 /\ goidc.AdditionalUserInfoClaims s' <> None
                 /\ map_index (goidc.AdditionalUserInfoClaims s') key = value).
Proof.
  repeat split.
  - unfold goidc.StoreParameter, goidc.AuthnSession_Parameter.
    destruct (goidc.Store s) as [g|] eqn:Hs; simpl; [rewrite Hs; simpl|]; stored_value.
  - unfold goidc.SetTokenClaim.
    destruct (goidc.AdditionalTokenClaims s) as [g|] eqn:Hs; simpl;
      [rewrite Hs; simpl|]; stored_value.
  - unfold goidc.SetIDTokenClaim.
    destruct (goidc.AdditionalIDTokenClaims s) as [g|] eqn:Hs; simpl;
      [rewrite Hs; simpl|]; stored_value.
  - unfold goidc.SetUserInfoClaim.
    destruct (goidc.AdditionalUserInfoClaims s) as [g|] eqn:Hs; simpl;
      [rewrite Hs; simpl|]; stored_value.
Qed.

(* ===================================================================== *)
(** * The end of a successful authorization flow                          *)
(* ===================================================================== *)

Lemma GenerateAuthorizationCode_length (r : goidc.Reader) (i : nat) :
  len (goidc.GenerateAuthorizationCode r i) = goidc.AuthorizationCodeLength.
Proof.
  unfold goidc.GenerateAuthorizationCode, len.
  rewrite RandomString_loop_length. reflexivity.
Qed.

(** Whatever the response type, [authorizeAuthnSession] ends by giving the
    session a fresh 30-character authorization code and saving it: the
    store holds the session under its id when the function returns. *)
Lemma authorizeAuthnSession_always_saves
    (ctx : authorize.Context) (session : goidc.AuthnSession) :
  let session' :=
    goidc.InitAuthorizationCode (authorize.Entropy ctx) (authorize.EntropyPos ctx)
                                (authorize.Now ctx) session in
  exists ctx',
    authorize.authorizeAuthnSession ctx session = (ctx', session', None)
    /\ storage.Sessions (authorize.AuthnSessionManager ctx') !! goidc.ID session = Some session'
    /\ goidc.ID session' = goidc.ID session
    /\ len (goidc.AuthorizationCode session') = goidc.AuthorizationCodeLength.
Proof.
  intros session'. unfold authorize.authorizeAuthnSession.
  destruct (negb (goidc.ResponseType_Contains _ _)); simpl;
    (eexists; split; [reflexivity|]; simpl; split; [apply lookup_insert_eq|];
     split; [reflexivity | apply GenerateAuthorizationCode_length]).
Qed.

(** When the response type has no 'code', the save happens after the
    delete: the store ends as the old one with the session written back. *)
Lemma authorizeAuthnSession_without_code
    (ctx : authorize.Context) (session : goidc.AuthnSession) :
  goidc.ResponseType_Contains (goidc.ResponseType (goidc.Params session))
                              goidc.ResponseTypeCode = false ->
  storage.Sessions (authorize.AuthnSessionManager
                      (fst (fst (authorize.authorizeAuthnSession ctx session))))
  = <[goidc.ID session :=
        goidc.InitAuthorizationCode (authorize.Entropy ctx) (authorize.EntropyPos ctx)
                                    (authorize.Now ctx) session]>
      (delete (goidc.ID session) (storage.Sessions (authorize.AuthnSessionManager ctx))).
Proof.
  intros Hrt. unfold authorize.authorizeAuthnSession. rewrite Hrt. reflexivity.
Qed.

(** C2 (the code at the failing input). The session of an implicit flow
    ([response_type=token], no 'code') is still in the AuthnSession store
    after [authorizeAuthnSession] has returned without error: it is found
    under its id and under the 30-character authorization code it was
    given, and it is the only session of the store. *)
Theorem C2_implicit_session_is_kept :
  goidc.ResponseType_Contains
    (goidc.ResponseType (goidc.Params fixtures.implicit_session)) goidc.ResponseTypeCode = false
  /\ exists ctx' session',
       authorize.authorizeAuthnSession
         (fixtures.authorize_ctx fixtures.implicit_session) fixtures.implicit_session
       = (ctx', session', None)
       /\ storage.Sessions (authorize.AuthnSessionManager ctx') !! "s1" = Some session'
       /\ storage.Sessions (authorize.AuthnSessionManager ctx') = {[ "s1" := session' ]}
       /\ len (goidc.AuthorizationCode session') = 30
       /\ storage.SessionByAuthorizationCode (authorize.AuthnSessionManager ctx')
            (goidc.AuthorizationCode session') = (Some session', None).
Proof.
  assert (Hrt : goidc.ResponseType_Contains
                  (goidc.ResponseType (goidc.Params fixtures.implicit_session))
                  goidc.ResponseTypeCode = false) by reflexivity.
  split; [exact Hrt|].
  pose proof (authorizeAuthnSession_always_saves
                (fixtures.authorize_ctx fixtures.implicit_session)
                fixtures.implicit_session) as Hsave.
  pose proof (authorizeAuthnSession_without_code
                (fixtures.authorize_ctx fixtures.implicit_session)
                fixtures.implicit_session Hrt) as Hstore.
  cbv zeta in Hsave. destruct Hsave as (ctx' & Hrun & Hid & _ & Hlen).
  rewrite Hrun in Hstore. simpl fst in Hstore.
  exists ctx'. eexists. split; [exact Hrun|].
  assert (Hsingle : storage.Sessions (authorize.AuthnSessionManager ctx')
                    = {[ "s1" := goidc.InitAuthorizationCode
                                   (authorize.Entropy (fixtures.authorize_ctx fixtures.implicit_session))
                                   (authorize.EntropyPos (fixtures.authorize_ctx fixtures.implicit_session))
                                   (authorize.Now (fixtures.authorize_ctx fixtures.implicit_session))
                                   fixtures.implicit_session ]}).
  { rewrite Hstore. simpl. rewrite delete_singleton_eq. apply insert_empty. }
  split; [exact Hid|]. split; [exact Hsingle|]. split; [exact Hlen|].
  unfold storage.SessionByAuthorizationCode, storage.firstSession.
  rewrite Hsingle, map_to_list_singleton. simpl. reflexivity.
Qed.

(* ===================================================================== *)
(** * The JSON form of [Resources]                                        *)
(* ===================================================================== *)

Lemma coerce_from_valid (s : string) : forall pending : nat,
  json.ValidString_from pending s = true -> json.coerce_from pending s = s.
Proof.
  induction s as [|c t IH]; intros pending Hvalid; [reflexivity|].
  cbn [json.ValidString_from json.coerce_from] in *.
  destruct pending as [|p].
  - destruct (json.rune_size (String c t)) as [|k]; [discriminate|].
    now rewrite (IH k Hvalid).
  - now rewrite (IH p Hvalid).
Qed.

Lemma toValidUTF8_valid (s : string) :
  json.ValidString s = true -> json.toValidUTF8 s = s.
Proof. apply coerce_from_valid. Qed.

Lemma Unmarshal_elements_Marshal (l : list string) :
  json.Unmarshal_elements (map json.Marshal_string l) = Some (map json.toValidUTF8 l).
Proof.
  induction l as [|x l IH]; [reflexivity|].
  cbn [map json.Unmarshal_elements]. rewrite IH. reflexivity.
Qed.

Lemma map_toValidUTF8_valid (l : list string) :
  (forall s, s ∈ l -> json.ValidString s = true) -> map json.toValidUTF8 l = l.
Proof.
  induction l as [|x l IH]; intros Hall; [reflexivity|].
  cbn [map]. rewrite toValidUTF8_valid by (apply Hall; left).
  rewrite IH; [reflexivity|]. intros s Hs. apply Hall. now right.
Qed.

(** A non-nil list comes back as the list of its strings coerced to valid
    UTF-8. *)
Lemma Resources_roundtrip_Some (l : list string) :
  goidc.Resources_roundtrip (Some l) = (Some (map json.toValidUTF8 l), None).
Proof.
  unfold goidc.Resources_roundtrip, goidc.Resources_MarshalJSON.
  destruct l as [|x [|y l]].
  - reflexivity.
  - reflexivity.
  - unfold goidc.Resources_UnmarshalJSON, json.Marshal_strings.
    cbn [json.Unmarshal_string json.Unmarshal_strings].
    rewrite Unmarshal_elements_Marshal. reflexivity.
Qed.

(** C10 (as stated, at the nil list). The nil [Resources] is marshalled as
    [null], and [null] is unmarshalled as the list of one empty string: the
    round trip turns a list of length 0 into a list of length 1. *)
Lemma C10_nil_Resources_not_preserved :
  goidc.Resources_MarshalJSON None = (json.JNull, None)
  /\ goidc.Resources_roundtrip None = (Some [""], None)
  /\ goidc.Resources_len (fst (goidc.Resources_roundtrip None)) <> goidc.Resources_len None.
Proof.
  split; [reflexivity|]. split; [reflexivity|]. simpl. discriminate.
Qed.

(** A string that is not valid UTF-8 does not survive either: the encoder
    replaces the offending byte by U+FFFD. *)
Lemma Resources_invalid_utf8_not_preserved :
  goidc.Resources_roundtrip (Some [String (ascii_of_N 255) ""])
  = (Some [json.replacement], None).
Proof. reflexivity. Qed.

(** C10 (amended). Every non-nil [Resources] whose strings are valid UTF-8
    is given back unchanged by [json.Unmarshal] after [json.Marshal]: a list
    of one string travels as a bare JSON string, a list of any other length
    (the empty one included) as a JSON array of strings. *)
Theorem C10_Resources_roundtrip (l : list string) :
  (forall s, s ∈ l -> json.ValidString s = true) ->
  goidc.Resources_roundtrip (Some l) = (Some l, None)
  /\ (forall s, l = [s] -> goidc.Resources_MarshalJSON (Some l) = (json.JString s, None))
  /\ (length l <> 1%nat ->
      goidc.Resources_MarshalJSON (Some l) = (json.JArray (map json.JString l), None)).
Proof.
  intros Hvalid. split; [|split].
  - rewrite Resources_roundtrip_Some, map_toValidUTF8_valid by assumption. reflexivity.
  - intros s ->. unfold goidc.Resources_MarshalJSON, json.Marshal_string.
    rewrite toValidUTF8_valid by (apply Hvalid; left). reflexivity.
  - intros Hlen. unfold goidc.Resources_MarshalJSON.
    assert (Harr : json.Marshal_strings (Some l) = json.JArray (map json.JString l)).
    { unfold json.Marshal_strings. f_equal.
      rewrite <- (map_toValidUTF8_valid l Hvalid) at 2.
      rewrite map_map. reflexivity. }
    destruct l as [|x [|y l]]; [now rewrite Harr | simpl in Hlen; lia | now rewrite Harr].
Qed.

(** The theorem at the audience list of two resource servers. *)
Lemma C10_Resources_roundtrip_witness :
  goidc.Resources_roundtrip (Some ["https://rs1.example"; "https://rs2.example"])
  = (Some ["https://rs1.example"; "https://rs2.example"], None).
Proof.
  apply (C10_Resources_roundtrip ["https://rs1.example"; "https://rs2.example"]).
  intros s Hs. apply list_elem_of_In in Hs. simpl in Hs.
  destruct Hs as [<-|[<-|[]]]; reflexivity.
Defined.

(* ===================================================================== *)
(** * Client assertions                                                   *)
(* ===================================================================== *)





(** The verdict of [areClaimsValid] does not depend on the 'jti' of the
    assertion. *)
Lemma areClaimsValid_ignores_jti
    (ctx : clientutil.Context) (client : clientutil.Client) (claims : jwt.Claims)
    (now : Z) (jti : string) :
  clientutil.areClaimsValid ctx client (jwt.with_ID claims jti) now
  = clientutil.areClaimsValid ctx client claims now.
Proof.
  unfold clientutil.areClaimsValid, jwt.ValidateWithLeeway.
  destruct claims as [iss sub aud exp nbf iat id]. reflexivity.
Qed.



(* ===================================================================== *)
(** * The refresh_token grant                                             *)
(* ===================================================================== *)



(** With rotation enabled the new refresh token is whatever the entropy
    source yields: a source that repeats itself gives back the token that
    was presented. *)
Lemma rotation_may_repeat_the_refresh_token :
  token.TokenResponse.RefreshToken
    (snd (fst (token.handleRefreshTokenGrantTokenCreation (list GrantSession.t)
                 fixtures.list_GetByRefreshToken fixtures.list_CreateOrUpdate
                 fixtures.authenticated fixtures.make_token fixtures.make_id_token
                 (fixtures.token_ctx true 0) (fixtures.refresh_request "c1" ""))))
  = token.TokenRequest.RefreshToken (fixtures.refresh_request "c1" "").
Proof. vm_compute. reflexivity. Qed.

Section RefreshGrant.

Variable Manager : Type.
Variable GetByRefreshToken : Manager -> string -> GrantSession.t * error.
Variable CreateOrUpdate : Manager -> GrantSession.t -> Manager * error.
Variable GetAuthenticatedClient :
  token.ClientAuthnRequest.t -> token.Client.t * goidc.OAuthError.
Variable MakeToken : token.Client.t -> GrantSession.t -> token.Token.t.
Variable MakeIdToken : token.Client.t -> GrantSession.t -> string.



End RefreshGrant.


(* ===================================================================== *)
(** * Token introspection                                                 *)
(* ===================================================================== *)

Section Introspection.

Variable IsJWS : string -> bool.
Variable ValidClaims : introspection.Context -> string -> gomap any * error.

(** The answer for a refresh token: inactive on a miss and on an expired
    session, the session's granted scopes and expiry otherwise. *)
Lemma getRefreshTokenIntrospectionInfo_cases (ctx : introspection.Context) (tok : string) :
  let info := introspection.getRefreshTokenIntrospectionInfo ctx tok in
  (forall g msg, introspection.GrantSessionByRefreshToken ctx tok = (g, Some msg) ->
                 info = introspection.inactive)
  /\ (forall g, introspection.GrantSessionByRefreshToken ctx tok = (g, None) ->
                GrantSession.ExpiresAtTimestamp g < introspection.Now ctx ->
                info = introspection.inactive)
  /\ (forall g, introspection.GrantSessionByRefreshToken ctx tok = (g, None) ->
                introspection.Now ctx <= GrantSession.ExpiresAtTimestamp g ->
                introspection.IsActive info = true
                /\ introspection.Scopes info = GrantSession.GrantedScopes g
                /\ introspection.ExpiresAtTimestamp info = GrantSession.ExpiresAtTimestamp g
                /\ introspection.ClientID info = GrantSession.ClientID g
                /\ introspection.Subject info = GrantSession.Subject g
                /\ introspection.JWKThumbprint info = GrantSession.JWKThumbprint g
                /\ introspection.ClientCertificateThumbprint info
                   = GrantSession.ClientCertificateThumbprint g).
Proof.
  intros info. subst info. unfold introspection.getRefreshTokenIntrospectionInfo,
    GrantSession.IsRefreshSessionExpired.
  destruct (introspection.GrantSessionByRefreshToken ctx tok) as [g0 [msg0|]].
  - split; [reflexivity|]. split; intros g [=].
  - split; [intros g msg [=]|]. split; intros g [= <-] Hnow.
    + apply Z.ltb_lt in Hnow. now rewrite Hnow.
    + apply Z.ltb_ge in Hnow. rewrite Hnow. repeat split.
Qed.

(** The answer for an access token id: inactive on a miss and when
    last_token_issued_at + token_lifetime < now, the session's active
    scopes and the expiry of its last token otherwise. *)
Lemma tokenIntrospectionInfoByID_cases (ctx : introspection.Context) (tokenID : string) :
  let info := introspection.tokenIntrospectionInfoByID ctx tokenID in
  (forall g msg, introspection.GrantSessionByTokenID ctx tokenID = (g, Some msg) ->
                 info = introspection.inactive)
  /\ (forall g, introspection.GrantSessionByTokenID ctx tokenID = (g, None) ->
                GrantSession.LastTokenIssuedAtTimestamp g + GrantSession.TokenLifetimeSecs g
                  < introspection.Now ctx ->
                info = introspection.inactive)
  /\ (forall g, introspection.GrantSessionByTokenID ctx tokenID = (g, None) ->
                introspection.Now ctx
                  <= GrantSession.LastTokenIssuedAtTimestamp g + GrantSession.TokenLifetimeSecs g ->
                introspection.IsActive info = true
                /\ introspection.Scopes info = GrantSession.ActiveScopes g
                /\ introspection.ClientID info = GrantSession.ClientID g
                /\ introspection.Subject info = GrantSession.Subject g
                /\ introspection.ExpiresAtTimestamp info
                   = int_add (GrantSession.LastTokenIssuedAtTimestamp g)
                             (GrantSession.TokenLifetimeSecs g)
                /\ introspection.JWKThumbprint info = GrantSession.JWKThumbprint g
                /\ introspection.ClientCertificateThumbprint info
                   = GrantSession.ClientCertificateThumbprint g).
Proof.
  intros info. subst info. unfold introspection.tokenIntrospectionInfoByID,
    GrantSession.HasLastTokenExpired.
  destruct (introspection.GrantSessionByTokenID ctx tokenID) as [g0 [msg0|]].
  - split; [reflexivity|]. split; intros g [=].
  - split; [intros g msg [=]|]. split; intros g [= <-] Hnow.
    + apply Z.ltb_lt in Hnow. now rewrite Hnow.
    + apply Z.ltb_ge in Hnow. rewrite Hnow. repeat split.
Qed.

(** C1. [tokenIntrospectionInfo] dispatches on the shape of the token.
    - A token of length 99 is a refresh token: the grant session is looked
      up by refresh token; the answer is inactive on a miss or when the
      session's expiry has passed, and otherwise active with the session's
      granted scopes, client id, subject, expires_at and thumbprints.
    - Any other token that is a JWS is verified: the answer is inactive
      when the verification fails or 'jti' is absent, and otherwise the
      answer for the token id 'jti'.
    - Any other token is looked up by its own value as token id.
    - The answer for a token id is inactive on a miss or when
      last_token_issued_at + token_lifetime < now, and otherwise active
      with the session's active scopes, client id, subject, the expiry of
      the last token and the thumbprints. *)
Theorem C1_tokenIntrospectionInfo_dispatch (ctx : introspection.Context) (tok : string) :
  (len tok = goidc.RefreshTokenLength ->
     introspection.tokenIntrospectionInfo IsJWS ValidClaims ctx tok
     = Ret (introspection.getRefreshTokenIntrospectionInfo ctx tok)
     /\ (forall g msg, introspection.GrantSessionByRefreshToken ctx tok = (g, Some msg) ->
           introspection.getRefreshTokenIntrospectionInfo ctx tok = introspection.inactive)
     /\ (forall g, introspection.GrantSessionByRefreshToken ctx tok = (g, None) ->
           GrantSession.ExpiresAtTimestamp g < introspection.Now ctx ->
           introspection.getRefreshTokenIntrospectionInfo ctx tok = introspection.inactive)
     /\ (forall g, introspection.GrantSessionByRefreshToken ctx tok = (g, None) ->
           introspection.Now ctx <= GrantSession.ExpiresAtTimestamp g ->
           let info := introspection.getRefreshTokenIntrospectionInfo ctx tok in
           introspection.IsActive info = true
           /\ introspection.Scopes info = GrantSession.GrantedScopes g
           /\ introspection.ExpiresAtTimestamp info = GrantSession.ExpiresAtTimestamp g
           /\ introspection.ClientID info = GrantSession.ClientID g
           /\ introspection.Subject info = GrantSession.Subject g
           /\ introspection.JWKThumbprint info = GrantSession.JWKThumbprint g
           /\ introspection.ClientCertificateThumbprint info
              = GrantSession.ClientCertificateThumbprint g))
  /\ (len tok <> goidc.RefreshTokenLength -> IsJWS tok = true ->
      (forall claims msg, ValidClaims ctx tok = (claims, Some msg) ->
         introspection.tokenIntrospectionInfo IsJWS ValidClaims ctx tok
         = Ret introspection.inactive)
      /\ (forall claims, ValidClaims ctx tok = (claims, None) ->
            map_index claims goidc.ClaimTokenID = any_nil ->
            introspection.tokenIntrospectionInfo IsJWS ValidClaims ctx tok
            = Ret introspection.inactive)
      /\ (forall claims jti, ValidClaims ctx tok = (claims, None) ->
            map_index claims goidc.ClaimTokenID = any_string jti ->
            introspection.tokenIntrospectionInfo IsJWS ValidClaims ctx tok
            = Ret (introspection.tokenIntrospectionInfoByID ctx jti)))
  /\ (len tok <> goidc.RefreshTokenLength -> IsJWS tok = false ->
      introspection.tokenIntrospectionInfo IsJWS ValidClaims ctx tok
      = Ret (introspection.tokenIntrospectionInfoByID ctx tok))
  /\ (forall tokenID,
        let info := introspection.tokenIntrospectionInfoByID ctx tokenID in
        (forall g msg, introspection.GrantSessionByTokenID ctx tokenID = (g, Some msg) ->
           info = introspection.inactive)
        /\ (forall g, introspection.GrantSessionByTokenID ctx tokenID = (g, None) ->
              GrantSession.LastTokenIssuedAtTimestamp g + GrantSession.TokenLifetimeSecs g
                < introspection.Now ctx ->
              info = introspection.inactive)
        /\ (forall g, introspection.GrantSessionByTokenID ctx tokenID = (g, None) ->
              introspection.Now ctx
                <= GrantSession.LastTokenIssuedAtTimestamp g
                   + GrantSession.TokenLifetimeSecs g ->
              introspection.IsActive info = true
              /\ introspection.Scopes info = GrantSession.ActiveScopes g
              /\ introspection.ClientID info = GrantSession.ClientID g
              /\ introspection.Subject info = GrantSession.Subject g
              /\ introspection.ExpiresAtTimestamp info
                 = int_add (GrantSession.LastTokenIssuedAtTimestamp g)
                           (GrantSession.TokenLifetimeSecs g)
              /\ introspection.JWKThumbprint info = GrantSession.JWKThumbprint g
              /\ introspection.ClientCertificateThumbprint info
                 = GrantSession.ClientCertificateThumbprint g)).
Proof.
  split; [|split; [|split]].
  - intros Hlen. split.
    + unfold introspection.tokenIntrospectionInfo. apply Z.eqb_eq in Hlen.
      now rewrite Hlen.
    + exact (getRefreshTokenIntrospectionInfo_cases ctx tok).
  - intros Hlen Hjws. apply Z.eqb_neq in Hlen.
    unfold introspection.tokenIntrospectionInfo, introspection.getJWTTokenIntrospectionInfo.
    rewrite Hlen, Hjws. split; [|split].
    + intros claims msg ->. reflexivity.
    + intros claims -> ->. reflexivity.
    + intros claims jti -> ->. reflexivity.
  - intros Hlen Hjws. apply Z.eqb_neq in Hlen.
    unfold introspection.tokenIntrospectionInfo, introspection.opaqueTokenIntrospectionInfo.
    now rewrite Hlen, Hjws.
  - intros tokenID. exact (tokenIntrospectionInfoByID_cases ctx tokenID).
Qed.

(** A verified JWT whose 'jti' is not a string makes the type assertion of
    [getJWTTokenIntrospectionInfo] panic. *)
Lemma getJWTTokenIntrospectionInfo_panics_on_numeric_jti
    (ctx : introspection.Context) (tok : string) (claims : gomap any) (n : Z) :
  ValidClaims ctx tok = (claims, None) ->
  map_index claims goidc.ClaimTokenID = any_int n ->
  exists msg, introspection.getJWTTokenIntrospectionInfo ValidClaims ctx tok = Panic msg.
Proof.
  intros Hc Hjti. unfold introspection.getJWTTokenIntrospectionInfo.
  rewrite Hc, Hjti. eauto.
Qed.

End Introspection.

(** The theorem at the store of [fixtures]: the 99-character refresh token
    of the grant is active with the granted scopes; a JWS whose 'jti' is
    the grant's token id is active with the active scopes. *)
Lemma C1_tokenIntrospectionInfo_witness :
  (introspection.tokenIntrospectionInfo fixtures.is_jws fixtures.valid_claims
     fixtures.introspection_ctx fixtures.refresh_token_0
   = Ret (introspection.getRefreshTokenIntrospectionInfo
            fixtures.introspection_ctx fixtures.refresh_token_0)
   /\ introspection.IsActive (introspection.getRefreshTokenIntrospectionInfo
                                fixtures.introspection_ctx fixtures.refresh_token_0) = true)
  /\ introspection.tokenIntrospectionInfo fixtures.is_jws fixtures.valid_claims
       fixtures.introspection_ctx "eyJhbGciOiJSUzI1NiJ9.e30.c2ln"
     = Ret (introspection.tokenIntrospectionInfoByID fixtures.introspection_ctx "t0").
Proof.
  pose proof (C1_tokenIntrospectionInfo_dispatch fixtures.is_jws fixtures.valid_claims
                fixtures.introspection_ctx fixtures.refresh_token_0) as [Hrefresh _].
  pose proof (C1_tokenIntrospectionInfo_dispatch fixtures.is_jws fixtures.valid_claims
                fixtures.introspection_ctx "eyJhbGciOiJSUzI1NiJ9.e30.c2ln") as (_ & Hjws & _).
  split.
  - destruct (Hrefresh ltac:(vm_compute; reflexivity)) as (Hrun & _ & _ & Hactive).
    split; [exact Hrun|].
    apply (Hactive fixtures.grant_session); [vm_compute; reflexivity | simpl; lia].
  - destruct (Hjws ltac:(vm_compute; discriminate) ltac:(reflexivity)) as (_ & _ & Hjti).
    apply (Hjti (Some {[ goidc.ClaimTokenID := any_string "t0" ]})); reflexivity.
Defined.

(* ===================================================================== *)
(** * Further properties: strings, scopes and random values               *)
(* ===================================================================== *)

Lemma ContainsAll_true_iff {A} `{EqDecision A} (superSet subSet : list A) :
  goidc.ContainsAll superSet subSet = true <-> forall e, e ∈ subSet -> e ∈ superSet.
Proof.
  induction subSet as [|x rest IH]; simpl.
  - split; [intros _ e He; inversion He | reflexivity].
  - destruct (Contains superSet x) eqn:Hx; simpl.
    + apply Contains_true_iff in Hx. rewrite IH. split.
      * intros Hrest e He. inversion He; subst; auto.
      * intros Hall e He. apply Hall. now right.
    + apply Contains_false_iff in Hx. split; [discriminate|].
      intros Hall. exfalso. apply Hx, Hall. left.
Qed.

(** X1. [ContainsAll] decides inclusion: it answers true exactly when
    every element of the sub-set occurs in the super-set, and false
    exactly when some element of the sub-set is missing from it; the empty
    sub-set is contained in everything. *)
Theorem X1_ContainsAll_decides_inclusion {A} `{EqDecision A} (superSet subSet : list A) :
  (goidc.ContainsAll superSet subSet = true <-> forall e, e ∈ subSet -> e ∈ superSet)
  /\ (goidc.ContainsAll superSet subSet = false <-> exists e, e ∈ subSet /\ e ∉ superSet)
  /\ goidc.ContainsAll superSet [] = true.
Proof.
  split; [|split; [|reflexivity]].
  - induction subSet as [|x rest [IH1 IH2]]; simpl.
    + split; [intros _ e He; inversion He | reflexivity].
    + destruct (Contains superSet x) eqn:Hx; simpl.
      * apply Contains_true_iff in Hx. split.
        -- intros Hrest e He. inversion He; subst; auto.
        -- intros Hall. apply IH2. intros e He. apply Hall. now right.
      * apply Contains_false_iff in Hx. split; [discriminate|].
        intros Hall. exfalso. apply Hx, Hall. left.
  - induction subSet as [|x rest [IH1 IH2]]; simpl.
    + split; [discriminate | intros (e & He & _); inversion He].
    + destruct (Contains superSet x) eqn:Hx; simpl.
      * apply Contains_true_iff in Hx. split.
        -- intros Hrest. destruct (IH1 Hrest) as (e & He & Hne).
           exists e. split; [now right | exact Hne].
        -- intros (e & He & Hne). apply IH2.
           inversion He; subst; [contradiction|]. now exists e.
      * apply Contains_false_iff in Hx. split; [|reflexivity].
        intros _. exists x. split; [left | exact Hx].
Qed.

(** X2. Scope inclusion is a preorder on scope strings: every scope string
    contains itself, inclusion is transitive, and a scope string that
    contains another one containing 'openid' contains 'openid' too. *)
Theorem X2_ContainsAllScopes_preorder (a b c : string) :
  goidc.ContainsAllScopes a a = true
  /\ (goidc.ContainsAllScopes a b = true -> goidc.ContainsAllScopes b c = true ->
      goidc.ContainsAllScopes a c = true)
  /\ (goidc.ContainsAllScopes a b = true -> goidc.ScopesContainsOpenID b = true ->
      goidc.ScopesContainsOpenID a = true).
Proof.
  unfold goidc.ContainsAllScopes, goidc.ScopesContainsOpenID. repeat split.
  - apply ContainsAll_true_iff. auto.
  - rewrite !ContainsAll_true_iff. intros Hab Hbc e He. auto.
  - rewrite ContainsAll_true_iff, !Contains_true_iff. intros Hab Hb. auto.
Qed.

Lemma get_elem_of (s : string) : forall (n : nat) (c : ascii),
  String.get n s = Some c -> c ∈ list_ascii_of_string s.
Proof.
  induction s as [|a s IH]; intros n c; simpl.
  - discriminate.
  - destruct n as [|n].
    + intros [= ->]. left.
    + intros Hget. right. eapply IH, Hget.
Qed.

Lemma get_lt (s : string) : forall n : nat,
  (n < String.length s)%nat -> exists c, String.get n s = Some c.
Proof.
  induction s as [|a s IH]; intros n; simpl.
  - lia.
  - destruct n as [|n]; [eauto|]. intros Hn. apply IH. lia.
Qed.

Lemma charset_at_elem_of (r : goidc.Reader) (i : nat) :
  goidc.charset_at (goidc.rand_Int r i (String.length goidc.ClientSecretCharset))
  ∈ list_ascii_of_string goidc.ClientSecretCharset.
Proof.
  unfold goidc.charset_at, goidc.rand_Int.
  destruct (get_lt goidc.ClientSecretCharset
              (r i mod String.length goidc.ClientSecretCharset)%nat) as [c Hc].
  - apply Nat.mod_upper_bound. discriminate.
  - rewrite Hc. exact (get_elem_of _ _ _ Hc).
Qed.

Lemma RandomString_loop_charset (r : goidc.Reader) (k : nat) : forall (i : nat) (c : ascii),
  c ∈ list_ascii_of_string (goidc.RandomString_loop r i k) ->
  c ∈ list_ascii_of_string goidc.ClientSecretCharset.
Proof.
  induction k as [|k IH]; intros i c; simpl.
  - intros Hc. inversion Hc.
  - intros Hc. inversion Hc; subst.
    + apply charset_at_elem_of.
    + eapply IH. eassumption.
Qed.

(** X3. [RandomString] returns, for a length that is not negative, a
    string of exactly that length made only of the 62 letters and digits
    of [ClientSecretCharset]; for a negative length it panics. *)
Theorem X3_RandomString_alphanumeric (r : goidc.Reader) (i : nat) (n : Z) :
  (0 <= n ->
   exists s, goidc.RandomString r i n = Ret s
             /\ len s = n
             /\ forall c, c ∈ list_ascii_of_string s ->
                          c ∈ list_ascii_of_string goidc.ClientSecretCharset)
  /\ (n < 0 -> exists msg, goidc.RandomString r i n = Panic msg).
Proof.
  unfold goidc.RandomString. split; intros Hn.
  - destruct (n <? 0) eqn:Hneg; [apply Z.ltb_lt in Hneg; lia|].
    eexists. split; [reflexivity|]. split.
    + unfold len. rewrite RandomString_loop_length. lia.
    + apply RandomString_loop_charset.
  - apply Z.ltb_lt in Hn. rewrite Hn. eauto.
Qed.

Lemma length_append (s1 s2 : string) :
  String.length (s1 ++ s2) = (String.length s1 + String.length s2)%nat.
Proof.
  induction s1 as [|c s1 IH]; [reflexivity|].
  change (S (String.length (s1 ++ s2)) = S (String.length s1 + String.length s2)).
  now rewrite IH.
Qed.

(** X4. [RequestURI] never fails: it returns the prefix
    'urn:ietf:params:oauth:request_uri:' followed by 20 characters of
    [ClientSecretCharset], 54 bytes in all. *)
Theorem X4_RequestURI_format (r : goidc.Reader) (i : nat) :
  exists s, goidc.RequestURI r i = Ret ("urn:ietf:params:oauth:request_uri:" ++ s)%string
            /\ len s = goidc.RequestURILength
            /\ len ("urn:ietf:params:oauth:request_uri:" ++ s)%string = 54
            /\ forall c, c ∈ list_ascii_of_string s ->
                         c ∈ list_ascii_of_string goidc.ClientSecretCharset.
Proof.
  exists (goidc.RandomString_loop r i (Z.to_nat goidc.RequestURILength)).
  split; [reflexivity|].
  assert (Hlen : len (goidc.RandomString_loop r i (Z.to_nat goidc.RequestURILength))
                 = goidc.RequestURILength).
  { unfold len. rewrite RandomString_loop_length. reflexivity. }
  split; [exact Hlen|]. split.
  - unfold len, goidc.RequestURILength in *. rewrite length_append. cbn [String.length]. lia.
  - apply RandomString_loop_charset.
Qed.





Lemma Split_not_nil (s : string) : Split s <> [].
Proof.
  destruct s as [|c s]; simpl; [discriminate|].
  destruct (Ascii.eqb c space); [discriminate|].
  destruct (Split s); discriminate.
Qed.

Lemma Split_no_space (s : string) : forall f,
  f ∈ Split s -> space ∉ list_ascii_of_string f.
Proof.
  induction s as [|c s IH]; simpl; intros f Hf.
  - apply list_elem_of_singleton in Hf. subst f. intros Hin. inversion Hin.
  - destruct (Ascii.eqb c space) eqn:Hc.
    + inversion Hf; subst; [intros Hin; inversion Hin | auto].
    + apply Ascii.eqb_neq in Hc.
      destruct (Split s) as [|w ws] eqn:Hs; [now apply Split_not_nil in Hs|].
      inversion Hf; subst.
      * simpl. intros Hin. inversion Hin; subst; [congruence|].
        revert H1. apply IH. left.
      * apply IH. now right.
Qed.


(* ===================================================================== *)
(** * Further properties: authorization parameters                        *)
(* ===================================================================== *)


Lemma nonEmptyOrDefault_assoc (a b c : string) :
  AuthorizationParameters.nonEmptyOrDefault (AuthorizationParameters.nonEmptyOrDefault a b) c
  = AuthorizationParameters.nonEmptyOrDefault a (AuthorizationParameters.nonEmptyOrDefault b c).
Proof.
  unfold AuthorizationParameters.nonEmptyOrDefault.
  destruct (String.eqb a "") eqn:Ha; [reflexivity|]. now rewrite Ha.
Qed.

Lemma nonNilOrDefault_assoc {A : Type} (a b c : option A) :
  AuthorizationParameters.nonNilOrDefault (AuthorizationParameters.nonNilOrDefault a b) c
  = AuthorizationParameters.nonNilOrDefault a (AuthorizationParameters.nonNilOrDefault b c).
Proof. now destruct a. Qed.

(** X7. [Merge] is associative: merging three sets of authorization
    parameters, the innermost taking priority, gives the same parameters
    whichever two are merged first. *)
Theorem X7_Merge_associative (a b c : AuthorizationParameters.t) :
  AuthorizationParameters.Merge (AuthorizationParameters.Merge a b) c
  = AuthorizationParameters.Merge a (AuthorizationParameters.Merge b c).
Proof.
  unfold AuthorizationParameters.Merge. cbn [
    AuthorizationParameters.RedirectURI AuthorizationParameters.ResponseMode
    AuthorizationParameters.ResponseType AuthorizationParameters.Scopes
    AuthorizationParameters.State AuthorizationParameters.Nonce
    AuthorizationParameters.CodeChallenge AuthorizationParameters.CodeChallengeMethod
    AuthorizationParameters.Prompt AuthorizationParameters.MaxAuthenticationAgeSecs
    AuthorizationParameters.Display AuthorizationParameters.ACRValues
    AuthorizationParameters.Claims AuthorizationParameters.AuthorizationDetails].
  rewrite !nonEmptyOrDefault_assoc, !nonNilOrDefault_assoc. reflexivity.
Qed.


(* ===================================================================== *)
(** * Further properties: the AuthnSession store                          *)
(* ===================================================================== *)

Lemma firstSession_Some (m : storage.AuthnSessionManager)
    (condition : goidc.AuthnSession -> bool) (s : goidc.AuthnSession) :
  storage.firstSession m condition = Some s ->
  (exists k, storage.Sessions m !! k = Some s) /\ condition s = true.
Proof.
  unfold storage.firstSession. intros Hfind.
  apply List.find_some in Hfind as [Hin Hc]. split; [|exact Hc].
  apply in_map_iff in Hin as ([k s'] & Heq & Hin). simpl in Heq. subst s'.
  exists k. apply elem_of_map_to_list, list_elem_of_In, Hin.
Qed.

Lemma firstSession_None (m : storage.AuthnSessionManager)
    (condition : goidc.AuthnSession -> bool) :
  storage.firstSession m condition = None
  <-> forall k s, storage.Sessions m !! k = Some s -> condition s = false.
Proof.
  unfold storage.firstSession. split.
  - intros Hfind k s Hks. eapply List.find_none; [exact Hfind|].
    apply in_map_iff. exists (k, s). split; [reflexivity|].
    apply list_elem_of_In, elem_of_map_to_list, Hks.
  - intros Hall.
    destruct (List.find condition (map snd (map_to_list (storage.Sessions m)))) as [s|] eqn:Hfind;
      [|reflexivity].
    destruct (firstSession_Some m condition s Hfind) as [[k Hks] Hc].
    rewrite (Hall k s Hks) in Hc. discriminate.
Qed.

(** X9. [SessionByCallbackID] is sound and complete over the store: a
    session it returns is stored and has the callback id asked for; it
    returns one whenever some stored session has that callback id; and
    when none has, it fails with "entity not found". *)
Theorem X9_SessionByCallbackID_sound_and_complete
    (m : storage.AuthnSessionManager) (callbackID : string) :
  (forall s, storage.SessionByCallbackID m callbackID = (Some s, None) ->
             (exists k, storage.Sessions m !! k = Some s) /\ goidc.CallbackID s = callbackID)
  /\ ((exists k s, storage.Sessions m !! k = Some s /\ goidc.CallbackID s = callbackID) ->
      exists s', storage.SessionByCallbackID m callbackID = (Some s', None))
  /\ ((forall k s, storage.Sessions m !! k = Some s -> goidc.CallbackID s <> callbackID) ->
      storage.SessionByCallbackID m callbackID = (None, errors_New "entity not found")).
Proof.
  unfold storage.SessionByCallbackID.
  destruct (storage.firstSession m (fun s => String.eqb (goidc.CallbackID s) callbackID))
    as [s0|] eqn:Hfind.
  - apply firstSession_Some in Hfind as [Hstored Hcb]. apply String.eqb_eq in Hcb.
    split; [|split].
    + intros s [= <-]. now split.
    + intros _. now exists s0.
    + intros Hnone. destruct Hstored as [k Hk]. now destruct (Hnone k s0 Hk).
  - pose proof (proj1 (firstSession_None m _) Hfind) as Hnone.
    split; [|split].
    + discriminate.
    + intros (k & s & Hks & Hcb). specialize (Hnone k s Hks). cbn beta in Hnone.
      apply String_eqb_false_iff in Hnone. contradiction.
    + reflexivity.
Qed.

(** X10. [SessionByAuthorizationCode] compares the stored code with the
    one asked for and nothing else: a session it returns is stored and
    carries that code, and asking for the empty code finds a session that
    was never given an authorization code. *)
Theorem X10_SessionByAuthorizationCode_matches_empty_code
    (m : storage.AuthnSessionManager) :
  (forall code s, storage.SessionByAuthorizationCode m code = (Some s, None) ->
                  (exists k, storage.Sessions m !! k = Some s)
                  /\ goidc.AuthorizationCode s = code)
  /\ ((exists k s, storage.Sessions m !! k = Some s /\ goidc.AuthorizationCode s = "") ->
      exists s', storage.SessionByAuthorizationCode m "" = (Some s', None)
                 /\ goidc.AuthorizationCode s' = "").
Proof.
  unfold storage.SessionByAuthorizationCode. split.
  - intros code s.
    destruct (storage.firstSession m (fun s => String.eqb (goidc.AuthorizationCode s) code))
      as [s0|] eqn:Hfind; [|discriminate].
    intros [= <-]. apply firstSession_Some in Hfind as [Hstored Hcode].
    apply String.eqb_eq in Hcode. now split.
  - intros (k & s & Hks & Hcode).
    destruct (storage.firstSession m (fun s => String.eqb (goidc.AuthorizationCode s) ""))
      as [s0|] eqn:Hfind.
    + exists s0. split; [reflexivity|].
      apply firstSession_Some in Hfind as [_ Hc]. now apply String.eqb_eq in Hc.
    + pose proof (proj1 (firstSession_None m _) Hfind k s Hks) as Hc. cbn beta in Hc.
      rewrite Hcode in Hc. discriminate.
Qed.

Lemma keyed_Save (m : storage.AuthnSessionManager) (session : goidc.AuthnSession) :
  storage.keyed m -> storage.keyed (fst (storage.Save m session)).
Proof.
  intros Hkeyed k s. simpl. intros Hks.
  apply lookup_insert_Some in Hks as [[<- <-]|[_ Hks]]; [reflexivity | now apply Hkeyed].
Qed.

Lemma keyed_Delete (m : storage.AuthnSessionManager) (id : string) :
  storage.keyed m -> storage.keyed (fst (storage.Delete m id)).
Proof.
  intros Hkeyed k s. simpl. intros Hks.
  apply lookup_delete_Some in Hks as [_ Hks]. now apply Hkeyed.
Qed.

Lemma keyed_singleton (s : goidc.AuthnSession) :
  storage.keyed {| storage.Sessions := {[ goidc.ID s := s ]} |}.
Proof.
  intros k s'. simpl. intros Hks.
  apply lookup_singleton_Some in Hks as [<- <-]. reflexivity.
Qed.

(** X11. The store keeps every session under its own id: [Save] and
    [Delete] preserve that, and in such a store a session that was deleted
    by id is no longer returned by the lookups by callback id and by
    authorization code. *)
Theorem X11_deleted_session_is_not_found
    (m : storage.AuthnSessionManager) (session : goidc.AuthnSession) (id : string) :
  storage.keyed m ->
  storage.keyed (fst (storage.Save m session))
  /\ storage.keyed (fst (storage.Delete m id))
  /\ (forall callbackID s,
        storage.SessionByCallbackID (fst (storage.Delete m id)) callbackID = (Some s, None) ->
        goidc.ID s <> id)
  /\ (forall code s,
        storage.SessionByAuthorizationCode (fst (storage.Delete m id)) code = (Some s, None) ->
        goidc.ID s <> id).
Proof.
  intros Hkeyed.
  assert (Hgone : forall k s, storage.Sessions (fst (storage.Delete m id)) !! k = Some s ->
                              goidc.ID s <> id).
  { intros k s. simpl. intros Hks. apply lookup_delete_Some in Hks as [Hne Hks].
    rewrite (Hkeyed k s Hks). congruence. }
  split; [now apply keyed_Save|]. split; [now apply keyed_Delete|]. split.
  - intros callbackID s. unfold storage.SessionByCallbackID.
    destruct (storage.firstSession _ _) as [s0|] eqn:Hfind; [|discriminate].
    intros [= <-]. apply firstSession_Some in Hfind as [[k Hk] _]. eapply Hgone, Hk.
  - intros code s. unfold storage.SessionByAuthorizationCode.
    destruct (storage.firstSession _ _) as [s0|] eqn:Hfind; [|discriminate].
    intros [= <-]. apply firstSession_Some in Hfind as [[k Hk] _]. eapply Hgone, Hk.
Qed.

(** The theorem at the store that holds the one session [s2]: after the
    deletion of [s2] nothing is found under its callback id. *)
Lemma X11_deleted_session_witness :
  storage.keyed (fst (storage.Delete
                        {| storage.Sessions := {[ "s2" := fixtures.code_session ]} |} "s2"))
  /\ storage.SessionByCallbackID
       (fst (storage.Delete {| storage.Sessions := {[ "s2" := fixtures.code_session ]} |} "s2"))
       "cb-s2"
     = (None, errors_New "entity not found").
Proof.
  pose proof (X11_deleted_session_is_not_found
                {| storage.Sessions := {[ "s2" := fixtures.code_session ]} |}
                fixtures.code_session "s2" (keyed_singleton fixtures.code_session))
    as (_ & Hkeyed & _).
  split; [exact Hkeyed|]. vm_compute. reflexivity.
Defined.

(** X12. A saved session is found again: when no other stored session
    has the same callback id, the lookup by the callback id of the session
    just saved returns that session, whether it was stored before or not. *)
Theorem X12_saved_session_is_found
    (m : storage.AuthnSessionManager) (session : goidc.AuthnSession) :
  (forall k s, storage.Sessions m !! k = Some s -> k <> goidc.ID session ->
               goidc.CallbackID s <> goidc.CallbackID session) ->
  storage.SessionByCallbackID (fst (storage.Save m session)) (goidc.CallbackID session)
  = (Some session, None).
Proof.
  intros Hunique. unfold storage.SessionByCallbackID.
  destruct (storage.firstSession _ _) as [s0|] eqn:Hfind.
  - apply firstSession_Some in Hfind as [[k Hk] Hcb]. apply String.eqb_eq in Hcb.
    simpl in Hk. apply lookup_insert_Some in Hk as [[_ <-]|[Hne Hk]]; [reflexivity|].
    destruct (Hunique k s0 Hk); congruence.
  - pose proof (proj1 (firstSession_None _ _) Hfind (goidc.ID session) session) as Hc.
    cbn beta in Hc. rewrite String.eqb_refl in Hc.
    discriminate Hc. simpl. apply lookup_insert_eq.
Qed.

(** The theorem at the empty store. *)
Lemma X12_saved_session_witness :
  storage.SessionByCallbackID
    (fst (storage.Save storage.NewAuthnSessionManager fixtures.code_session)) "cb-s2"
  = (Some fixtures.code_session, None).
Proof.
  apply (X12_saved_session_is_found storage.NewAuthnSessionManager fixtures.code_session).
  intros k s Hks. simpl in Hks. rewrite lookup_empty in Hks. discriminate.
Defined.

(* ===================================================================== *)
(** * Further properties: the authentication step of the flow            *)
(* ===================================================================== *)

Lemma GetPolicyById_not_found (policies : list authorize.AuthnPolicy) (policyId : string) :
  (forall p, p ∈ policies -> authorize.Id p <> policyId) ->
  authorize.GetPolicyById policies policyId = authorize.AuthnPolicy_zero.
Proof.
  induction policies as [|p rest IH]; simpl; intros Hnone; [reflexivity|].
  destruct (String.eqb (authorize.Id p) policyId) eqn:Hid.
  - apply String.eqb_eq in Hid. destruct (Hnone p); [left | exact Hid].
  - apply IH. intros q Hq. apply Hnone. now right.
Qed.

Lemma SessionByCallbackID_miss (m : storage.AuthnSessionManager) (callbackID : string) :
  (forall k s, storage.Sessions m !! k = Some s -> goidc.CallbackID s <> callbackID) ->
  storage.SessionByCallbackID m callbackID = (None, errors_New "entity not found").
Proof.
  intros Hnone. unfold storage.SessionByCallbackID.
  destruct (storage.firstSession _ _) as [s0|] eqn:Hfind; [|reflexivity].
  apply firstSession_Some in Hfind as [[k Hk] Hcb]. apply String.eqb_eq in Hcb.
  now destruct (Hnone k s0 Hk).
Qed.

Section FlowProperties.

Variable Policies : list authorize.AuthnPolicy.
Variable Client : Type.
Variable GetClient : string -> Client * error.
Variable redirectError :
  authorize.Context -> authorize.FlowError -> Client -> option authorize.FlowError.
Variable finishFlowSuccessfully :
  authorize.Context -> authorize.Session
  -> authorize.Context * authorize.Session * option authorize.FlowError.

(** X13. When the policy of the session answers anything but success or
    in-progress, [authenticate] deletes the session from the store and
    always returns an error: the one the policy left in the session, or
    else a redirect error 'access_denied'. *)
Theorem X13_authenticate_failure_deletes_the_session
    (ctx : authorize.Context) (session session1 : authorize.Session)
    (authnFunc : authorize.Context -> authorize.Session -> authorize.Session * string)
    (status : string) :
  authorize.AuthnFunc
    (authorize.GetPolicyById Policies (goidc.PolicyID (authorize.Data session)))
    = Some authnFunc ->
  authnFunc ctx session = (session1, status) ->
  status <> goidc.Success ->
  status <> goidc.InProgress ->
  exists ctx' err,
    authorize.authenticate Policies finishFlowSuccessfully ctx session
    = Ret (ctx', session1, Some err)
    /\ storage.Sessions (authorize.AuthnSessionManager ctx')
       = delete (goidc.ID (authorize.Data session1))
                (storage.Sessions (authorize.AuthnSessionManager ctx))
    /\ err = match authorize.Error session1 with
             | Some e => e
             | None => authorize.RedirectError
                         (goidc.NewOAuthErrorValue goidc.ErrorCodeAccessDenied "access denied")
                         (goidc.Params (authorize.Data session1))
             end.
Proof.
  intros Hpolicy Hrun Hsuccess Hprogress.
  apply String_eqb_false_iff in Hsuccess, Hprogress.
  unfold authorize.authenticate. rewrite Hpolicy, Hrun, Hsuccess, Hprogress.
  unfold authorize.finishFlowWithFailure. simpl.
  destruct (authorize.Error session1) as [e|]; do 2 eexists; repeat split.
Qed.

(** X14. When the policy answers in-progress, [authenticate] saves the
    session as the policy left it and returns no error; the session can
    then be found again by its callback id. *)
Theorem X14_authenticate_in_progress_saves_the_session
    (ctx : authorize.Context) (session session1 : authorize.Session)
    (authnFunc : authorize.Context -> authorize.Session -> authorize.Session * string) :
  authorize.AuthnFunc
    (authorize.GetPolicyById Policies (goidc.PolicyID (authorize.Data session)))
    = Some authnFunc ->
  authnFunc ctx session = (session1, goidc.InProgress) ->
  exists ctx',
    authorize.authenticate Policies finishFlowSuccessfully ctx session = Ret (ctx', session1, None)
    /\ storage.Sessions (authorize.AuthnSessionManager ctx')
       = <[goidc.ID (authorize.Data session1) := authorize.Data session1]>
           (storage.Sessions (authorize.AuthnSessionManager ctx))
    /\ exists found,
         storage.SessionByCallbackID (authorize.AuthnSessionManager ctx')
           (goidc.CallbackID (authorize.Data session1)) = (Some found, None)
         /\ goidc.CallbackID found = goidc.CallbackID (authorize.Data session1).
Proof.
  intros Hpolicy Hrun.
  unfold authorize.authenticate. rewrite Hpolicy, Hrun. simpl.
  eexists. split; [reflexivity|]. split; [reflexivity|].
  unfold storage.SessionByCallbackID.
  destruct (storage.firstSession _ _) as [s0|] eqn:Hfind.
  - exists s0. split; [reflexivity|].
    apply firstSession_Some in Hfind as [_ Hcb]. now apply String.eqb_eq in Hcb.
  - pose proof (proj1 (firstSession_None _ _) Hfind
                  (goidc.ID (authorize.Data session1)) (authorize.Data session1)) as Hc.
    cbn beta in Hc. rewrite String.eqb_refl in Hc.
    discriminate Hc. simpl. apply lookup_insert_eq.
Qed.

(** X15. [ContinueAuth] answers 'invalid_request' without running any
    policy and without touching the store when no stored session has the
    callback id ("entity not found") and when the session found has
    expired ("session timeout"); the expired session stays in the store. *)
Theorem X15_ContinueAuth_rejects_unknown_and_expired
    (ctx : authorize.Context) (callbackId : string) :
  ((forall k s, storage.Sessions (authorize.AuthnSessionManager ctx) !! k = Some s ->
                goidc.CallbackID s <> callbackId) ->
   authorize.ContinueAuth Policies Client GetClient redirectError finishFlowSuccessfully
     ctx callbackId
   = Ret (ctx, Some (authorize.JSONError
                       (goidc.NewOAuthErrorValue goidc.ErrorCodeInvalidRequest
                          "entity not found"))))
  /\ (forall s,
        storage.SessionByCallbackID (authorize.AuthnSessionManager ctx) callbackId
        = (Some s, None) ->
        goidc.ExpiresAtTimestamp s < authorize.Now ctx ->
        authorize.ContinueAuth Policies Client GetClient redirectError finishFlowSuccessfully
          ctx callbackId
        = Ret (ctx, Some (authorize.JSONError
                            (goidc.NewOAuthErrorValue goidc.ErrorCodeInvalidRequest
                               "session timeout")))).
Proof.
  unfold authorize.ContinueAuth. split.
  - intros Hnone.
    now rewrite (SessionByCallbackID_miss _ _ Hnone).
  - intros s Hfound Hexpired. rewrite Hfound.
    unfold goidc.IsExpired.
    destruct (authorize.Now ctx >? goidc.ExpiresAtTimestamp s) eqn:Hgt; [reflexivity|].
    rewrite Z.gtb_ltb in Hgt. apply Z.ltb_ge in Hgt. lia.
Qed.

(** X16. When the policy id of the session names no configured policy,
    [authenticate] calls the nil function of the zero policy and panics;
    so does [ContinueAuth] on a stored session that has not expired. *)
Theorem X16_unknown_policy_panics
    (ctx : authorize.Context) (session : authorize.Session) :
  (forall p, p ∈ Policies -> authorize.Id p <> goidc.PolicyID (authorize.Data session)) ->
  (exists msg,
     authorize.authenticate Policies finishFlowSuccessfully ctx session = Panic msg)
  /\ (forall callbackId,
        storage.SessionByCallbackID (authorize.AuthnSessionManager ctx) callbackId
        = (Some (authorize.Data session), None) ->
        authorize.Now ctx <= goidc.ExpiresAtTimestamp (authorize.Data session) ->
        exists msg,
          authorize.ContinueAuth Policies Client GetClient redirectError
            finishFlowSuccessfully ctx callbackId = Panic msg).
Proof.
  intros Hnone.
  assert (Hauth : forall e,
            authorize.authenticate Policies finishFlowSuccessfully ctx
              {| authorize.Data := authorize.Data session; authorize.Error := e |}
            = Panic "invalid memory address or nil pointer dereference").
  { intros e. unfold authorize.authenticate. cbn [authorize.Data].
    now rewrite (GetPolicyById_not_found _ _ Hnone). }
  split.
  - eexists. destruct session as [data e]. apply Hauth.
  - intros callbackId Hfound Hfresh. unfold authorize.ContinueAuth.
    rewrite Hfound. unfold goidc.IsExpired.
    destruct (authorize.Now ctx >? goidc.ExpiresAtTimestamp (authorize.Data session)) eqn:Hgt.
    { rewrite Z.gtb_ltb in Hgt. apply Z.ltb_lt in Hgt. lia. }
    rewrite Hauth. simpl. eauto.
Qed.

End FlowProperties.

(** The theorem at the policy [deny]: the session [s3] is deleted and the
    flow ends with 'access_denied'. *)
Lemma X13_authenticate_failure_witness :
  exists ctx' err,
    authorize.authenticate fixtures.policies fixtures.no_success
      (fixtures.authorize_ctx (fixtures.session_of_policy "s3" "deny"))
      (fixtures.flow_session "s3" "deny")
    = Ret (ctx', fixtures.flow_session "s3" "deny", Some err)
    /\ storage.Sessions (authorize.AuthnSessionManager ctx')
       = delete "s3" {[ "s3" := fixtures.session_of_policy "s3" "deny" ]}
    /\ err = authorize.RedirectError
               (goidc.NewOAuthErrorValue goidc.ErrorCodeAccessDenied "access denied")
               (goidc.Params (fixtures.session_of_policy "s3" "deny")).
Proof.
  apply (X13_authenticate_failure_deletes_the_session fixtures.policies fixtures.no_success
           (fixtures.authorize_ctx (fixtures.session_of_policy "s3" "deny"))
           (fixtures.flow_session "s3" "deny") (fixtures.flow_session "s3" "deny")
           (fun _ s => (s, goidc.Failure)) goidc.Failure);
    [reflexivity | reflexivity | discriminate | discriminate].
Defined.

(** The theorem at the policy [policy]: the session [s4] is saved. *)
Lemma X14_authenticate_in_progress_witness :
  exists ctx',
    authorize.authenticate fixtures.policies fixtures.no_success
      (fixtures.authorize_ctx (fixtures.session_of_policy "s0" "policy"))
      (fixtures.flow_session "s4" "policy")
    = Ret (ctx', fixtures.flow_session "s4" "policy", None)
    /\ storage.Sessions (authorize.AuthnSessionManager ctx')
       = <["s4" := fixtures.session_of_policy "s4" "policy"]>
           {[ "s0" := fixtures.session_of_policy "s0" "policy" ]}
    /\ exists found,
         storage.SessionByCallbackID (authorize.AuthnSessionManager ctx') "cb-s4"
         = (Some found, None)
         /\ goidc.CallbackID found = "cb-s4".
Proof.
  apply (X14_authenticate_in_progress_saves_the_session fixtures.policies fixtures.no_success
           (fixtures.authorize_ctx (fixtures.session_of_policy "s0" "policy"))
           (fixtures.flow_session "s4" "policy") (fixtures.flow_session "s4" "policy")
           (fun _ s => (s, goidc.InProgress)));
    reflexivity.
Defined.

(** The theorem at a session whose policy, [gone], is not configured. *)
Lemma X16_unknown_policy_witness :
  exists msg,
    authorize.ContinueAuth fixtures.policies string fixtures.get_client
      fixtures.redirect_as_is fixtures.no_success
      (fixtures.authorize_ctx (fixtures.session_of_policy "s5" "gone")) "cb-s5"
    = Panic msg.
Proof.
  refine (proj2 (X16_unknown_policy_panics fixtures.policies string fixtures.get_client
                   fixtures.redirect_as_is fixtures.no_success
                   (fixtures.authorize_ctx (fixtures.session_of_policy "s5" "gone"))
                   (fixtures.flow_session "s5" "gone") _) "cb-s5" _ _).
  - intros p Hp. repeat (apply elem_of_cons in Hp as [->|Hp]; [discriminate|]).
    inversion Hp.
  - vm_compute. reflexivity.
  - vm_compute. discriminate.
Defined.

(* ===================================================================== *)
(** * Further properties: the validators of keys and algorithms           *)
(* ===================================================================== *)

(** X17. [runValidations] stops at the first failure: it passes exactly
    when every validator passes, and an error it returns is the error of
    a validator before which every validator passed. *)
Theorem X17_runValidations_first_error {P : Type} (p : P) (validators : list (P -> error)) :
  (provider.runValidations p validators = None <-> forall v, v ∈ validators -> v p = None)
  /\ (forall err, provider.runValidations p validators = Some err ->
        exists before v after,
          validators = (before ++ v :: after)%list
          /\ v p = Some err
          /\ forall u, u ∈ before -> u p = None).
Proof.
  split.
  - induction validators as [|v rest IH]; simpl.
    + split; [intros _ u Hu; inversion Hu | reflexivity].
    + destruct (v p) as [e|] eqn:Hv.
      * split; [discriminate|]. intros Hall. rewrite Hall in Hv; [discriminate | left].
      * rewrite IH. split.
        -- intros Hrest u Hu. inversion Hu; subst; auto.
        -- intros Hall u Hu. apply Hall. now right.
  - induction validators as [|v rest IH]; simpl; intros err; [discriminate|].
    destruct (v p) as [e|] eqn:Hv.
    + intros [= <-]. exists [], v, rest. repeat split; [exact Hv|].
      intros u Hu. inversion Hu.
    + intros Hrest. destruct (IH err Hrest) as (before & w & after & -> & Hw & Hbefore).
      exists (v :: before), w, after. repeat split; [exact Hw|].
      intros u Hu. inversion Hu; subst; auto.
Qed.

Lemma signatureKeysLoop_None (jwks : list provider.JSONWebKey) (keyIDs : list string) :
  provider.signatureKeysLoop jwks keyIDs = None
  <-> forall keyID, keyID ∈ keyIDs ->
        exists key, provider.Key jwks keyID = [key]
                    /\ provider.Use key = provider.KeyUsageSignature
                    /\ HasPrefix (provider.Algorithm key) "HS" = false.
Proof.
  induction keyIDs as [|keyID rest IH]; simpl.
  - split; [intros _ k Hk; inversion Hk | reflexivity].
  - split.
    + intros Hloop k Hk.
      destruct (provider.Key jwks keyID) as [|key [|]] eqn:Hkey; try discriminate.
      destruct (String.eqb (provider.Use key) provider.KeyUsageSignature) eqn:Huse;
        [|discriminate].
      destruct (HasPrefix (provider.Algorithm key) "HS") eqn:Halg; [discriminate|].
      simpl in Hloop. inversion Hk; subst.
      * exists key. rewrite Hkey. apply String.eqb_eq in Huse. auto.
      * now apply IH.
    + intros Hall.
      destruct (Hall keyID) as (key & -> & Huse & ->); [left|].
      apply String.eqb_eq in Huse. rewrite Huse. simpl.
      apply IH. intros k Hk. apply Hall. now right.
Qed.

(** X18. [validateSignatureKeys] passes exactly when each of the default
    user key id, the user signing key ids and the JARM signing key ids
    names exactly one key of the server key set, and that key is meant for
    signing and its algorithm does not start with 'HS'. *)
Theorem X18_validateSignatureKeys_passes_exactly (p : provider.configured) :
  provider.validateSignatureKeys p = None
  <-> forall keyID,
        keyID = provider.UserDefaultSigKeyID (provider.keys p)
        \/ keyID ∈ provider.UserSigKeyIDs (provider.keys p)
        \/ keyID ∈ provider.JARMSigKeyIDs (provider.keys p) ->
        exists key,
          provider.Key (provider.PrivateJWKS (provider.keys p)) keyID = [key]
          /\ provider.KeyID key = keyID
          /\ provider.Use key = provider.KeyUsageSignature
          /\ HasPrefix (provider.Algorithm key) "HS" = false.
Proof.
  unfold provider.validateSignatureKeys. rewrite signatureKeysLoop_None. split.
  - intros Hall keyID Hin.
    destruct (Hall keyID) as (key & Hkey & Huse & Halg).
    { destruct Hin as [->|[Hin|Hin]].
      - left.
      - right. apply elem_of_app. now left.
      - right. apply elem_of_app. now right. }
    exists key. repeat split; try assumption.
    assert (Hin' : In key (provider.Key (provider.PrivateJWKS (provider.keys p)) keyID)).
    { rewrite Hkey. now left. }
    apply filter_In in Hin' as [_ Hid]. now apply String.eqb_eq in Hid.
  - intros Hall keyID Hin.
    destruct (Hall keyID) as (key & Hkey & _ & Huse & Halg).
    { simpl in Hin. apply elem_of_cons in Hin as [->|Hin]; [now left|].
      apply elem_of_app in Hin as [Hin|Hin]; auto. }
    now exists key.
Qed.

(** X19. A configuration that passes [validateSignatureKeys] cannot make
    [validateOpenIDProfile] panic as long as JARM is disabled or its
    default key is among the JARM signing keys; with JARM enabled and a
    default JARM key id that the key set lacks, the first validator passes
    and the second one panics. *)
Theorem X19_validateOpenIDProfile_after_validateSignatureKeys (p : provider.configured) :
  (provider.validateSignatureKeys p = None ->
   provider.JARMIsEnabled (provider.keys p) = false
   \/ provider.JARMDefaultSigKeyID (provider.keys p)
      ∈ provider.JARMSigKeyIDs (provider.keys p) ->
   exists result, provider.validateOpenIDProfile p = Ret result)
  /\ provider.validateSignatureKeys (fixtures.with_jarm true "k2") = None
  /\ provider.validateOpenIDProfile (fixtures.with_jarm true "k2")
     = Panic "index out of range [0] with length 0".
Proof.
  split; [|split; reflexivity].
  unfold provider.validateSignatureKeys, provider.validateOpenIDProfile.
  intros Hkeys Hjarm.
  pose proof (proj1 (signatureKeysLoop_None _ _) Hkeys) as Hall.
  destruct (negb (String.eqb (provider.Profile (provider.settings p)) goidc.ProfileOpenID));
    [eauto|].
  destruct (Hall (provider.UserDefaultSigKeyID (provider.keys p))) as (key & -> & _);
    [left|].
  destruct (negb (String.eqb (provider.Algorithm key) provider.RS256)); [eauto|].
  destruct (provider.JARMIsEnabled (provider.keys p)) eqn:Henabled; [|eauto].
  destruct Hjarm as [Hjarm|Hjarm]; [discriminate|].
  destruct (Hall (provider.JARMDefaultSigKeyID (provider.keys p))) as (jarmKey & -> & _).
  { right. apply elem_of_app. now right. }
  destruct (negb (String.eqb (provider.Algorithm jarmKey) provider.RS256)); eauto.
Qed.

Lemma privateKeyJWTLoop_None (algs : list string) :
  provider.privateKeyJWTLoop algs = None <-> forall a, a ∈ algs -> HasPrefix a "HS" = false.
Proof.
  induction algs as [|a rest IH]; simpl.
  - split; [intros _ b Hb; inversion Hb | reflexivity].
  - destruct (HasPrefix a "HS") eqn:Ha.
    + split; [discriminate|]. intros Hall. rewrite Hall in Ha; [discriminate | left].
    + rewrite IH. split.
      * intros Hrest b Hb. inversion Hb; subst; auto.
      * intros Hall b Hb. apply Hall. now right.
Qed.

Lemma clientSecretJWTLoop_None (algs : list string) :
  provider.clientSecretJWTLoop algs = None <-> forall a, a ∈ algs -> HasPrefix a "HS" = true.
Proof.
  induction algs as [|a rest IH]; simpl.
  - split; [intros _ b Hb; inversion Hb | reflexivity].
  - destruct (HasPrefix a "HS") eqn:Ha; simpl.
    + rewrite IH. split.
      * intros Hrest b Hb. inversion Hb; subst; auto.
      * intros Hall b Hb. apply Hall. now right.
    + split; [discriminate|]. intros Hall. rewrite Hall in Ha; [discriminate | left].
Qed.

(** X20. The two validators of client-assertion algorithms split the
    algorithms by the prefix 'HS': private_key_jwt passes exactly when no
    configured algorithm starts with 'HS', client_secret_jwt exactly when
    every configured one does; so a list of algorithms that is accepted for
    both methods is empty. *)
Theorem X20_assertion_algorithms_split_by_HS (p : provider.configured) :
  (provider.validatePrivateKeyJWTSignatureAlgorithms p = None
   <-> forall a, a ∈ provider.PrivateKeyJWTSigAlgs (provider.keys p) ->
                 HasPrefix a "HS" = false)
  /\ (provider.validateClientSecretJWTSignatureAlgorithms p = None
      <-> forall a, a ∈ provider.ClientSecretJWTSigAlgs (provider.keys p) ->
                    HasPrefix a "HS" = true)
  /\ (provider.validatePrivateKeyJWTSignatureAlgorithms p = None ->
      provider.validateClientSecretJWTSignatureAlgorithms p = None ->
      provider.PrivateKeyJWTSigAlgs (provider.keys p)
        = provider.ClientSecretJWTSigAlgs (provider.keys p) ->
      provider.PrivateKeyJWTSigAlgs (provider.keys p) = []).
Proof.
  unfold provider.validatePrivateKeyJWTSignatureAlgorithms,
         provider.validateClientSecretJWTSignatureAlgorithms.
  split; [apply privateKeyJWTLoop_None|]. split; [apply clientSecretJWTLoop_None|].
  rewrite privateKeyJWTLoop_None, clientSecretJWTLoop_None.
  intros Hasym Hsym Heq. rewrite <- Heq in Hsym.
  destruct (provider.PrivateKeyJWTSigAlgs (provider.keys p)) as [|a rest]; [reflexivity|].
  assert (Ha : a ∈ a :: rest) by left.
  specialize (Hsym a Ha). rewrite (Hasym a Ha) in Hsym. discriminate.
Qed.

(** The theorem at the configuration of [fixtures] with JARM disabled. *)
Lemma X19_validateOpenIDProfile_witness :
  provider.validateOpenIDProfile (fixtures.with_jarm false "") = Ret None.
Proof.
  destruct (proj1 (X19_validateOpenIDProfile_after_validateSignatureKeys
                     (fixtures.with_jarm false "")) eq_refl (or_introl eq_refl))
    as [result Hresult].
  rewrite Hresult. vm_compute in Hresult. now injection Hresult as <-.
Defined.

(* ===================================================================== *)
(** * Further properties: dynamic client registration                     *)
(* ===================================================================== *)

Lemma responseTypesLoop_None (allowed responseTypes : list string) :
  dcr.responseTypesLoop allowed responseTypes = None
  <-> forall rt, rt ∈ responseTypes -> rt ∈ allowed.
Proof.
  induction responseTypes as [|rt rest IH]; simpl.
  - split; [intros _ x Hx; inversion Hx | reflexivity].
  - destruct (Contains allowed rt) eqn:Hrt; simpl.
    + apply Contains_true_iff in Hrt. rewrite IH. split.
      * intros Hrest x Hx. inversion Hx; subst; auto.
      * intros Hall x Hx. apply Hall. now right.
    + apply Contains_false_iff in Hrt. split; [discriminate|].
      intros Hall. exfalso. apply Hrt, Hall. left.
Qed.

Lemma containsImplicitResponseType_true (responseTypes : list string) : forall flag : bool,
  dcr.containsImplicitResponseType flag responseTypes = true
  <-> flag = true \/ exists rt, rt ∈ responseTypes /\ goidc.ResponseType_IsImplicit rt = true.
Proof.
  induction responseTypes as [|rt rest IH]; intros flag; simpl.
  - split; [now left | intros [H|(x & Hx & _)]; [exact H | inversion Hx]].
  - rewrite IH. split.
    + intros [Hflag|(x & Hx & Himp)].
      * destruct (goidc.ResponseType_IsImplicit rt) eqn:Hrt.
        -- right. exists rt. split; [left | exact Hrt].
        -- now left.
      * right. exists x. split; [now right | exact Himp].
    + intros [->|(x & Hx & Himp)].
      * left. now destruct (goidc.ResponseType_IsImplicit rt).
      * inversion Hx; subst.
        -- left. now rewrite Himp.
        -- right. now exists x.
Qed.

Lemma dcr_runValidations_None (ctx : dcr.Config.t) (dc : dcr.Registration.t)
    (validations : list (dcr.Config.t -> dcr.Registration.t -> goidc.OAuthError)) :
  dcr.runValidations ctx dc validations = None
  <-> forall validation, validation ∈ validations -> validation ctx dc = None.
Proof.
  induction validations as [|v rest IH]; simpl.
  - split; [intros _ x Hx; inversion Hx | reflexivity].
  - destruct (v ctx dc) as [err|] eqn:Hv.
    + split; [discriminate|]. intros Hall.
      rewrite <- Hv. apply Hall. left.
    + rewrite IH. split.
      * intros Hrest x Hx. inversion Hx; subst; auto.
      * intros Hall x Hx. apply Hall. now right.
Qed.

(** X21. In src/unnamed/part_004, [validateResponseTypes] accepts a
    registration exactly when all its response types are allowed by the
    server and the server has the implicit grant; a server without the
    implicit grant rejects every registration, whatever response types it
    asks for, and so does every chain of validations that [runValidations]
    runs with [validateResponseTypes] in it, as [validateDynamicRequest]
    does.  The two validators of src/unnamed/part_003 together accept
    exactly when the response types are allowed and, if one of them is
    implicit, the server has the implicit grant. *)
Theorem X21_validateResponseTypes_needs_the_implicit_grant
    (ctx : dcr.Config.t) (dc : dcr.Registration.t) :
  (dcr.validateResponseTypes ctx dc = None
   <-> (forall rt, rt ∈ dcr.Registration.ResponseTypes dc -> rt ∈ dcr.Config.ResponseTypes ctx)
       /\ goidc.GrantImplicit ∈ dcr.Config.GrantTypes ctx)
  /\ (goidc.GrantImplicit ∉ dcr.Config.GrantTypes ctx ->
      exists err, dcr.validateResponseTypes ctx dc = Some err
                  /\ goidc.ErrorCodeOf err = goidc.ErrorCodeInvalidClientMetadata)
  /\ (goidc.GrantImplicit ∉ dcr.Config.GrantTypes ctx ->
      forall validations,
        dcr.validateResponseTypes ∈ validations ->
        dcr.runValidations ctx dc validations <> None)
  /\ (dcr.validateResponseTypes_part_003 ctx dc = None
      /\ dcr.validateCannotRequestImplicitResponseTypeWithoutImplicitGrant ctx dc = None
      <-> (forall rt, rt ∈ dcr.Registration.ResponseTypes dc ->
                      rt ∈ dcr.Config.ResponseTypes ctx)
          /\ ((exists rt, rt ∈ dcr.Registration.ResponseTypes dc
                          /\ goidc.ResponseType_IsImplicit rt = true) ->
              goidc.GrantImplicit ∈ dcr.Config.GrantTypes ctx)).
Proof.
  assert (Hpass : dcr.validateResponseTypes ctx dc = None
                  <-> (forall rt, rt ∈ dcr.Registration.ResponseTypes dc ->
                                  rt ∈ dcr.Config.ResponseTypes ctx)
                      /\ goidc.GrantImplicit ∈ dcr.Config.GrantTypes ctx).
  { unfold dcr.validateResponseTypes.
    destruct (dcr.responseTypesLoop _ _) as [err|] eqn:Hloop.
    + split; [discriminate|]. intros [Hall _].
      apply responseTypesLoop_None in Hall. congruence.
    + pose proof (proj1 (responseTypesLoop_None _ _) Hloop) as Hsub.
      destruct (Contains (dcr.Config.GrantTypes ctx) goidc.GrantImplicit) eqn:Himp; simpl.
      * apply Contains_true_iff in Himp. tauto.
      * apply Contains_false_iff in Himp.
        destruct (dcr.implicitLoop _); (split; [discriminate | tauto]). }
  split; [exact Hpass|]. split; [|split].
  - intros Himp. apply Contains_false_iff in Himp. unfold dcr.validateResponseTypes.
    destruct (dcr.responseTypesLoop _ _) as [err|] eqn:Hloop.
    + exists err. split; [reflexivity|].
      clear -Hloop. induction (dcr.Registration.ResponseTypes dc) as [|rt rest IH];
        simpl in Hloop; [discriminate|].
      destruct (negb (Contains (dcr.Config.ResponseTypes ctx) rt)); [|auto].
      now injection Hloop as <-.
    + rewrite Himp. simpl.
      destruct (dcr.implicitLoop _) as [err|] eqn:Hloop2; [|eauto].
      exists err. split; [reflexivity|].
      clear -Hloop2. induction (dcr.Registration.ResponseTypes dc) as [|rt rest IH];
        simpl in Hloop2; [discriminate|].
      destruct (goidc.ResponseType_IsImplicit rt); [|auto].
      now injection Hloop2 as <-.
  - intros Himp validations Hin Hnone.
    apply Himp, Hpass.
    exact (proj1 (dcr_runValidations_None ctx dc validations) Hnone _ Hin).
  - unfold dcr.validateResponseTypes_part_003,
           dcr.validateCannotRequestImplicitResponseTypeWithoutImplicitGrant.
    destruct (goidc.ContainsAll _ _) eqn:Hall; simpl.
    + pose proof (proj1 (ContainsAll_true_iff _ _) Hall) as Hsub. clear Hall.
      rename Hsub into Hall.
      destruct (dcr.containsImplicitResponseType false _) eqn:Hflag; simpl.
      * apply containsImplicitResponseType_true in Hflag as [Hflag|Hflag]; [discriminate|].
        destruct (Contains (dcr.Config.GrantTypes ctx) goidc.GrantImplicit) eqn:Himp; simpl.
        -- apply Contains_true_iff in Himp. tauto.
        -- apply Contains_false_iff in Himp. split; [intros [_ ?]; discriminate|].
           intros [_ Hneed]. exfalso. apply Himp, Hneed, Hflag.
      * split; [|tauto]. intros _. split; [exact Hall|].
        intros Hsome. exfalso.
        assert (Htrue : dcr.containsImplicitResponseType false
                          (dcr.Registration.ResponseTypes dc) = true).
        { apply containsImplicitResponseType_true. now right. }
        congruence.
    + split; [intros [? _]; discriminate|]. intros [Hsub _].
      apply ContainsAll_true_iff in Hsub. congruence.
Qed.

Lemma detailTypesLoop_None (types requested : list string) :
  dcr.detailTypesLoop types requested = None <-> forall dt, dt ∈ requested -> dt ∈ types.
Proof.
  induction requested as [|dt rest IH]; simpl.
  - split; [intros _ x Hx; inversion Hx | reflexivity].
  - destruct (Contains types dt) eqn:Hdt; simpl.
    + apply Contains_true_iff in Hdt. rewrite IH. split.
      * intros Hrest x Hx. inversion Hx; subst; auto.
      * intros Hall x Hx. apply Hall. now right.
    + apply Contains_false_iff in Hdt. split; [discriminate|].
      intros Hall. exfalso. apply Hdt, Hall. left.
Qed.

Lemma ContainsAll_false_iff {A} `{EqDecision A} (superSet subSet : list A) :
  goidc.ContainsAll superSet subSet = false <-> exists e, e ∈ subSet /\ e ∉ superSet.
Proof.
  induction subSet as [|x rest IH]; simpl.
  - split; [discriminate | intros (e & He & _); inversion He].
  - destruct (Contains superSet x) eqn:Hx; simpl.
    + apply Contains_true_iff in Hx. rewrite IH. split.
      * intros (e & He & Hne). exists e. split; [now right | exact Hne].
      * intros (e & He & Hne). inversion He; subst; [contradiction|]. now exists e.
    + apply Contains_false_iff in Hx. split; [|reflexivity].
      intros _. exists x. split; [left | exact Hx].
Qed.

(** X22. With authorization details enabled and detail types given in the
    registration, the validator of src/unnamed/part_004 accepts exactly
    when every requested type is supported, whereas the one of
    src/unnamed/part_003 accepts exactly when some requested type is not
    supported: it rejects the registrations whose types are all supported,
    the one without any type included. *)
Theorem X22_validateAuthorizationDetailTypes_part_003_is_inverted
    (ctx : dcr.Config.t) (dc : dcr.Registration.t) (requested : list string) :
  dcr.Config.AuthorizationDetailsIsEnabled ctx = true ->
  dcr.Registration.AuthorizationDetailTypes dc = Some requested ->
  (dcr.validateAuthorizationDetailTypes ctx dc = None
   <-> forall dt, dt ∈ requested -> dt ∈ dcr.Config.AuthorizationDetailTypes ctx)
  /\ (dcr.validateAuthorizationDetailTypes_part_003 ctx dc = None
      <-> exists dt, dt ∈ requested /\ dt ∉ dcr.Config.AuthorizationDetailTypes ctx)
  /\ (requested = [] -> dcr.validateAuthorizationDetailTypes_part_003 ctx dc <> None).
Proof.
  intros Henabled Hrequested.
  unfold dcr.validateAuthorizationDetailTypes, dcr.validateAuthorizationDetailTypes_part_003.
  rewrite Hrequested, Henabled. simpl. split; [apply detailTypesLoop_None|].
  destruct (goidc.ContainsAll _ _) eqn:Hall.
  - split.
    + split; [discriminate|]. intros Hsome.
      apply ContainsAll_false_iff in Hsome. congruence.
    + discriminate.
  - apply ContainsAll_false_iff in Hall. split; [tauto|].
    intros ->. destruct Hall as (dt & Hdt & _). inversion Hdt.
Qed.

(** The theorem at a registration that asks for the one supported type:
    part_004 accepts it, part_003 rejects it. *)
Lemma X22_validateAuthorizationDetailTypes_witness :
  dcr.validateAuthorizationDetailTypes fixtures.dcr_config
    (fixtures.registration "openid" (Some ["payment_initiation"])) = None
  /\ dcr.validateAuthorizationDetailTypes_part_003 fixtures.dcr_config
       (fixtures.registration "openid" (Some ["payment_initiation"])) <> None.
Proof.
  pose proof (X22_validateAuthorizationDetailTypes_part_003_is_inverted
                fixtures.dcr_config
                (fixtures.registration "openid" (Some ["payment_initiation"]))
                ["payment_initiation"] eq_refl eq_refl) as (H4 & H3 & _).
  split.
  - apply H4. intros dt Hdt. exact Hdt.
  - intros Hnone. apply H3 in Hnone as (dt & Hdt & Hne). contradiction.
Defined.

(** X23. For the method tls_client_auth, the registration is accepted
    exactly when one and only one of the subject distinguished name, the
    DNS alternative name and the IP alternative name is given; for any
    other method the three fields are not looked at. *)
Theorem X23_tls_subject_needs_exactly_one_identifier
    (ctx : dcr.Config.t) (dc : dcr.Registration.t) :
  let dn := dcr.Registration.TLSSubjectDistinguishedName dc in
  let san := dcr.Registration.TLSSubjectAlternativeName dc in
  let ip := dcr.Registration.TLSSubjectAlternativeNameIp dc in
  (dcr.Registration.AuthnMethod dc = goidc.ClientAuthnTLS ->
   (dcr.validateTLSSubjectInfoWhenTLSAuthn ctx dc = None
    <-> (dn <> "" /\ san = "" /\ ip = "")
        \/ (dn = "" /\ san <> "" /\ ip = "")
        \/ (dn = "" /\ san = "" /\ ip <> "")))
  /\ (dcr.Registration.AuthnMethod dc <> goidc.ClientAuthnTLS ->
      dcr.validateTLSSubjectInfoWhenTLSAuthn ctx dc = None).
Proof.
  cbn zeta. unfold dcr.validateTLSSubjectInfoWhenTLSAuthn. split.
  - intros ->. rewrite String.eqb_refl. cbn [negb].
    destruct (String.eqb (dcr.Registration.TLSSubjectDistinguishedName dc) "") eqn:Hdn;
      destruct (String.eqb (dcr.Registration.TLSSubjectAlternativeName dc) "") eqn:Hsan;
      destruct (String.eqb (dcr.Registration.TLSSubjectAlternativeNameIp dc) "") eqn:Hip;
      rewrite ?String.eqb_eq in *; rewrite ?String_eqb_false_iff in *;
      vm_compute; split; try discriminate; try tauto; intros _; tauto.
  - intros Hne. apply String_eqb_false_iff in Hne. now rewrite Hne.
Qed.

Lemma scopeMatches_true (scopes : list goidc.Scope.t) (requestedScope : string) :
  dcr.scopeMatches scopes requestedScope = true
  <-> exists scope, scope ∈ scopes /\ goidc.Scope.ID scope = requestedScope.
Proof.
  induction scopes as [|scope rest IH]; simpl.
  - split; [discriminate | intros (x & Hx & _); inversion Hx].
  - destruct (String.eqb requestedScope (goidc.Scope.ID scope)) eqn:Hid.
    + apply String.eqb_eq in Hid. split; [|reflexivity].
      intros _. exists scope. split; [left | now symmetry].
    + apply String_eqb_false_iff in Hid. rewrite IH. split.
      * intros (x & Hx & Heq). exists x. split; [now right | exact Heq].
      * intros (x & Hx & Heq). inversion Hx; subst; [congruence|]. now exists x.
Qed.

Lemma scopesLoop_None (scopes : list goidc.Scope.t) (requested : list string) :
  dcr.scopesLoop scopes requested = None
  <-> forall requestedScope, requestedScope ∈ requested ->
        exists scope, scope ∈ scopes /\ goidc.Scope.ID scope = requestedScope.
Proof.
  induction requested as [|r rest IH]; simpl.
  - split; [intros _ x Hx; inversion Hx | reflexivity].
  - destruct (dcr.scopeMatches scopes r) eqn:Hr; simpl.
    + apply scopeMatches_true in Hr. rewrite IH. split.
      * intros Hrest x Hx. inversion Hx; subst; auto.
      * intros Hall x Hx. apply Hall. now right.
    + split; [discriminate|]. intros Hall.
      assert (Htrue : dcr.scopeMatches scopes r = true).
      { apply scopeMatches_true, Hall. left. }
      congruence.
Qed.

(** X24. [validateScopes] accepts a registration exactly when each
    requested scope is, letter for letter, the id of a configured scope;
    the matching function of a scope is not consulted, so a requested
    scope that a dynamic scope matches ('payment:30' for the dynamic scope
    'payment') is rejected, and a blank scope string is accepted. *)
Theorem X24_validateScopes_compares_ids_only (ctx : dcr.Config.t) (dc : dcr.Registration.t) :
  (dcr.validateScopes ctx dc = None
   <-> forall requestedScope,
         requestedScope ∈ goidc.SplitStringWithSpaces (dcr.Registration.Scopes dc) ->
         exists scope, scope ∈ dcr.Config.Scopes ctx /\ goidc.Scope.ID scope = requestedScope)
  /\ (goidc.SplitStringWithSpaces (dcr.Registration.Scopes dc) = [] ->
      dcr.validateScopes ctx dc = None)
  /\ (exists scope, scope ∈ dcr.Config.Scopes fixtures.dcr_config
                    /\ goidc.Scope.Matches scope "payment:30" = true)
  /\ dcr.validateScopes fixtures.dcr_config (fixtures.registration "openid payment:30" None)
     = goidc.NewOAuthError goidc.ErrorCodeInvalidClientMetadata "scope payment:30 is not valid".
Proof.
  unfold dcr.validateScopes. split; [apply scopesLoop_None|]. split; [|split].
  - intros ->. reflexivity.
  - eexists. split; [right; left | reflexivity].
  - reflexivity.
Qed.

(* ===================================================================== *)
(** * Further properties: client authentication                           *)
(* ===================================================================== *)

Lemma all_true_iff {T : Type} (slice : list T) (condition : T -> bool) :
  clientutil.all slice condition = true <-> forall x, x ∈ slice -> condition x = true.
Proof.
  induction slice as [|a rest IH]; simpl.
  - split; [intros _ x Hx; inversion Hx | reflexivity].
  - destruct (condition a) eqn:Ha; simpl.
    + rewrite IH. split.
      * intros Hrest x Hx. inversion Hx; subst; auto.
      * intros Hall x Hx. apply Hall. now right.
    + split; [discriminate|]. intros Hall. rewrite Hall in Ha; [discriminate | left].
Qed.

Lemma allEquals_cons (first : string) (rest : list string) :
  clientutil.allEquals (first :: rest) = true <-> forall x, x ∈ rest -> x = first.
Proof.
  unfold clientutil.allEquals. rewrite all_true_iff. split.
  - intros Hall x Hx. specialize (Hall x). rewrite bool_decide_eq_true in Hall.
    apply Hall. now right.
  - intros Hall x Hx. apply bool_decide_eq_true.
    inversion Hx; subst; [reflexivity | auto].
Qed.

Lemma areClaimsValid_error_code
    (ctx : clientutil.Context) (client : clientutil.Client) (claims : jwt.Claims) (now : Z)
    (err : goidc.OAuthErrorValue) :
  clientutil.areClaimsValid ctx client claims now = Some err ->
  goidc.ErrorCodeOf err = goidc.ErrorCodeInvalidClient.
Proof.
  unfold clientutil.areClaimsValid.
  destruct (jwt.Expiry claims); [|now intros [= <-]].
  destruct (jwt.IssuedAt claims); [|now intros [= <-]].
  destruct (_ >? _); [now intros [= <-]|].
  destruct (jwt.ValidateWithLeeway _ _ _ _); [now intros [= <-] | discriminate].
Qed.

Section ClientID.

Variable JSONWebToken : Type.
Variable ParseSigned : string -> list string -> option JSONWebToken.
Variable UnsafeClaimsWithoutVerification : JSONWebToken -> option (gomap any).

Lemma assertionClientID_error_code (assertion : string) (sigAlgs : list string)
    (id : string) (err : goidc.OAuthErrorValue) :
  clientutil.assertionClientID JSONWebToken ParseSigned UnsafeClaimsWithoutVerification assertion sigAlgs
    = (id, Some err) ->
  goidc.ErrorCodeOf err = goidc.ErrorCodeInvalidClient.
Proof.
  unfold clientutil.assertionClientID.
  destruct (ParseSigned assertion sigAlgs) as [parsed|]; [|now intros [= _ <-]].
  destruct (UnsafeClaimsWithoutVerification parsed) as [[entries|]|];
    try (now intros [= _ <-]).
  destruct (entries !! clientutil.ClaimIssuer) as [[]|]; now intros [= _ <-].
Qed.

Lemma extractID_last_step (ids : list string) :
  let result :=
    match ids with
    | [] => ("", goidc.NewOAuthError goidc.ErrorCodeInvalidClient "invalid client id")
    | first :: _ =>
        if negb (clientutil.allEquals ids)
        then ("", goidc.NewOAuthError goidc.ErrorCodeInvalidClient "invalid client id")
        else (first, None)
    end in
  (forall id, result = (id, None) -> ids <> [] /\ forall x, x ∈ ids -> x = id)
  /\ (forall id err, result = (id, Some err) ->
        id = "" /\ goidc.ErrorCodeOf err = goidc.ErrorCodeInvalidClient).
Proof.
  cbn zeta. destruct ids as [|first rest].
  - split; [discriminate|]. intros id err [= <- <-]. now split.
  - destruct (clientutil.allEquals (first :: rest)) eqn:Hall; cbn [negb].
    + split; [|discriminate]. intros id [= <-]. split; [discriminate|].
      intros x Hx. inversion Hx; subst; [reflexivity|].
      now apply (proj1 (allEquals_cons first rest) Hall).
    + split; [discriminate|]. intros id err [= <- <-]. now split.
Qed.

Lemma extractID_error_code (ctx : clientutil.AuthnContext)
    (id : string) (err : goidc.OAuthErrorValue) :
  clientutil.extractID JSONWebToken ParseSigned UnsafeClaimsWithoutVerification ctx
    = (id, Some err) ->
  goidc.ErrorCodeOf err = goidc.ErrorCodeInvalidClient.
Proof.
  unfold clientutil.extractID.
  destruct (clientutil.BasicAuth (clientutil.Req ctx)) as [[basicID secret] ok].
  set (assertion :=
         clientutil.PostFormValue (clientutil.Req ctx) clientutil.assertionFormPostParam).
  destruct (negb (String.eqb assertion "")).
  - destruct (clientutil.assertionClientID JSONWebToken ParseSigned
                UnsafeClaimsWithoutVerification assertion (clientutil.ClientAuthnSigAlgs ctx))
      as [assertionID [e|]] eqn:Hid.
    + intros [= _ <-]. eapply assertionClientID_error_code, Hid.
    + intros H. eapply (proj2 (extractID_last_step _)), H.
  - intros H. eapply (proj2 (extractID_last_step _)), H.
Qed.

(** X25. A client id that [extractID] returns is the one every credential
    of the request names: the posted 'client_id' if there is one, the user
    name of the basic credentials if it is not empty, and the issuer of
    the posted client assertion if there is one, and at least one of the
    three is present.  Every error of [extractID] is 'invalid_client'. *)
Theorem X25_extractID_agrees_with_every_credential (ctx : clientutil.AuthnContext) :
  let postID := clientutil.PostFormValue (clientutil.Req ctx) clientutil.idFormPostParam in
  let basicID := fst (fst (clientutil.BasicAuth (clientutil.Req ctx))) in
  let assertion :=
    clientutil.PostFormValue (clientutil.Req ctx) clientutil.assertionFormPostParam in
  (forall id,
     (clientutil.extractID JSONWebToken ParseSigned UnsafeClaimsWithoutVerification ctx) = (id, None) ->
     (postID <> "" -> postID = id)
     /\ (basicID <> "" -> basicID = id)
     /\ (assertion <> "" ->
         clientutil.assertionClientID JSONWebToken ParseSigned UnsafeClaimsWithoutVerification
           assertion (clientutil.ClientAuthnSigAlgs ctx) = (id, None))
     /\ (postID <> "" \/ basicID <> "" \/ assertion <> ""))
  /\ (forall id err,
        (clientutil.extractID JSONWebToken ParseSigned UnsafeClaimsWithoutVerification ctx) = (id, Some err) ->
        id = "" /\ goidc.ErrorCodeOf err = goidc.ErrorCodeInvalidClient).
Proof.
  cbn zeta. unfold clientutil.extractID.
  destruct (clientutil.BasicAuth (clientutil.Req ctx)) as [[basicID secret] ok].
  cbn [fst].
  set (postID := clientutil.PostFormValue (clientutil.Req ctx) clientutil.idFormPostParam).
  set (assertion :=
         clientutil.PostFormValue (clientutil.Req ctx) clientutil.assertionFormPostParam).
  set (ids1 := if negb (String.eqb postID "") then ([] ++ [postID])%list else []).
  set (ids2 := if negb (String.eqb basicID "") then (ids1 ++ [basicID])%list else ids1).
  assert (Hids1 : forall x, x ∈ ids1 <-> x = postID /\ postID <> "").
  { intros x. subst ids1. destruct (String.eqb postID "") eqn:Hpost; cbn [negb app].
    - apply String.eqb_eq in Hpost. rewrite elem_of_nil. tauto.
    - apply String_eqb_false_iff in Hpost. rewrite list_elem_of_singleton. tauto. }
  assert (Hids2 : forall x, x ∈ ids2 <-> x ∈ ids1 \/ (x = basicID /\ basicID <> "")).
  { intros x. subst ids2. destruct (String.eqb basicID "") eqn:Hbasic; cbn [negb].
    - apply String.eqb_eq in Hbasic. tauto.
    - apply String_eqb_false_iff in Hbasic.
      rewrite elem_of_app, list_elem_of_singleton. tauto. }
  clearbody ids1 ids2.
  destruct (String.eqb assertion "") eqn:Hassertion; cbn [negb].
  - apply String.eqb_eq in Hassertion.
    destruct (extractID_last_step ids2) as [Hok Herr]. cbn zeta in Hok, Herr.
    split; [|exact Herr]. intros id Hid. destruct (Hok id Hid) as [Hne Hall].
    split; [|split; [|split]].
    + intros Hpost. apply Hall, Hids2. left. now apply Hids1.
    + intros Hbasic. apply Hall, Hids2. now right.
    + congruence.
    + destruct ids2 as [|x rest]; [congruence|].
      assert (Hx : x ∈ x :: rest) by left.
      apply Hids2 in Hx as [Hx|[_ Hx]]; [apply Hids1 in Hx as [_ Hx]|]; auto.
  - apply String_eqb_false_iff in Hassertion.
    destruct (clientutil.assertionClientID JSONWebToken ParseSigned UnsafeClaimsWithoutVerification
                assertion (clientutil.ClientAuthnSigAlgs ctx))
      as [assertionID [e|]] eqn:Hid.
    + split; [discriminate|]. intros id err [= <- <-].
      split; [reflexivity | eapply assertionClientID_error_code, Hid].
    + destruct (extractID_last_step (ids2 ++ [assertionID])) as [Hok Herr].
      cbn zeta in Hok, Herr.
      split; [|exact Herr]. intros id Hres. destruct (Hok id Hres) as [_ Hall].
      split; [|split; [|split]].
      * intros Hpost. apply Hall, elem_of_app. left. apply Hids2. left. now apply Hids1.
      * intros Hbasic. apply Hall, elem_of_app. left. apply Hids2. now right.
      * intros _. f_equal. apply Hall, elem_of_app. right. left.
      * auto.
Qed.

End ClientID.

Section AuthnProperties.

Variable CompareHashAndPassword : string -> string -> error.
Variable JSONWebToken : Type.
Variable ParseSigned : string -> list string -> option JSONWebToken.
Variable Headers : JSONWebToken -> list clientutil.Header.
Variable Claims : JSONWebToken -> string -> option jwt.Claims.
Variable JWKByKeyID :
  clientutil.AuthnContext -> clientutil.AuthnClient -> string -> clientutil.JSONWebKey * error.
Variable JWKByAlg :
  clientutil.AuthnContext -> clientutil.AuthnClient -> string -> clientutil.JSONWebKey * error.
Variable FetchPublicJWKS : clientutil.AuthnClient -> list clientutil.JSONWebKey * error.
Variable hashSHA256 : string -> string.
Variable hashSHA1 : string -> string.
Variable comparePublicKeys : string -> string -> bool.
Variable now : Z.
Variable UnsafeClaimsWithoutVerification : JSONWebToken -> option (gomap any).
Variable LookupClient : string -> clientutil.AuthnClient * error.

Ltac error_code :=
  repeat match goal with
         | |- context [match ?x with _ => _ end] => destruct x eqn:?
         end;
  first [ discriminate
        | now intros [= <-]
        | now apply areClaimsValid_error_code ].

Lemma authenticateSecretPost_error_code
    (ctx : clientutil.AuthnContext) (c : clientutil.AuthnClient) (err : goidc.OAuthErrorValue) :
  clientutil.authenticateSecretPost CompareHashAndPassword ctx c = Some err ->
  goidc.ErrorCodeOf err = goidc.ErrorCodeInvalidClient.
Proof.
  unfold clientutil.authenticateSecretPost, clientutil.validateSecret. error_code.
Qed.

Lemma authenticateSecretBasic_error_code
    (ctx : clientutil.AuthnContext) (c : clientutil.AuthnClient) (err : goidc.OAuthErrorValue) :
  clientutil.authenticateSecretBasic CompareHashAndPassword ctx c = Some err ->
  goidc.ErrorCodeOf err = goidc.ErrorCodeInvalidClient.
Proof.
  unfold clientutil.authenticateSecretBasic, clientutil.validateSecret. error_code.
Qed.

Lemma assertion_error_code
    (ctx : clientutil.AuthnContext) (a : string) (err : goidc.OAuthErrorValue) :
  clientutil.assertion ctx = (a, Some err) ->
  goidc.ErrorCodeOf err = goidc.ErrorCodeInvalidClient.
Proof.
  unfold clientutil.assertion.
  destruct (negb _); [now intros [= _ <-]|].
  destruct (String.eqb _ _); [now intros [= _ <-] | discriminate].
Qed.

Lemma authenticatePrivateKeyJWT_error_code
    (ctx : clientutil.AuthnContext) (c : clientutil.AuthnClient) (err : goidc.OAuthErrorValue) :
  clientutil.authenticatePrivateKeyJWT JSONWebToken ParseSigned Headers Claims
    JWKByKeyID JWKByAlg now ctx c = Some err ->
  goidc.ErrorCodeOf err = goidc.ErrorCodeInvalidClient.
Proof.
  unfold clientutil.authenticatePrivateKeyJWT.
  destruct (clientutil.assertion ctx) as [a [e|]] eqn:Ha.
  { intros [= <-]. eapply assertion_error_code, Ha. }
  destruct (ParseSigned _ _) as [parsed|]; [|now intros [= <-]].
  destruct (Headers parsed) as [|header [|]]; try (now intros [= <-]).
  unfold clientutil.jwkMatchingHeader.
  destruct (negb (String.eqb (clientutil.KeyID header) "")).
  - destruct (JWKByKeyID ctx c (clientutil.KeyID header)) as [jwk [e|]];
      [now intros [= <-]|].
    destruct (Claims parsed (clientutil.Key jwk));
      [apply areClaimsValid_error_code | now intros [= <-]].
  - destruct (JWKByAlg ctx c (clientutil.Algorithm header)) as [jwk [e|]];
      [now intros [= <-]|].
    destruct (Claims parsed (clientutil.Key jwk));
      [apply areClaimsValid_error_code | now intros [= <-]].
Qed.

Lemma authenticateSecretJWT_error_code
    (ctx : clientutil.AuthnContext) (c : clientutil.AuthnClient) (err : goidc.OAuthErrorValue) :
  clientutil.authenticateSecretJWT JSONWebToken ParseSigned Claims now ctx c = Some err ->
  goidc.ErrorCodeOf err = goidc.ErrorCodeInvalidClient.
Proof.
  unfold clientutil.authenticateSecretJWT.
  destruct (clientutil.assertion ctx) as [a [e|]] eqn:Ha.
  { intros [= <-]. eapply assertion_error_code, Ha. }
  error_code.
Qed.

Lemma authenticateTLSCert_error_code
    (ctx : clientutil.AuthnContext) (c : clientutil.AuthnClient) (err : goidc.OAuthErrorValue) :
  clientutil.authenticateTLSCert ctx c = Some err ->
  goidc.ErrorCodeOf err = goidc.ErrorCodeInvalidClient.
Proof. unfold clientutil.authenticateTLSCert. error_code. Qed.

Lemma authenticateSelfSignedTLSCert_error_code
    (ctx : clientutil.AuthnContext) (c : clientutil.AuthnClient) (err : goidc.OAuthErrorValue) :
  clientutil.authenticateSelfSignedTLSCert FetchPublicJWKS hashSHA256 hashSHA1
    comparePublicKeys ctx c = Some err ->
  goidc.ErrorCodeOf err = goidc.ErrorCodeInvalidClient
  \/ (goidc.ErrorCodeOf err = goidc.ErrorCodeInternalError
      /\ exists jwks msg, FetchPublicJWKS c = (jwks, Some msg)).
Proof.
  unfold clientutil.authenticateSelfSignedTLSCert, clientutil.jwkMatchingCert.
  destruct (negb _); [intros [= <-]; now left|].
  destruct (clientutil.ClientCert ctx) as [cert [e|]]; [intros [= <-]; now left|].
  destruct (FetchPublicJWKS c) as [jwks [msg|]] eqn:Hfetch.
  - intros [= <-]. right. split; [reflexivity | eauto].
  - destruct (clientutil.jwkMatchingCertLoop _ _ _ _); [|intros [= <-]; now left].
    destruct (negb _); [intros [= <-]; now left | discriminate].
Qed.

Lemma authenticate_error_code
    (ctx : clientutil.AuthnContext) (client : clientutil.AuthnClient)
    (err : goidc.OAuthErrorValue) :
  clientutil.authenticate CompareHashAndPassword JSONWebToken ParseSigned Headers Claims
    JWKByKeyID JWKByAlg FetchPublicJWKS hashSHA256 hashSHA1 comparePublicKeys now ctx client
    = Some err ->
  goidc.ErrorCodeOf err = goidc.ErrorCodeInvalidClient
  \/ (goidc.ErrorCodeOf err = goidc.ErrorCodeInternalError
      /\ clientutil.AuthnMethod client = goidc.ClientAuthnSelfSignedTLS
      /\ exists jwks msg, FetchPublicJWKS client = (jwks, Some msg)).
Proof.
  unfold clientutil.authenticate.
  destruct (String.eqb _ goidc.ClientAuthnNone); [discriminate|].
  destruct (String.eqb _ goidc.ClientAuthnSecretPost).
  { intros H. left. eapply authenticateSecretPost_error_code, H. }
  destruct (String.eqb _ goidc.ClientAuthnSecretBasic).
  { intros H. left. eapply authenticateSecretBasic_error_code, H. }
  destruct (String.eqb _ goidc.ClientAuthnPrivateKeyJWT).
  { intros H. left. eapply authenticatePrivateKeyJWT_error_code, H. }
  destruct (String.eqb _ goidc.ClientAuthnSecretJWT).
  { intros H. left. eapply authenticateSecretJWT_error_code, H. }
  destruct (String.eqb _ goidc.ClientAuthnSelfSignedTLS) eqn:Hself.
  { apply String.eqb_eq in Hself. intros H.
    destruct (authenticateSelfSignedTLSCert_error_code _ _ _ H) as [Hc|[Hc Hf]]; auto. }
  destruct (String.eqb _ goidc.ClientAuthnTLS).
  { intros H. left. eapply authenticateTLSCert_error_code, H. }
  intros [= <-]. now left.
Qed.

(** X26. [Authenticated] returns a client only when [extractID] gave an
    id, the client store holds a client for it and [authenticate] accepted
    it; with an error it returns no client.  Every error of [Authenticated]
    and of [authenticate] has the code 'invalid_client', but for one: a
    client of the method self_signed_tls_client_auth whose key set cannot
    be loaded gets 'internal_error'.  A client of the method 'none' is
    authenticated whatever the request holds, and a method that is none of
    the seven known ones is refused. *)
Theorem X26_authenticate_error_codes
    (ctx : clientutil.AuthnContext) (client : clientutil.AuthnClient) :
  (forall found err,
     clientutil.Authenticated CompareHashAndPassword JSONWebToken ParseSigned Headers Claims
       UnsafeClaimsWithoutVerification JWKByKeyID JWKByAlg FetchPublicJWKS hashSHA256 hashSHA1
       comparePublicKeys now LookupClient ctx = (found, Some err) ->
     found = None
     /\ (goidc.ErrorCodeOf err = goidc.ErrorCodeInvalidClient
         \/ (goidc.ErrorCodeOf err = goidc.ErrorCodeInternalError
             /\ exists c jwks msg,
                  clientutil.AuthnMethod c = goidc.ClientAuthnSelfSignedTLS
                  /\ FetchPublicJWKS c = (jwks, Some msg))))
  /\ (forall found,
        clientutil.Authenticated CompareHashAndPassword JSONWebToken ParseSigned Headers Claims
          UnsafeClaimsWithoutVerification JWKByKeyID JWKByAlg FetchPublicJWKS hashSHA256 hashSHA1
          comparePublicKeys now LookupClient ctx = (found, None) ->
        exists c id,
          found = Some c
          /\ clientutil.extractID JSONWebToken ParseSigned UnsafeClaimsWithoutVerification ctx
             = (id, None)
          /\ LookupClient id = (c, None)
          /\ clientutil.authenticate CompareHashAndPassword JSONWebToken ParseSigned Headers
               Claims JWKByKeyID JWKByAlg FetchPublicJWKS hashSHA256 hashSHA1 comparePublicKeys
               now ctx c = None)
  /\ (forall err,
     (clientutil.authenticate CompareHashAndPassword JSONWebToken ParseSigned Headers Claims
     JWKByKeyID JWKByAlg FetchPublicJWKS hashSHA256 hashSHA1 comparePublicKeys now ctx client) = Some err ->
     goidc.ErrorCodeOf err = goidc.ErrorCodeInvalidClient
     \/ (goidc.ErrorCodeOf err = goidc.ErrorCodeInternalError
         /\ clientutil.AuthnMethod client = goidc.ClientAuthnSelfSignedTLS
         /\ exists jwks msg, FetchPublicJWKS client = (jwks, Some msg)))
  /\ (clientutil.AuthnMethod client = goidc.ClientAuthnSelfSignedTLS ->
      clientutil.ID (clientutil.Info client)
        = clientutil.PostFormValue (clientutil.Req ctx) clientutil.idFormPostParam ->
      (exists cert, clientutil.ClientCert ctx = (cert, None)) ->
      (exists jwks msg, FetchPublicJWKS client = (jwks, Some msg)) ->
      (clientutil.authenticate CompareHashAndPassword JSONWebToken ParseSigned Headers Claims
     JWKByKeyID JWKByAlg FetchPublicJWKS hashSHA256 hashSHA1 comparePublicKeys now ctx client)
      = goidc.NewOAuthError goidc.ErrorCodeInternalError "could not load the client JWKS")
  /\ (clientutil.AuthnMethod client = goidc.ClientAuthnNone ->
      (clientutil.authenticate CompareHashAndPassword JSONWebToken ParseSigned Headers Claims
     JWKByKeyID JWKByAlg FetchPublicJWKS hashSHA256 hashSHA1 comparePublicKeys now ctx client) = None)
  /\ (~ clientutil.AuthnMethod client
         ∈ [goidc.ClientAuthnNone; goidc.ClientAuthnSecretPost; goidc.ClientAuthnSecretBasic;
            goidc.ClientAuthnPrivateKeyJWT; goidc.ClientAuthnSecretJWT;
            goidc.ClientAuthnSelfSignedTLS; goidc.ClientAuthnTLS] ->
      (clientutil.authenticate CompareHashAndPassword JSONWebToken ParseSigned Headers Claims
     JWKByKeyID JWKByAlg FetchPublicJWKS hashSHA256 hashSHA1 comparePublicKeys now ctx client)
      = goidc.NewOAuthError goidc.ErrorCodeInvalidClient "invalid authentication method").
Proof.
  split; [|split; [|split; [|split; [|split]]]].
  - intros found err. unfold clientutil.Authenticated.
    destruct (clientutil.extractID _ _ _ ctx) as [id [e|]] eqn:Hid.
    { intros [= <- <-]. split; [reflexivity|]. left.
      eapply extractID_error_code, Hid. }
    destruct (LookupClient id) as [c [e|]]; [intros [= <- <-]; now split; [|left]|].
    destruct (clientutil.authenticate _ _ _ _ _ _ _ _ _ _ _ _ ctx c) as [e|] eqn:Hauthn;
      [|discriminate].
    intros [= <- <-]. split; [reflexivity|].
    destruct (authenticate_error_code _ _ _ Hauthn) as [Hc|(Hc & Hm & jwks & msg & Hf)];
      [now left|].
    right. split; [exact Hc|]. now exists c, jwks, msg.
  - intros found. unfold clientutil.Authenticated.
    destruct (clientutil.extractID _ _ _ ctx) as [id [e|]] eqn:Hid; [discriminate|].
    destruct (LookupClient id) as [c [e|]] eqn:Hc; [discriminate|].
    destruct (clientutil.authenticate _ _ _ _ _ _ _ _ _ _ _ _ ctx c) as [e|] eqn:Hauthn;
      [discriminate|].
    intros [= <-]. now exists c, id.
  - intros err. apply authenticate_error_code.
  - unfold clientutil.authenticate.
    intros -> Hid [cert Hcert] (jwks & msg & Hfetch). cbn.
    unfold clientutil.authenticateSelfSignedTLSCert, clientutil.jwkMatchingCert.
    rewrite Hid, String.eqb_refl, Hcert, Hfetch. reflexivity.
  - unfold clientutil.authenticate. intros ->. reflexivity.
  - unfold clientutil.authenticate. intros Hnone.
    assert (Hne : forall m, m ∈ [goidc.ClientAuthnNone; goidc.ClientAuthnSecretPost;
                                 goidc.ClientAuthnSecretBasic; goidc.ClientAuthnPrivateKeyJWT;
                                 goidc.ClientAuthnSecretJWT; goidc.ClientAuthnSelfSignedTLS;
                                 goidc.ClientAuthnTLS] ->
                            String.eqb (clientutil.AuthnMethod client) m = false).
    { intros m Hm. apply String_eqb_false_iff. intros Heq. apply Hnone. now rewrite Heq. }
    rewrite !Hne by (solve [repeat first [left | right]]). reflexivity.
Qed.

End AuthnProperties.

(** X27. [authenticateTLSCert] accepts exactly when the posted client id
    is the client's, a client certificate is available and either the
    client has a subject distinguished name and the certificate's subject
    equals it, or it has none but has a DNS alternative name and that name
    is among the DNS names of the certificate.  A client that has both is
    checked against the distinguished name only. *)
Theorem X27_authenticateTLSCert_prefers_the_distinguished_name
    (ctx : clientutil.AuthnContext) (c : clientutil.AuthnClient) :
  clientutil.authenticateTLSCert ctx c = None
  <-> clientutil.ID (clientutil.Info c)
      = clientutil.PostFormValue (clientutil.Req ctx) clientutil.idFormPostParam
      /\ exists cert,
           clientutil.ClientCert ctx = (cert, None)
           /\ ((clientutil.TLSSubDistinguishedName c <> ""
                /\ clientutil.TLSSubDistinguishedName c = clientutil.Subject cert)
               \/ (clientutil.TLSSubDistinguishedName c = ""
                   /\ clientutil.TLSSubAlternativeName c <> ""
                   /\ clientutil.TLSSubAlternativeName c ∈ clientutil.DNSNames cert)).
Proof.
  unfold clientutil.authenticateTLSCert.
  destruct (String.eqb (clientutil.ID (clientutil.Info c)) _) eqn:Hid; cbn [negb].
  2: { apply String_eqb_false_iff in Hid. split; [discriminate | tauto]. }
  apply String.eqb_eq in Hid.
  destruct (clientutil.ClientCert ctx) as [cert [e|]].
  { split; [discriminate|]. intros (_ & cert' & [= _ ?] & _). }
  destruct (String.eqb (clientutil.TLSSubDistinguishedName c) "") eqn:Hdn; cbn [negb].
  - apply String.eqb_eq in Hdn.
    destruct (String.eqb (clientutil.TLSSubAlternativeName c) "") eqn:Hsan; cbn [negb].
    + apply String.eqb_eq in Hsan. split; [discriminate|].
      intros (_ & cert' & _ & [[? _]|(_ & ? & _)]); contradiction.
    + apply String_eqb_false_iff in Hsan.
      destruct (Contains _ _) eqn:Hin; cbn [negb].
      * apply Contains_true_iff in Hin. split; [|reflexivity].
        intros _. split; [exact Hid|]. exists cert. split; [reflexivity|]. now right.
      * apply Contains_false_iff in Hin. split; [discriminate|].
        intros (_ & cert' & [= <-] & [[? _]|(_ & _ & ?)]); contradiction.
  - apply String_eqb_false_iff in Hdn.
    destruct (String.eqb (clientutil.TLSSubDistinguishedName c) (clientutil.Subject cert))
      eqn:Hsub; cbn [negb].
    + apply String.eqb_eq in Hsub. split; [|reflexivity].
      intros _. split; [exact Hid|]. exists cert. split; [reflexivity|]. now left.
    + apply String_eqb_false_iff in Hsub. split; [discriminate|].
      intros (_ & cert' & [= <-] & [[_ ?]|[? _]]); contradiction.
Qed.

(** The theorem of [extractID] at a request whose three credentials name
    the client [c1]. *)
Lemma X25_extractID_witness :
  clientutil.extractID string fixtures.parse_signed fixtures.unsafe_claims fixtures.authn_ctx
  = ("c1", None)
  /\ clientutil.assertionClientID string fixtures.parse_signed fixtures.unsafe_claims
       "header.claims.signature" (clientutil.ClientAuthnSigAlgs fixtures.authn_ctx)
     = ("c1", None).
Proof.
  assert (Hid : clientutil.extractID string fixtures.parse_signed fixtures.unsafe_claims
                  fixtures.authn_ctx = ("c1", None)) by (vm_compute; reflexivity).
  split; [exact Hid|].
  destruct (proj1 (X25_extractID_agrees_with_every_credential string fixtures.parse_signed
                     fixtures.unsafe_claims fixtures.authn_ctx) "c1" Hid)
    as (_ & _ & Hassertion & _).
  apply Hassertion. vm_compute. discriminate.
Defined.

(** The theorem of [authenticateTLSCert] at a client that has both a
    distinguished name and an alternative name: the certificate matches
    the first, and lacks the second. *)
Lemma X27_authenticateTLSCert_witness :
  clientutil.authenticateTLSCert fixtures.authn_ctx fixtures.tls_client = None
  /\ clientutil.TLSSubAlternativeName fixtures.tls_client
     ∉ clientutil.DNSNames fixtures.c1_certificate.
Proof.
  split.
  - apply (proj2 (X27_authenticateTLSCert_prefers_the_distinguished_name
                    fixtures.authn_ctx fixtures.tls_client)).
    split; [reflexivity|]. exists fixtures.c1_certificate. split; [reflexivity|].
    left. split; [discriminate | reflexivity].
  - intros Hin. apply list_elem_of_singleton in Hin. discriminate.
Defined.

(* ===================================================================== *)
(** * Further properties: the Authorization header and the server keys    *)
(* ===================================================================== *)

Lemma Split_one (s : string) : forall b, Split s = [b] -> s = b.
Proof.
  induction s as [|c s IH]; simpl; intros b.
  - now intros [= <-].
  - destruct (Ascii.eqb c space).
    + intros [= _ Hnil]. now apply Split_not_nil in Hnil.
    + destruct (Split s) as [|w ws] eqn:Hs; [now apply Split_not_nil in Hs|].
      intros [= <- ->]. now rewrite (IH w).
Qed.

Lemma Split_two (s : string) : forall a b,
  Split s = [a; b] -> s = (a ++ String space b)%string.
Proof.
  induction s as [|c s IH]; simpl; intros a b.
  - discriminate.
  - destruct (Ascii.eqb c space) eqn:Hc.
    + apply Ascii.eqb_eq in Hc. subst c.
      intros [= <- Hb]. now rewrite (Split_one s b Hb).
    + destruct (Split s) as [|w ws] eqn:Hs; [now apply Split_not_nil in Hs|].
      intros [= <- ->]. now rewrite (IH w b).
Qed.

Lemma Split_without_space (b : string) :
  space ∉ list_ascii_of_string b -> Split b = [b].
Proof.
  induction b as [|c b IH]; simpl; intros Hb; [reflexivity|].
  destruct (Ascii.eqb c space) eqn:Hc.
  - apply Ascii.eqb_eq in Hc. subst c. destruct Hb. left.
  - rewrite IH; [reflexivity|]. intros Hin. apply Hb. now right.
Qed.

Lemma Split_around_space (a b : string) :
  space ∉ list_ascii_of_string a ->
  Split (a ++ String space b) = a :: Split b.
Proof.
  induction a as [|c a IH]; intros Ha.
  - reflexivity.
  - change (String c a ++ String space b)%string with (String c (a ++ String space b)).
    simpl in *.
    destruct (Ascii.eqb c space) eqn:Hc.
    + apply Ascii.eqb_eq in Hc. subst c. destruct Ha. left.
    + rewrite IH; [reflexivity|]. intros Hin. apply Ha. now right.
Qed.

(** X28. [BearerToken] accepts an Authorization header exactly when it is
    the word 'Bearer', one space, and a token without spaces, and it
    returns that token: the scheme is compared case-sensitively, more or
    fewer spaces are refused, and the header 'Bearer ' with nothing after
    the space is accepted with the empty token. *)
Theorem X28_BearerToken_accepts_exactly (authorization token : string) :
  (oidc.BearerToken authorization = (token, true)
   <-> authorization = ("Bearer " ++ token)%string /\ space ∉ list_ascii_of_string token)
  /\ (forall result, oidc.BearerToken authorization = (result, false) -> result = "")
  /\ oidc.BearerToken "Bearer " = ("", true).
Proof.
  split; [|split; [|reflexivity]].
  - unfold oidc.BearerToken, oidc.AuthorizationToken, oidc.Header. split.
    + destruct (String.eqb authorization "") eqn:Hempty; [discriminate|].
      destruct (Split authorization) as [|tokenType [|tok [|]]] eqn:Hsplit;
        try discriminate.
      cbn [negb].
      destruct (String.eqb tokenType goidc.TokenTypeBearer) eqn:Htype; [|discriminate].
      apply String.eqb_eq in Htype. subst tokenType. intros [= <-].
      split; [exact (Split_two _ _ _ Hsplit)|].
      apply (Split_no_space authorization). rewrite Hsplit. right. left.
    + intros [-> Hclean].
      assert (Hne : String.eqb ("Bearer " ++ token) "" = false) by reflexivity.
      rewrite Hne.
      change ("Bearer " ++ token)%string with ("Bearer" ++ String space token)%string.
      rewrite Split_around_space, (Split_without_space token Hclean).
      * reflexivity.
      * cbn. intros Hin.
        repeat (apply elem_of_cons in Hin as [Hin|Hin]; [discriminate|]).
        inversion Hin.
  - intros result. unfold oidc.BearerToken.
    destruct (oidc.AuthorizationToken authorization) as [[tok tokenType] ok].
    destruct ok; cbn [negb]; [|now intros [= <-]].
    destruct (String.eqb tokenType goidc.TokenTypeBearer); cbn [negb];
      [discriminate | now intros [= <-]].
Qed.

(** X29. [getPrivateKeyBasedOnAlgorithmOrDefault] never looks at which
    algorithm is asked for: for any two algorithms that are not empty it
    returns the same key, the first key of the first key id of the list
    (the default key when the list is empty).  So a client that asks for
    PS256 on a server whose ID-token keys are an RS256 key and a PS256 key
    gets the RS256 key. *)
Theorem X29_signature_key_ignores_the_algorithm
    (ctx : utils.Configuration) (alg1 alg2 defaultKeyID : string) (keyIDs : list string) :
  (alg1 <> "" -> alg2 <> "" ->
   utils.getPrivateKeyBasedOnAlgorithmOrDefault ctx alg1 defaultKeyID keyIDs
   = utils.getPrivateKeyBasedOnAlgorithmOrDefault ctx alg2 defaultKeyID keyIDs)
  /\ (alg1 <> "" ->
      forall keyID rest, keyIDs = keyID :: rest ->
        utils.getPrivateKeyBasedOnAlgorithmOrDefault ctx alg1 defaultKeyID keyIDs
        = utils.getPrivateKey ctx keyID)
  /\ (alg1 = "" \/ keyIDs = [] ->
      utils.getPrivateKeyBasedOnAlgorithmOrDefault ctx alg1 defaultKeyID keyIDs
      = utils.getPrivateKey ctx defaultKeyID)
  /\ utils.GetIDTokenSignatureKey fixtures.two_keys "PS256" = Ret fixtures.rs256_key
  /\ fixtures.ps256_key ∈ utils.PrivateJWKS fixtures.two_keys.
Proof.
  unfold utils.getPrivateKeyBasedOnAlgorithmOrDefault. repeat split.
  - intros H1 H2. apply String_eqb_false_iff in H1, H2. now rewrite H1, H2.
  - intros H1 keyID rest ->. apply String_eqb_false_iff in H1. now rewrite H1.
  - intros [-> | ->]; [reflexivity|]. now destruct (negb _).
  - right. left.
Qed.

(* ===================================================================== *)
(** * Further properties: the refresh_token grant                         *)
(* ===================================================================== *)

Section RefreshGrantStore.

Variable Manager : Type.
Variable GetByRefreshToken : Manager -> string -> GrantSession.t * error.
Variable CreateOrUpdate : Manager -> GrantSession.t -> Manager * error.
Variable GetAuthenticatedClient :
  token.ClientAuthnRequest.t -> token.Client.t * goidc.OAuthError.
Variable MakeToken : token.Client.t -> GrantSession.t -> token.Token.t.
Variable MakeIdToken : token.Client.t -> GrantSession.t -> string.

(** X30. The refresh_token grant does not report a failure of the
    grant-session store: when the request is valid and the store refuses
    the write, [updateRefreshTokenGrantSession] returns 'internal_error',
    but [handleRefreshTokenGrantTokenCreation] still answers without error,
    with the new access token and with the refresh token of the session
    that was not saved. *)
Theorem X30_refresh_grant_hides_a_failed_save
    (ctx : token.Context Manager) (req : token.TokenRequest.t)
    (client : token.Client.t) (g : GrantSession.t) (msg : string) :
  token.TokenRequest.RefreshToken req <> "" ->
  GetAuthenticatedClient (token.TokenRequest.AuthnRequest req) = (client, None) ->
  GetByRefreshToken (token.GrantSessionManager ctx) (token.TokenRequest.RefreshToken req)
    = (g, None) ->
  token.validateRefreshTokenGrantRequest req client g (token.Now ctx) = None ->
  (forall m g', snd (CreateOrUpdate m g') = Some msg) ->
  snd (token.updateRefreshTokenGrantSession Manager CreateOrUpdate ctx g req
         (MakeToken client g))
    = goidc.NewOAuthError goidc.ErrorCodeInternalError msg
  /\ exists ctx' resp,
       token.handleRefreshTokenGrantTokenCreation Manager GetByRefreshToken CreateOrUpdate
         GetAuthenticatedClient MakeToken MakeIdToken ctx req
       = (ctx', resp, None)
       /\ token.TokenResponse.AccessToken resp = token.Token.Value (MakeToken client g)
       /\ token.TokenResponse.RefreshToken resp
          = (if token.ShouldRotateRefreshTokens ctx
             then GrantSession.GenerateRefreshToken (token.Entropy ctx) (token.EntropyPos ctx)
             else GrantSession.RefreshToken g).
Proof.
  intros Htoken Hclient Hsession Hvalid Hdown.
  assert (Hupdate : forall tok,
            exists ctx1 g1,
              token.updateRefreshTokenGrantSession Manager CreateOrUpdate ctx g req tok
              = (ctx1, g1, goidc.NewOAuthError goidc.ErrorCodeInternalError msg)
              /\ GrantSession.RefreshToken g1
                 = (if token.ShouldRotateRefreshTokens ctx
                    then GrantSession.GenerateRefreshToken (token.Entropy ctx)
                           (token.EntropyPos ctx)
                    else GrantSession.RefreshToken g)).
  { intros tok. unfold token.updateRefreshTokenGrantSession.
    destruct (token.ShouldRotateRefreshTokens ctx);
      match goal with
      | |- context [CreateOrUpdate ?m ?g'] =>
          pose proof (Hdown m g') as Hsnd;
          destruct (CreateOrUpdate m g') as [m' [e|]]; simpl in Hsnd; [|discriminate];
          injection Hsnd as ->; do 2 eexists; split; reflexivity
      end. }
  split.
  - destruct (Hupdate (MakeToken client g)) as (ctx1 & g1 & -> & _). reflexivity.
  - unfold token.handleRefreshTokenGrantTokenCreation,
           token.preValidateRefreshTokenGrantRequest,
           token.getAuthenticatedClientAndGrantSession,
           token.getGrantSessionByRefreshToken.
    apply String_eqb_false_iff in Htoken. rewrite Htoken, Hclient, Hsession, Hvalid.
    destruct (Hupdate (MakeToken client g)) as (ctx1 & g1 & -> & Hrefresh).
    do 2 eexists. split; [reflexivity|]. split; [reflexivity | exact Hrefresh].
Qed.

End RefreshGrantStore.

(** The theorem at the store of [fixtures] when it refuses every write:
    the client still gets an access token. *)
Lemma X30_refresh_grant_witness :
  exists ctx' resp,
    token.handleRefreshTokenGrantTokenCreation (list GrantSession.t)
      fixtures.list_GetByRefreshToken fixtures.failing_CreateOrUpdate
      fixtures.authenticated fixtures.make_token fixtures.make_id_token
      (fixtures.token_ctx false 0) (fixtures.refresh_request "c1" "")
    = (ctx', resp, None)
    /\ token.TokenResponse.AccessToken resp = "access-token-1"
    /\ token.TokenResponse.RefreshToken resp = fixtures.refresh_token_0.
Proof.
  refine (proj2 (X30_refresh_grant_hides_a_failed_save (list GrantSession.t)
                   fixtures.list_GetByRefreshToken fixtures.failing_CreateOrUpdate
                   fixtures.authenticated fixtures.make_token fixtures.make_id_token
                   (fixtures.token_ctx false 0) (fixtures.refresh_request "c1" "")
                   fixtures.client_c1 fixtures.grant_session "the store is down"
                   _ _ _ _ _)).
  - vm_compute. discriminate.
  - reflexivity.
  - vm_compute. reflexivity.
  - vm_compute. reflexivity.
  - intros m g'. reflexivity.
Defined.
